(** * tmrl: the SAC and REDQ-SAC training steps

    A shallow embedding of [tmrl/custom/custom_algorithms.py]: the two
    dataclasses [SpinupSacAgent] and [REDQSACAgent], their [__post_init__]
    and their [train] methods.

    - Python floats and tensor elements are elements of an abstract number
      structure [FloatOps].  The laws [FloatLaws] are those of an
      idealised arithmetic (no rounding, no overflow, no NaN); the laws
      [OrderLaws] of the order and of [torch.min] are those of floats
      with a NaN.
    - A batched tensor of shape (B,) is a [vec num B]; the parameters of a
      module are the [list num] of their elements in [parameters()] order.
    - [self] is an explicit record, threaded through a state-and-exception
      monad together with the two global random generators (torch's, used
      by the actor, and numpy's, used by [np.random.choice]).  A raised
      exception keeps the state reached so far, as an in-place mutated
      Python object does.
    - The calls of the approximator return tensors of the batch size,
      the batch has the shapes that its type gives it, and every tensor
      lives on one device (the field [device] is left out).
    - The approximator (actor, critics: [tmrl.custom.custom_models]),
      autograd, Adam and numpy's generator are external collaborators:
      they are the fields of the classes [Approximator], [Autograd] and
      [NumpyRandom].  [np.random.choice] is numpy's: the checks of its
      arguments, then a prefix of [permutation].
    - The base class [TrainingAgent] ([tmrl.training]) is taken to add no
      attribute to the ones that the dataclass fields and [__post_init__]
      give an agent.
    - A loss tensor is its value together with the function of the
      parameters that its autograd graph stands for; [backward()] is the
      gradient of that function, everything detached or computed under
      [no_grad] being a constant of it.
    - The numbers in the comments of [train] are the lines of the source. *)

From Stdlib Require Import ZArith QArith Qcanon Lia.
From stdpp Require Import base option list vector gmap strings.

Close Scope Q_scope.
Close Scope Qc_scope.
Open Scope Z_scope.

(** ** Numbers *)

Class FloatOps := {
  num : Type;
  zero : num;
  one : num;
  add : num → num → num;
  sub : num → num → num;
  mul : num → num → num;
  div : num → num → num;
  opp : num → num;
  nmin : num → num → num;      (* torch.min on two elements *)
  exp : num → num;             (* torch.exp *)
  log : num → num;             (* torch.log *)
  of_Z : Z → num;              (* int -> float *)
  le : num → num → Prop;
}.

(** The laws of the idealised arithmetic that the proofs rely on. *)
Class FloatLaws (F : FloatOps) : Prop := {
  mul_comm : ∀ x y : num, mul x y = mul y x;
  mul_one_r : ∀ x : num, mul x one = x;
  mul_zero_r : ∀ x : num, mul x zero = zero;
  add_zero_l : ∀ x : num, add zero x = x;
  add_zero_r : ∀ x : num, add x zero = x;
  sub_one_one : sub one one = zero;
  sub_one_zero : sub one zero = one;
}.

(** The order of floats, as it is with a NaN: a comparison with NaN is
    false, so a number is not NaN exactly when it compares to itself. *)
Definition not_nan {F : FloatOps} (x : num) : Prop := le x x.

(** [torch.min] returns NaN when one of its arguments is NaN; it is
    below both of them when neither is. *)
Class OrderLaws (F : FloatOps) : Prop := {
  le_trans : ∀ x y z : num, le x y → le y z → le x z;
  le_not_nan : ∀ x y : num, le x y → not_nan x;
  nmin_le_l : ∀ x y : num, not_nan x → not_nan y → le (nmin x y) x;
  nmin_le_r : ∀ x y : num, not_nan x → not_nan y → le (nmin x y) y;
}.

(** ** Exceptions and the state monad *)

Inductive Exn :=
  | AttributeError
  | ZeroDivisionError
  | ValueError
  | IndexError
  | RuntimeError
  | UnboundLocalError.

(** Which optimizer an event is about. *)
Inductive OptId := AlphaOpt | CriticOpt | ActorOpt.

Definition same_opt (o1 o2 : OptId) : bool :=
  match o1, o2 with
  | AlphaOpt, AlphaOpt | CriticOpt, CriticOpt | ActorOpt, ActorOpt => true
  | _, _ => false
  end.

(** ** Tensors of shape (B,) *)

Abbreviation tensor B := (vec num B).

Section Tensors.
Context {F : FloatOps}.

Definition tsum {B} (t : tensor B) : num := foldr add zero (vec_to_list t).

(* t.mean() *)
Definition mean {B} (t : tensor B) : num := div (tsum t) (of_Z (Z.of_nat B)).

(* x ** 2 *)
Definition square (x : num) : num := mul x x.

(* ((q - backup) ** 2).mean() *)
Definition mse {B} (q backup : tensor B) : num :=
  mean (vzip_with (λ x y, square (sub x y)) q backup).

(* torch.min(q1, q2) *)
Definition tmin {B} (q1 q2 : tensor B) : tensor B := vzip_with nmin q1 q2.

(** ** Polyak averaging of one module's parameters

    [for p, p_targ in zip(...): p_targ.data.mul_(polyak);
     p_targ.data.add_((1 - polyak) * p.data)].
    [zip] stops at the shorter list; the parameters of the target
    beyond it are not touched. *)
Definition polyak_elem (polyak p p_targ : num) : num :=
  add (mul p_targ polyak) (mul (sub one polyak) p).

Fixpoint polyak_update (polyak : num) (ps p_targs : list num) : list num :=
  match ps, p_targs with
  | p :: ps', t :: ts' => polyak_elem polyak p t :: polyak_update polyak ps' ts'
  | _, _ => p_targs
  end.
End Tensors.

(** ** The external collaborators *)

(** The approximator interface: [actor(observation) -> (action,
    log_probability)], sampled with torch's generator, and
    [critic(observation, action) -> value].  [Obs B] and [Act B] are
    batches of [B] observations and actions. *)
Class Approximator (F : FloatOps) := {
  Obs : nat → Type;
  Act : nat → Type;
  trng : Type;
  forward_actor : ∀ B, list num → Obs B → trng → Act B * tensor B * trng;
  forward_critic : ∀ B, list num → Obs B → Act B → tensor B;
}.
Arguments forward_actor {F _ B} _ _ _.
Arguments forward_critic {F _ B} _ _ _.

(** Autograd and the Adam optimizer.  [grad f p] is the gradient at [p]
    of a loss given as a function of the parameters that require grad;
    [Adam lr] is a fresh optimizer, [adam_step] one [step()]. *)
Class Autograd (F : FloatOps) := {
  grad : (list num → num) → list num → list num;
  Opt : Type;
  Adam : num → Opt;
  adam_step : Opt → list num → list num → Opt * list num;
}.

(** numpy's global generator: [permutation n] as used by
    [np.random.choice(n, m, replace=False)]. *)
Class NumpyRandom := {
  nprng : Type;
  np_permutation : nat → nprng → list nat * nprng;
}.

Class NumpyRandomLaws (R : NumpyRandom) : Prop := {
  np_permutation_perm : ∀ n g, (np_permutation n g).1 ≡ₚ seq 0 n;
}.

Section Monad.
Context {F : FloatOps} {AP : Approximator F} {AG : Autograd F} {NR : NumpyRandom}.

(** Ghost trace of what a call did, in order. *)
Inductive Event :=
  | Backward (o : OptId) (loss : num)   (* zero_grad(); loss.backward() *)
  | Step (o : OptId)                    (* optimizer.step() *)
  | SampleIdxs (idxs : list nat)        (* np.random.choice *)
  | TargetMin (preds : list (list num)) (min_q : list num)
  | PolyakUpdate.

Record World (S : Type) := MkWorld {
  self : S;
  torch_rng : trng;
  np_rng : nprng;
  trace : list Event;
}.
Global Arguments MkWorld {S} _ _ _ _.
Global Arguments self {S} _.
Global Arguments torch_rng {S} _.
Global Arguments np_rng {S} _.
Global Arguments trace {S} _.

Definition M (S A : Type) : Type := World S → (Exn + A) * World S.

Definition ret {S A} (x : A) : M S A := λ w, (inr x, w).

Definition bind {S A B} (m : M S A) (k : A → M S B) : M S B :=
  λ w, match m w with
       | (inr x, w') => k x w'
       | (inl e, w') => (inl e, w')
       end.

Definition raise {S A} (e : Exn) : M S A := λ w, (inl e, w).

(* self.f *)
Definition read {S A} (f : S → A) : M S A := λ w, (inr (f (self w)), w).

(* self.f where the attribute may never have been assigned *)
Definition getattr {S A} (f : S → option A) : M S A :=
  λ w, match f (self w) with
       | Some x => (inr x, w)
       | None => (inl AttributeError, w)
       end.

(* a local variable that only one branch of an [if] binds *)
Definition bound {S A} (x : option A) : M S A :=
  match x with
  | Some v => ret v
  | None => raise UnboundLocalError
  end.

Definition modify {S} (f : S → S) : M S unit :=
  λ w, (inr tt, MkWorld (f (self w)) (torch_rng w) (np_rng w) (trace w)).

Definition emit {S} (e : Event) : M S unit :=
  λ w, (inr tt, MkWorld (self w) (torch_rng w) (np_rng w) (trace w ++ [e])).

(* module(o): a sample of the actor with parameters [θ]; also returns
   the generator state the sample was drawn from, which is what the
   autograd graph of the sample remembers (reparameterised noise). *)
Definition run_actor {S B} (θ : S → list num) (o : Obs B)
  : M S (Act B * tensor B * trng) :=
  λ w, let res := forward_actor (θ (self w)) o (torch_rng w) in
       (inr (res.1.1, res.1.2, torch_rng w),
        MkWorld (self w) res.2 (np_rng w) (trace w)).
End Monad.

Notation "'let*' x := c 'in' k" := (bind c (λ x, k))
  (at level 10, x pattern, c at level 100, k at level 200, only parsing).
Notation "c ;; k" := (bind c (λ _, k))
  (at level 100, right associativity, only parsing).

(** ** What both agents share *)

Section Common.
Context {F : FloatOps} {AP : Approximator F} {AG : Autograd F} {NR : NumpyRandom}.

(** A batch [(o, a, r, o2, d)] of [bsz] transitions. *)
Record Batch := MkBatch {
  bsz : nat;
  b_o : Obs bsz;
  b_a : Act bsz;
  b_r : tensor bsz;
  b_o2 : Obs bsz;
  b_d : tensor bsz;
}.

(** The shape of a gym space, as far as the agents look at it. *)
Definition Space : Type := list Z.

(* -np.prod(action_space.shape).astype(np.float32); the product is
   taken in Z (no wrap-around of int64, no rounding to float32) *)
Definition default_target_entropy (action_space : Space) : num :=
  opp (of_Z (foldr Z.mul 1 action_space)).

(* -(log_alpha * (logp_pi + target_entropy).detach()).mean(),
   as a function of log_alpha, the only tensor of it that requires grad.
   A loss tensor is kept as its value together with this function, its
   autograd graph. *)
Definition loss_alpha_of {B} (logp_pi : tensor B) (target_entropy : num)
    (log_alpha : num) : num :=
  opp (mean (vmap (λ x, mul log_alpha (add x target_entropy)) logp_pi)).

(* r + gamma * (1 - d) * (q_pi_targ - alpha_t * logp_a2) *)
Definition bellman_backup {B} (gamma : num) (r d q_pi_targ : tensor B)
    (alpha_t : num) (logp_a2 : tensor B) : tensor B :=
  let one_minus_d := vmap (sub one) d in
  let discount := vmap (mul gamma) one_minus_d in
  let entropy := vmap (mul alpha_t) logp_a2 in
  let soft_q := vzip_with sub q_pi_targ entropy in
  vzip_with add r (vzip_with mul discount soft_q).

(* One step of an Adam optimizer bound to the one-element tensor
   [log_alpha], after [loss.backward()] for the loss [f]. *)
Definition step_scalar (opt : Opt) (f : num → num) (x : num) : Opt * num :=
  let g := grad (λ l, f (nth 0 l x)) [x] in
  let res := adam_step opt [x] g in
  (res.1, nth 0 res.2 x).

(* One step of an Adam optimizer bound to the parameters [θ] of a
   module, after [loss.backward()] for the loss [f]. *)
Definition step_module (opt : Opt) (f : list num → num) (θ : list num)
    : Opt * list num :=
  adam_step opt θ (grad f θ).
End Common.

(** ** Soft Actor-Critic: [SpinupSacAgent] *)

Module Sac.
Section Sac.
Context {F : FloatOps} {AP : Approximator F} {AG : Autograd F} {NR : NumpyRandom}.

(** [core.MLPActorCritic]: the parameters of its three modules. *)
Record Model := MkModel {
  actor : list num;
  q1 : list num;
  q2 : list num;
}.

(** The arguments of the dataclass. *)
Record Config := MkConfig {
  c_observation_space : Space;
  c_action_space : Space;
  c_model_cls : Space → Space → Model;
  c_gamma : num;
  c_polyak : num;
  c_alpha : num;
  c_lr_actor : num;
  c_lr_critic : num;
  c_lr_entropy : num;
  c_learn_entropy_coef : bool;
  c_target_entropy : option num;
}.

(** The object after [__post_init__].  The attributes that only one
    branch of [__post_init__] assigns are options. *)
Record Agent := MkAgent {
  gamma : num;
  polyak : num;
  alpha : num;
  learn_entropy_coef : bool;
  target_entropy : num;
  model : Model;
  model_target : Model;
  pi_optimizer : Opt;
  (* Adam over chain(q1.parameters(), q2.parameters()): Adam keeps its
     moments per parameter, so it is one optimizer state per module *)
  q_optimizer : Opt * Opt;
  log_alpha : option num;
  alpha_optimizer : option Opt;
  alpha_t : option num;
}.

Definition set_model (f : Model → Model) (s : Agent) : Agent :=
  MkAgent (gamma s) (polyak s) (alpha s) (learn_entropy_coef s)
    (target_entropy s) (f (model s)) (model_target s) (pi_optimizer s)
    (q_optimizer s) (log_alpha s) (alpha_optimizer s) (alpha_t s).

Definition set_model_target (f : Model → Model) (s : Agent) : Agent :=
  MkAgent (gamma s) (polyak s) (alpha s) (learn_entropy_coef s)
    (target_entropy s) (model s) (f (model_target s)) (pi_optimizer s)
    (q_optimizer s) (log_alpha s) (alpha_optimizer s) (alpha_t s).

Definition set_pi_optimizer (o : Opt) (s : Agent) : Agent :=
  MkAgent (gamma s) (polyak s) (alpha s) (learn_entropy_coef s)
    (target_entropy s) (model s) (model_target s) o
    (q_optimizer s) (log_alpha s) (alpha_optimizer s) (alpha_t s).

Definition set_q_optimizer (o : Opt * Opt) (s : Agent) : Agent :=
  MkAgent (gamma s) (polyak s) (alpha s) (learn_entropy_coef s)
    (target_entropy s) (model s) (model_target s) (pi_optimizer s)
    o (log_alpha s) (alpha_optimizer s) (alpha_t s).

Definition set_log_alpha (o : Opt) (la : num) (s : Agent) : Agent :=
  MkAgent (gamma s) (polyak s) (alpha s) (learn_entropy_coef s)
    (target_entropy s) (model s) (model_target s) (pi_optimizer s)
    (q_optimizer s) (Some la) (Some o) (alpha_t s).

Definition __post_init__ (c : Config) : Agent :=
  let model := c_model_cls c (c_observation_space c) (c_action_space c) in
  let model_target := model in                        (* deepcopy *)
  let target_entropy :=
    match c_target_entropy c with
    | None => default_target_entropy (c_action_space c)
    | Some te => te
    end in
  MkAgent (c_gamma c) (c_polyak c) (c_alpha c) (c_learn_entropy_coef c)
    target_entropy model model_target
    (Adam (c_lr_actor c)) (Adam (c_lr_critic c), Adam (c_lr_critic c))
    (if c_learn_entropy_coef c then Some (log (mul one (c_alpha c))) else None)
    (if c_learn_entropy_coef c then Some (Adam (c_lr_entropy c)) else None)
    (if c_learn_entropy_coef c then None else Some (c_alpha c)).

(* SpinupSacAgent(...): the generated __init__ stores the fields and
   calls __post_init__, which raises nothing of its own *)
Definition new (c : Config) : Exn + Agent := inr (__post_init__ c).

(* (loss_q1 + loss_q2) / 2, as a function of the parameters of q1, q2 *)
Definition loss_q_of {B} (o : Obs B) (a : Act B) (backup : tensor B)
    (θ1 θ2 : list num) : num :=
  let q1 := forward_critic θ1 o a in
  let q2 := forward_critic θ2 o a in
  let loss_q1 := mse q1 backup in
  let loss_q2 := mse q2 backup in
  div (add loss_q1 loss_q2) (of_Z 2).

(* (alpha_t * logp_pi - q_pi).mean() of lines 151-158, as a function of
   the parameters of the actor; [eps] is the noise of the sample of
   line 75, the critics are frozen. *)
Definition loss_pi_of {B} (o : Obs B) (eps : trng) (alpha_t : num)
    (θ1 θ2 : list num) (θ : list num) : num :=
  let sample := forward_actor θ o eps in
  let pi := sample.1.1 in
  let logp_pi := sample.1.2 in
  let q1_pi := forward_critic θ1 o pi in
  let q2_pi := forward_critic θ2 o pi in
  let q_pi := tmin q1_pi q2_pi in
  mean (vzip_with sub (vmap (mul alpha_t) logp_pi) q_pi).

(* zip(self.model.parameters(), self.model_target.parameters()):
   parameters() goes through the modules in order and the target is a
   deepcopy of the model, so the pairs are the pairs of corresponding
   parameters, module by module *)
Definition polyak_model (ρ : num) (m m_targ : Model) : Model :=
  MkModel (polyak_update ρ (actor m) (actor m_targ))
          (polyak_update ρ (q1 m) (q1 m_targ))
          (polyak_update ρ (q2 m) (q2 m_targ)).

Definition train (batch : Batch) : M Agent (gmap string num) :=
  let 'MkBatch B o a r o2 d := batch in
  (* 75 *)
  let* (pi, logp_pi, eps) := run_actor (λ s, actor (model s)) o in
  (* 82-95 *)
  let* learn := read learn_entropy_coef in
  let* (alpha_t, loss_alpha) :=
    (if learn : bool then
       let* la := getattr log_alpha in
       let alpha_t := exp la in
       let* la := getattr log_alpha in
       let* te := read target_entropy in
       let graph := loss_alpha_of logp_pi te in
       ret (alpha_t, Some (graph la, graph))
     else
       let* alpha_t := getattr alpha_t in
       ret (alpha_t, None)) in
  (* 101-104 *)
  match loss_alpha with
  | Some (loss, graph) =>
      let* opt := getattr alpha_optimizer in
      emit (Backward AlphaOpt loss) ;;
      let* la := getattr log_alpha in
      let res := step_scalar opt graph la in
      modify (set_log_alpha res.1 res.2) ;;
      emit (Step AlphaOpt)
  | None => ret tt
  end ;;
  (* 112-114 *)
  let* θ1 := read (λ s, q1 (model s)) in
  let* θ2 := read (λ s, q2 (model s)) in
  let q1_v := forward_critic θ1 o a in
  let q2_v := forward_critic θ2 o a in
  (* 118-126, under no_grad *)
  let* (a2, logp_a2, _) := run_actor (λ s, actor (model s)) o2 in
  let* θ1_targ := read (λ s, q1 (model_target s)) in
  let* θ2_targ := read (λ s, q2 (model_target s)) in
  let q1_pi_targ := forward_critic θ1_targ o2 a2 in
  let q2_pi_targ := forward_critic θ2_targ o2 a2 in
  let q_pi_targ := tmin q1_pi_targ q2_pi_targ in
  emit (TargetMin [vec_to_list q1_pi_targ; vec_to_list q2_pi_targ]
                  (vec_to_list q_pi_targ)) ;;
  let* γ := read gamma in
  let backup := bellman_backup γ r d q_pi_targ alpha_t logp_a2 in
  (* 131-133 *)
  let loss_q1 := mse q1_v backup in
  let loss_q2 := mse q2_v backup in
  let loss_q := div (add loss_q1 loss_q2) (of_Z 2) in
  (* 135-137 *)
  emit (Backward CriticOpt loss_q) ;;
  let* q_opt := read q_optimizer in
  let res1 := step_module q_opt.1 (λ θ, loss_q_of o a backup θ θ2) θ1 in
  let res2 := step_module q_opt.2 (λ θ, loss_q_of o a backup θ1 θ) θ2 in
  modify (set_q_optimizer (res1.1, res2.1)) ;;
  modify (set_model (λ m, MkModel (actor m) res1.2 res2.2)) ;;
  emit (Step CriticOpt) ;;
  (* 151-158, the critics frozen (143-144) *)
  let* θ1' := read (λ s, q1 (model s)) in
  let* θ2' := read (λ s, q2 (model s)) in
  let q1_pi := forward_critic θ1' o pi in
  let q2_pi := forward_critic θ2' o pi in
  let q_pi := tmin q1_pi q2_pi in
  let loss_pi := mean (vzip_with sub (vmap (mul alpha_t) logp_pi) q_pi) in
  (* 160-162 *)
  emit (Backward ActorOpt loss_pi) ;;
  let* pi_opt := read pi_optimizer in
  let* θ := read (λ s, actor (model s)) in
  let res := step_module pi_opt (loss_pi_of o eps alpha_t θ1' θ2') θ in
  modify (set_pi_optimizer res.1) ;;
  modify (set_model (λ m, MkModel res.2 (q1 m) (q2 m))) ;;
  emit (Step ActorOpt) ;;
  (* 170-176 *)
  let* ρ := read polyak in
  let* m := read model in
  modify (set_model_target (polyak_model ρ m)) ;;
  emit PolyakUpdate ;;
  (* 180-190 *)
  let ret_dict : gmap string num :=
    {[ "loss_actor"%string := loss_pi; "loss_critic"%string := loss_q ]} in
  let* learn := read learn_entropy_coef in
  if learn : bool then
    match loss_alpha with
    | Some (loss, _) =>
        ret (<["entropy_coef"%string := alpha_t]>
               (<["loss_entropy_coef"%string := loss]> ret_dict))
    | None => raise AttributeError      (* None.detach() *)
    end
  else ret ret_dict.
End Sac.
End Sac.

(** ** REDQ-SAC: [REDQSACAgent] *)

Section Stacked.
Context {F : FloatOps} {AP : Approximator F} {AG : Autograd F} {NR : NumpyRandom}.

(* [f(x) for x in xs] where [f] may raise *)
Fixpoint mapM {S A B} (f : A → M S B) (xs : list A) : M S (list B) :=
  match xs with
  | [] => ret []
  | x :: xs' =>
      let* y := f x in
      let* ys := mapM f xs' in
      ret (y :: ys)
  end.

(** A tensor of shape (B, K) made by [torch.stack(list, -1)]: the
    non-empty list of its K columns, first column apart. *)
Definition Stacked (B : nat) : Type := tensor B * list (tensor B).

Definition columns {B} (t : Stacked B) : list (tensor B) := t.1 :: t.2.

(* torch.stack(list, -1); raises on an empty list *)
Definition stack {S B} (ts : list (tensor B)) : M S (Stacked B) :=
  match ts with
  | [] => raise RuntimeError
  | t :: ts' => ret (t, ts')
  end.

(* torch.min(t, dim=1, keepdim=True)[0] *)
Definition min_dim1 {B} (t : Stacked B) : tensor B := foldl tmin t.1 t.2.

(* torch.mean(t, dim=1, keepdim=True) *)
Definition mean_dim1 {B} (t : Stacked B) : tensor B :=
  vmap (λ s, div s (of_Z (Z.of_nat (length (columns t)))))
       (foldr (vzip_with add) (vreplicate B zero) (columns t)).

(** [torch.nn.MSELoss()(input, target)] for an input of K columns and
    the target [backup.expand((-1, n))], all of whose [n] columns are
    [backup].  The two shapes (B, K) and (B, n) are broadcast: they must
    agree unless one of K, n is 1. *)
Definition broadcastable (K n : nat) : bool :=
  bool_decide (K = n) || bool_decide (K = 1%nat) || bool_decide (n = 1%nat).

Definition broadcast_input {B} (t : Stacked B) (n : nat) : list (tensor B) :=
  match t.2 with
  | [] => replicate n t.1
  | _ => columns t
  end.

Definition mse_loss_value {B} (cols : list (tensor B)) (backup : tensor B)
    (n : nat) : num :=
  match cols with
  | [] => zero
  | c :: cs =>
      let input := broadcast_input (c, cs) n in
      let errs := map (λ q, tsum (vzip_with (λ x y, square (sub x y)) q backup)) input in
      div (foldr add zero errs) (of_Z (Z.of_nat (B * length input)))
  end.

Definition mse_loss {S B} (t : Stacked B) (backup : tensor B) (n : nat)
    : M S num :=
  if broadcastable (length (columns t)) n
  then ret (mse_loss_value (columns t) backup n)
  else raise RuntimeError.

(* np.random.choice(n, m, replace=False) of the legacy generator:
   the checks of its arguments, then permutation(n)[:m] *)
Definition np_random_choice {S} (n m : Z) : M S (list nat) :=
  if bool_decide (n ≤ 0 ∧ m ≠ 0) then raise ValueError
  else if bool_decide (m > n) then raise ValueError
  else if bool_decide (m < 0) then raise ValueError
  else λ w,
    let res := np_permutation (Z.to_nat n) (np_rng w) in
    (inr (take (Z.to_nat m) res.1),
     MkWorld (self w) (torch_rng w) res.2 (trace w)).

(* for opt in optimizers: opt.step(), each optimizer bound to the
   parameters of one critic, with the gradients of the last backward *)
Fixpoint step_all (opts : list Opt) (θs gs : list (list num))
    : list Opt * list (list num) :=
  match opts, θs, gs with
  | opt :: opts', θ :: θs', g :: gs' =>
      let res := adam_step opt θ g in
      let rest := step_all opts' θs' gs' in
      (res.1 :: rest.1, res.2 :: rest.2)
  | _, _, _ => (opts, θs)
  end.

(* Polyak averaging over the critics of an ensemble, pair by pair *)
Fixpoint polyak_list (ρ : num) (ms m_targs : list (list num)) : list (list num) :=
  match ms, m_targs with
  | m :: ms', t :: ts' => polyak_update ρ m t :: polyak_list ρ ms' ts'
  | _, _ => m_targs
  end.
End Stacked.

Module Redq.
Section Redq.
Context {F : FloatOps} {AP : Approximator F} {AG : Autograd F} {NR : NumpyRandom}.

(** [core.REDQMLPActorCritic]: the parameters of the actor and of each
    critic of [model.qs]. *)
Record Model := MkModel {
  actor : list num;
  qs : list (list num);
}.

(** The arguments of the dataclass. *)
Record Config := MkConfig {
  c_observation_space : Space;
  c_action_space : Space;
  c_model_cls : Space → Space → Model;
  c_gamma : num;
  c_polyak : num;
  c_alpha : num;
  c_lr_actor : num;
  c_lr_critic : num;
  c_lr_entropy : num;
  c_learn_entropy_coef : bool;
  c_target_entropy : option num;
  c_n : Z;
  c_m : Z;
  c_q_updates_per_policy_update : Z;
}.

(** The object after [__post_init__]. *)
Record Agent := MkAgent {
  gamma : num;
  polyak : num;
  alpha : num;
  learn_entropy_coef : bool;
  target_entropy : num;
  n : Z;
  m : Z;
  q_updates_per_policy_update : Z;
  model : Model;
  model_target : Model;
  pi_optimizer : Opt;
  q_optimizer_list : list Opt;
  loss_pi : num;
  i_update : Z;
  log_alpha : option num;
  alpha_optimizer : option Opt;
  alpha_t : option num;
}.

Definition set_model (f : Model → Model) (s : Agent) : Agent :=
  MkAgent (gamma s) (polyak s) (alpha s) (learn_entropy_coef s)
    (target_entropy s) (n s) (m s) (q_updates_per_policy_update s)
    (f (model s)) (model_target s) (pi_optimizer s) (q_optimizer_list s)
    (loss_pi s) (i_update s) (log_alpha s) (alpha_optimizer s) (alpha_t s).

Definition set_model_target (f : Model → Model) (s : Agent) : Agent :=
  MkAgent (gamma s) (polyak s) (alpha s) (learn_entropy_coef s)
    (target_entropy s) (n s) (m s) (q_updates_per_policy_update s)
    (model s) (f (model_target s)) (pi_optimizer s) (q_optimizer_list s)
    (loss_pi s) (i_update s) (log_alpha s) (alpha_optimizer s) (alpha_t s).

Definition set_pi_optimizer (o : Opt) (s : Agent) : Agent :=
  MkAgent (gamma s) (polyak s) (alpha s) (learn_entropy_coef s)
    (target_entropy s) (n s) (m s) (q_updates_per_policy_update s)
    (model s) (model_target s) o (q_optimizer_list s)
    (loss_pi s) (i_update s) (log_alpha s) (alpha_optimizer s) (alpha_t s).

Definition set_q_optimizer_list (o : list Opt) (s : Agent) : Agent :=
  MkAgent (gamma s) (polyak s) (alpha s) (learn_entropy_coef s)
    (target_entropy s) (n s) (m s) (q_updates_per_policy_update s)
    (model s) (model_target s) (pi_optimizer s) o
    (loss_pi s) (i_update s) (log_alpha s) (alpha_optimizer s) (alpha_t s).

Definition set_loss_pi (l : num) (s : Agent) : Agent :=
  MkAgent (gamma s) (polyak s) (alpha s) (learn_entropy_coef s)
    (target_entropy s) (n s) (m s) (q_updates_per_policy_update s)
    (model s) (model_target s) (pi_optimizer s) (q_optimizer_list s)
    l (i_update s) (log_alpha s) (alpha_optimizer s) (alpha_t s).

Definition set_i_update (i : Z) (s : Agent) : Agent :=
  MkAgent (gamma s) (polyak s) (alpha s) (learn_entropy_coef s)
    (target_entropy s) (n s) (m s) (q_updates_per_policy_update s)
    (model s) (model_target s) (pi_optimizer s) (q_optimizer_list s)
    (loss_pi s) i (log_alpha s) (alpha_optimizer s) (alpha_t s).

Definition set_log_alpha (o : Opt) (la : num) (s : Agent) : Agent :=
  MkAgent (gamma s) (polyak s) (alpha s) (learn_entropy_coef s)
    (target_entropy s) (n s) (m s) (q_updates_per_policy_update s)
    (model s) (model_target s) (pi_optimizer s) (q_optimizer_list s)
    (loss_pi s) (i_update s) (Some la) (Some o) (alpha_t s).

Definition __post_init__ (c : Config) : Agent :=
  let model := c_model_cls c (c_observation_space c) (c_action_space c) in
  let model_target := model in                        (* deepcopy *)
  let target_entropy :=
    match c_target_entropy c with
    | None => default_target_entropy (c_action_space c)
    | Some te => te
    end in
  MkAgent (c_gamma c) (c_polyak c) (c_alpha c) (c_learn_entropy_coef c)
    target_entropy (c_n c) (c_m c) (c_q_updates_per_policy_update c)
    model model_target
    (Adam (c_lr_actor c)) (map (λ _, Adam (c_lr_critic c)) (qs model))
    zero 0
    (if c_learn_entropy_coef c then Some (log (mul one (c_alpha c))) else None)
    (if c_learn_entropy_coef c then Some (Adam (c_lr_entropy c)) else None)
    (if c_learn_entropy_coef c then None else Some (c_alpha c)).

(* REDQSACAgent(...): the generated __init__ stores the fields and
   calls __post_init__, which checks none of them and raises nothing
   of its own *)
Definition new (c : Config) : Exn + Agent := inr (__post_init__ c).

(* criterion(q_prediction_cat, backup) of lines 276-280, as a function
   of the parameters of all the critics *)
Definition loss_q_of {B} (o : Obs B) (a : Act B) (backup : tensor B) (n : nat)
    (θs : list (list num)) : num :=
  mse_loss_value (map (λ θ, forward_critic θ o a) θs) backup n.

(* (alpha_t * logp_pi.unsqueeze(-1) - ave_q).mean() of lines 290-293,
   for a non-empty ensemble, as a function of the parameters of the
   actor; [eps] is the noise of the sample of line 251, the critics
   are frozen. *)
Definition loss_pi_of {B} (o : Obs B) (eps : trng) (alpha_t : num)
    (θq : list num) (θqs : list (list num)) (θ : list num) : num :=
  let sample := forward_actor θ o eps in
  let pi := sample.1.1 in
  let logp_pi := sample.1.2 in
  let qs_pi_cat : Stacked B :=
    (forward_critic θq o pi, map (λ θ', forward_critic θ' o pi) θqs) in
  let ave_q := mean_dim1 qs_pi_cat in
  mean (vzip_with sub (vmap (mul alpha_t) logp_pi) ave_q).

Definition polyak_model (ρ : num) (m m_targ : Model) : Model :=
  MkModel (polyak_update ρ (actor m) (actor m_targ))
          (polyak_list ρ (qs m) (qs m_targ)).

Definition train (batch : Batch) : M Agent (gmap string num) :=
  let 'MkBatch B o a r o2 d := batch in
  (* 245 *)
  modify (λ s, set_i_update (i_update s + 1) s) ;;
  (* 246 *)
  let* i := read i_update in
  let* k := read q_updates_per_policy_update in
  let* update_policy :=
    (if bool_decide (k = 0) then raise ZeroDivisionError
     else ret (bool_decide (i `mod` k = 0))) in
  (* 250-251 *)
  let* sample :=
    (if update_policy : bool then
       let* s := run_actor (λ s, actor (model s)) o in ret (Some s)
     else ret None) in
  (* 254-259 *)
  let* learn := read learn_entropy_coef in
  let* (alpha_t, loss_alpha) :=
    (if learn && update_policy then
       let* la := getattr log_alpha in
       let alpha_t := exp la in
       let* la := getattr log_alpha in
       let* (_, logp_pi, _) := bound sample in
       let* te := read target_entropy in
       let graph := loss_alpha_of logp_pi te in
       ret (alpha_t, Some (graph la, graph))
     else
       let* alpha_t := getattr alpha_t in
       ret (alpha_t, None)) in
  (* 261-264 *)
  match loss_alpha with
  | Some (loss, graph) =>
      let* opt := getattr alpha_optimizer in
      emit (Backward AlphaOpt loss) ;;
      let* la := getattr log_alpha in
      let res := step_scalar opt graph la in
      modify (set_log_alpha res.1 res.2) ;;
      emit (Step AlphaOpt)
  | None => ret tt
  end ;;
  (* 266-274, under no_grad *)
  let* (a2, logp_a2, _) := run_actor (λ s, actor (model s)) o2 in
  let* n := read n in
  let* m := read m in
  let* sample_idxs := np_random_choice n m in
  emit (SampleIdxs sample_idxs) ;;
  let* qs_targ := read (λ s, qs (model_target s)) in
  let* q_prediction_next_list :=
    mapM (λ i, match qs_targ !! i with
               | Some θ => ret (forward_critic θ o2 a2)
               | None => raise IndexError
               end) sample_idxs in
  let* q_prediction_next_cat := stack q_prediction_next_list in
  let min_q := min_dim1 q_prediction_next_cat in
  emit (TargetMin (vec_to_list <$> q_prediction_next_list) (vec_to_list min_q)) ;;
  let* γ := read gamma in
  let backup := bellman_backup γ r d min_q alpha_t logp_a2 in
  (* 276-280 *)
  let* θs := read (λ s, qs (model s)) in
  let q_prediction_list := map (λ θ, forward_critic θ o a) θs in
  let* q_prediction_cat := stack q_prediction_list in
  let* loss_q := mse_loss q_prediction_cat backup (Z.to_nat n) in
  (* 282-284 *)
  emit (Backward CriticOpt loss_q) ;;
  let q_grads :=
    imap (λ j θ, grad (λ θ', loss_q_of o a backup (Z.to_nat n) (<[j:=θ']> θs)) θ) θs in
  (* 286-298 *)
  let* policy :=
    (if update_policy : bool then
       let* (pi, logp_pi, eps) := bound sample in
       let qs_pi := map (λ θ, forward_critic θ o pi) θs in
       let* qs_pi_cat := stack qs_pi in
       let ave_q := mean_dim1 qs_pi_cat in
       let loss_pi := mean (vzip_with sub (vmap (mul alpha_t) logp_pi) ave_q) in
       emit (Backward ActorOpt loss_pi) ;;
       let* θ := read (λ s, actor (model s)) in
       let pi_grad :=
         match θs with
         | [] => []
         | θq :: θqs => grad (loss_pi_of o eps alpha_t θq θqs) θ
         end in
       ret (Some (loss_pi, pi_grad))
     else ret None) in
  (* 300-301 *)
  let* q_opts := read q_optimizer_list in
  let res := step_all q_opts θs q_grads in
  modify (set_q_optimizer_list res.1) ;;
  modify (set_model (λ m, MkModel (actor m) res.2)) ;;
  emit (Step CriticOpt) ;;
  (* 303-304 *)
  (if update_policy : bool then
     let* (_, pi_grad) := bound policy in
     let* pi_opt := read pi_optimizer in
     let* θ := read (λ s, actor (model s)) in
     let res := adam_step pi_opt θ pi_grad in
     modify (set_pi_optimizer res.1) ;;
     modify (set_model (λ m, MkModel res.2 (qs m))) ;;
     emit (Step ActorOpt)
   else ret tt) ;;
  (* 306-309 *)
  let* ρ := read polyak in
  let* m := read model in
  modify (set_model_target (polyak_model ρ m)) ;;
  emit PolyakUpdate ;;
  (* 311-312 *)
  (if update_policy : bool then
     let* (loss_pi, _) := bound policy in
     modify (set_loss_pi loss_pi)
   else ret tt) ;;
  (* 313-316 *)
  let* loss_actor := read loss_pi in
  let ret_dict : gmap string num :=
    {[ "loss_actor"%string := loss_actor; "loss_critic"%string := loss_q ]} in
  (* 318-320 *)
  let* learn := read learn_entropy_coef in
  if learn : bool then
    match loss_alpha with
    | Some (loss, _) =>
        ret (<["entropy_coef"%string := alpha_t]>
               (<["loss_entropy_coef"%string := loss]> ret_dict))
    | None => raise AttributeError      (* None.detach() *)
    end
  else ret ret_dict.
End Redq.
End Redq.

(** ** Specification-side definitions for a SAC call *)

Section Events.
Context {F : FloatOps} {AP : Approximator F} {AG : Autograd F} {NR : NumpyRandom}.

(* the optimizer an event belongs to *)
Definition opt_of (e : Event) : option OptId :=
  match e with
  | Backward o _ => Some o
  | Step o => Some o
  | _ => None
  end.

(* the value term [min_q] is below each of the predictions [preds],
   sample by sample *)
Definition min_below (preds : list (list num)) (min_q : list num) : Prop :=
  Forall (λ p, Forall2 le min_q p) preds.

Definition is_polyak (e : Event) : bool :=
  match e with PolyakUpdate => true | _ => false end.

(* the polyak update is performed once in the events of a call, as the
   last of them *)
Definition polyak_last (evs : list Event) : Prop :=
  last evs = Some PolyakUpdate ∧ filter is_polyak evs = [PolyakUpdate].

(* the events of a trace that belong to optimizer [o], in order *)
Definition about (o : OptId) (e : Event) : bool :=
  match opt_of e with
  | Some o' => same_opt o o'
  | None => false
  end.

Definition events_of (o : OptId) (evs : list Event) : list Event :=
  filter (about o) evs.

(* the coefficient optimizer works first: a backward pass for the loss
   [L] and a step open the events of the call, it does nothing after
   that, and the steps of the critics and of the actor come later *)
Definition coefficient_stepped_first (L : num) (evs : list Event) : Prop :=
  ∃ rest, evs = Backward AlphaOpt L :: Step AlphaOpt :: rest ∧
          events_of AlphaOpt rest = [] ∧
          Step CriticOpt ∈ rest ∧ Step ActorOpt ∈ rest.

(* a harness that calls [train] on one batch after the other and
   carries on after an exception *)
Fixpoint calls {S A} (train : Batch → M S A) (bs : list Batch) (w : World S)
    : list (Exn + A) * World S :=
  match bs with
  | [] => ([], w)
  | b :: bs' =>
      let res := train b w in
      let rest := calls train bs' res.2 in
      (res.1 :: rest.1, rest.2)
  end.
End Events.

(** ** Weakest preconditions

    [wp m Q w]: running [m] from [w] ends, with a result or an exception,
    in a state that satisfies [Q]. *)

Section Wp.
Context {F : FloatOps} {AP : Approximator F} {AG : Autograd F} {NR : NumpyRandom}.

Definition wp {S A} (m : M S A) (Q : Exn + A → World S → Prop)
    (w : World S) : Prop :=
  Q (m w).1 (m w).2.

(* the postcondition of the first half of a [bind] *)
Definition wp_then {S A B} (k : A → M S B) (Q : Exn + B → World S → Prop)
    : Exn + A → World S → Prop :=
  λ r w, match r with
         | inr x => wp (k x) Q w
         | inl e => Q (inl e) w
         end.
End Wp.

Module SacSpec.
Section SacSpec.
Context {F : FloatOps} {AP : Approximator F} {AG : Autograd F} {NR : NumpyRandom}.
Import Sac.

(** What [__post_init__] establishes about the optional attributes. *)
Definition ready (s : Agent) : Prop :=
  if learn_entropy_coef s
  then is_Some (log_alpha s) ∧ is_Some (alpha_optimizer s)
  else is_Some (alpha_t s).

(** The entropy coefficient at the start of a call: [exp(log_alpha)]
    when it is learned, the fixed [alpha_t] otherwise. *)
Definition current_alpha (s : Agent) : option num :=
  if learn_entropy_coef s then exp <$> log_alpha s else alpha_t s.

Section Call.
Variables (w : World Agent) (b : Batch) (α : num).

(* step 1: the sample of the live actor at the observations *)
Definition drawn : Act (bsz b) * tensor (bsz b) * trng :=
  forward_actor (actor (model (self w))) (b_o b) (torch_rng w).

(* step 3: the sample of the live actor at the next observations *)
Definition drawn_next : Act (bsz b) * tensor (bsz b) * trng :=
  forward_actor (actor (model (self w))) (b_o2 b) drawn.2.

(* the two target critics at (next observation, next action) *)
Definition target_q1 : tensor (bsz b) :=
  forward_critic (q1 (model_target (self w))) (b_o2 b) drawn_next.1.1.
Definition target_q2 : tensor (bsz b) :=
  forward_critic (q2 (model_target (self w))) (b_o2 b) drawn_next.1.1.

(* their elementwise minimum: the value term of the backup *)
Definition target_min : tensor (bsz b) :=
  fun_to_vec (λ i, nmin (target_q1 !!! i) (target_q2 !!! i)).

(* r + gamma * (1-done) * (min_target_q - alpha_t * next_logp) *)
Definition backup_spec : tensor (bsz b) :=
  fun_to_vec (λ i,
    add (b_r b !!! i)
        (mul (mul (gamma (self w)) (sub one (b_d b !!! i)))
             (sub (target_min !!! i) (mul α (drawn_next.1.2 !!! i))))).

(* the mean of the mean-squared errors of two critics with the
   parameters [θ1] and [θ2] against the backup *)
Definition critic_loss_spec (θ1 θ2 : list num) : num :=
  div (add (mse (forward_critic θ1 (b_o b) (b_a b)) backup_spec)
           (mse (forward_critic θ2 (b_o b) (b_a b)) backup_spec))
      (of_Z 2).

(* the critics after the step of the critic optimizer *)
Definition q1_after : list num :=
  let θ1 := q1 (model (self w)) in
  let θ2 := q2 (model (self w)) in
  (adam_step (q_optimizer (self w)).1 θ1
     (grad (λ θ, critic_loss_spec θ θ2) θ1)).2.
Definition q2_after : list num :=
  let θ1 := q1 (model (self w)) in
  let θ2 := q2 (model (self w)) in
  (adam_step (q_optimizer (self w)).2 θ2
     (grad (λ θ, critic_loss_spec θ1 θ) θ2)).2.

(* mean(alpha_t * logp_pi - min(q1(o, pi), q2(o, pi))) for a sample
   [(pi, logp_pi)] *)
Definition actor_loss_spec (sample : Act (bsz b) * tensor (bsz b) * trng) : num :=
  let pi := sample.1.1 in
  let logp_pi := sample.1.2 in
  mean (fun_to_vec (λ i,
    sub (mul α (logp_pi !!! i))
        (nmin (forward_critic q1_after (b_o b) pi !!! i)
              (forward_critic q2_after (b_o b) pi !!! i)))).

(* the actor after the step of the actor optimizer: the gradient is
   that of the loss of the step-1 sample (its noise is the generator
   state of step 1), seen as a function of the parameters of the
   actor, the critics held fixed *)
Definition actor_after : list num :=
  let θ := actor (model (self w)) in
  (adam_step (pi_optimizer (self w)) θ
     (grad (loss_pi_of (b_o b) (torch_rng w) α q1_after q2_after) θ)).2.

(* -mean(log_alpha * (log_prob_pi + target_entropy)) *)
Definition coef_loss_spec (la : num) : num :=
  opp (mean (fun_to_vec (λ i,
    mul la (add (drawn.1.2 !!! i) (target_entropy (self w)))))).

(* log_alpha after the step of its optimizer: the gradient is that of
   the coefficient loss as a function of log_alpha alone *)
Definition log_alpha_after (opt : Opt) (la : num) : num :=
  (step_scalar opt (loss_alpha_of drawn.1.2 (target_entropy (self w))) la).2.

Definition model_after : Model := MkModel actor_after q1_after q2_after.

(* the events of a call, in order *)
Definition events_spec : list Event :=
  (if learn_entropy_coef (self w)
   then match log_alpha (self w) with
        | Some la => [Backward AlphaOpt (coef_loss_spec la); Step AlphaOpt]
        | None => []
        end
   else []) ++
  [ TargetMin [vec_to_list target_q1; vec_to_list target_q2] (vec_to_list target_min);
    Backward CriticOpt (critic_loss_spec (q1 (model (self w))) (q2 (model (self w))));
    Step CriticOpt;
    Backward ActorOpt (actor_loss_spec drawn);
    Step ActorOpt;
    PolyakUpdate ].

(* the returned mapping *)
Definition ret_spec : gmap string num :=
  let d : gmap string num :=
    {[ "loss_actor"%string := actor_loss_spec drawn;
       "loss_critic"%string :=
         critic_loss_spec (q1 (model (self w))) (q2 (model (self w))) ]} in
  if learn_entropy_coef (self w)
  then match log_alpha (self w) with
       | Some la => <["entropy_coef"%string := α]>
                      (<["loss_entropy_coef"%string := coef_loss_spec la]> d)
       | None => d
       end
  else d.

(** What a completed call has done. *)
Record run_spec (ret : gmap string num) (w' : World Agent) : Prop := {
  run_ret : ret = ret_spec;
  run_trace : trace w' = trace w ++ events_spec;
  run_torch_rng : torch_rng w' = drawn_next.2;
  run_np_rng : np_rng w' = np_rng w;
  run_model : model (self w') = model_after;
  run_model_target :
    model_target (self w') =
      polyak_model (polyak (self w)) model_after (model_target (self w));
  run_log_alpha :
    log_alpha (self w') =
      if learn_entropy_coef (self w)
      then match log_alpha (self w), alpha_optimizer (self w) with
           | Some la, Some opt => Some (log_alpha_after opt la)
           | _, _ => None
           end
      else log_alpha (self w);
  run_alpha_t : alpha_t (self w') = alpha_t (self w);
  run_hyper :
    gamma (self w') = gamma (self w) ∧ polyak (self w') = polyak (self w) ∧
    learn_entropy_coef (self w') = learn_entropy_coef (self w) ∧
    target_entropy (self w') = target_entropy (self w);
}.
End Call.
End SacSpec.
End SacSpec.

(** ** Specification-side definitions for a REDQ call *)

Module RedqSpec.
Section RedqSpec.
Context {F : FloatOps} {AP : Approximator F} {AG : Autograd F} {NR : NumpyRandom}.
Import Redq.

(** What [__post_init__] leaves when the coefficient is learned: a
    [log_alpha] with its optimizer, and no attribute [alpha_t]. *)
Definition learned (s : Agent) : Prop :=
  learn_entropy_coef s = true ∧ alpha_t s = None.

Section Call.
Variables (w : World Agent) (b : Batch) (α : num).

(* the 1-based index of this call: the counter after line 245 *)
Definition call_index : Z := i_update (self w) + 1.

(* the policy is updated on the calls whose index is a multiple of
   q_updates_per_policy_update *)
Definition update_policy : bool :=
  bool_decide (call_index `mod` q_updates_per_policy_update (self w) = 0).

(* the sample of the live actor at the observations, drawn only when
   the policy is updated *)
Definition drawn : Act (bsz b) * tensor (bsz b) * trng :=
  forward_actor (actor (model (self w))) (b_o b) (torch_rng w).

Definition rng_after_drawn : trng :=
  if update_policy then drawn.2 else torch_rng w.

(* the sample of the live actor at the next observations *)
Definition drawn_next : Act (bsz b) * tensor (bsz b) * trng :=
  forward_actor (actor (model (self w))) (b_o2 b) rng_after_drawn.

(* the subset of target critics of this call *)
Definition sample_idxs : list nat :=
  take (Z.to_nat (m (self w)))
       (np_permutation (Z.to_nat (n (self w))) (np_rng w)).1.

(* the prediction of target critic [i] at (next observation, next action) *)
Definition target_q (i : nat) : tensor (bsz b) :=
  forward_critic (qs (model_target (self w)) !!! i) (b_o2 b) drawn_next.1.1.

Definition target_preds : list (tensor (bsz b)) := target_q <$> sample_idxs.

(* the elementwise minimum over the subset: the value term of the backup *)
Definition target_min : tensor (bsz b) :=
  match target_preds with
  | [] => vreplicate (bsz b) zero
  | q :: qs => foldl tmin q qs
  end.

Definition backup_spec : tensor (bsz b) :=
  fun_to_vec (λ i,
    add (b_r b !!! i)
        (mul (mul (gamma (self w)) (sub one (b_d b !!! i)))
             (sub (target_min !!! i) (mul α (drawn_next.1.2 !!! i))))).

(* the mean-squared error of the critics with parameters [θs] against
   the backup, over all samples and critics *)
Definition critic_loss_spec (θs : list (list num)) : num :=
  loss_q_of (b_o b) (b_a b) backup_spec (Z.to_nat (n (self w))) θs.

(* the critics after the steps of their optimizers: each gradient is
   that of the one loss, as a function of one critic's parameters *)
Definition qs_after : list (list num) :=
  let θs := qs (model (self w)) in
  (step_all (q_optimizer_list (self w)) θs
     (imap (λ j θ, grad (λ θ', critic_loss_spec (<[j:=θ']> θs)) θ) θs)).2.

(* mean(alpha_t * logp_pi - mean_j q_j(o, pi)) for the live critics
   before their step *)
Definition actor_loss_spec : num :=
  mean (fun_to_vec (λ i,
    sub (mul α (drawn.1.2 !!! i))
        (match qs (model (self w)) with
         | [] => zero
         | θq :: θqs =>
             mean_dim1 (forward_critic θq (b_o b) drawn.1.1,
                        map (λ θ, forward_critic θ (b_o b) drawn.1.1) θqs) !!! i
         end))).

Definition actor_after : list num :=
  let θ := actor (model (self w)) in
  if update_policy then
    match qs (model (self w)) with
    | [] => θ
    | θq :: θqs =>
        (adam_step (pi_optimizer (self w)) θ
           (grad (loss_pi_of (b_o b) (torch_rng w) α θq θqs) θ)).2
    end
  else θ.

Definition model_after : Model := MkModel actor_after qs_after.

(* self.loss_pi after the call: the last computed actor loss *)
Definition loss_pi_after : num :=
  if update_policy then actor_loss_spec else loss_pi (self w).

Definition coef_loss_spec (la : num) : num :=
  opp (mean (fun_to_vec (λ i,
    mul la (add (drawn.1.2 !!! i) (target_entropy (self w)))))).

Definition log_alpha_after (opt : Opt) (la : num) : num :=
  (step_scalar opt (loss_alpha_of drawn.1.2 (target_entropy (self w))) la).2.

(* the coefficient is optimized on the calls that update the policy *)
Definition coef_events : list Event :=
  if learn_entropy_coef (self w) && update_policy
  then match log_alpha (self w) with
       | Some la => [Backward AlphaOpt (coef_loss_spec la); Step AlphaOpt]
       | None => []
       end
  else [].

Definition events_spec : list Event :=
  coef_events ++
  [ SampleIdxs sample_idxs;
    TargetMin (vec_to_list <$> target_preds) (vec_to_list target_min);
    Backward CriticOpt (critic_loss_spec (qs (model (self w)))) ] ++
  (if update_policy then [Backward ActorOpt actor_loss_spec] else []) ++
  [ Step CriticOpt ] ++
  (if update_policy then [Step ActorOpt] else []) ++
  [ PolyakUpdate ].

Definition ret_spec : gmap string num :=
  let d : gmap string num :=
    {[ "loss_actor"%string := loss_pi_after;
       "loss_critic"%string := critic_loss_spec (qs (model (self w))) ]} in
  if learn_entropy_coef (self w)
  then match log_alpha (self w) with
       | Some la => <["entropy_coef"%string := α]>
                      (<["loss_entropy_coef"%string := coef_loss_spec la]> d)
       | None => d
       end
  else d.

(** The entropy coefficient that a call can use: [exp(log_alpha)] on
    a call that updates the policy of an agent that learns it, the
    attribute [alpha_t] otherwise. *)
Definition current_alpha : option num :=
  if learn_entropy_coef (self w) && update_policy
  then exp <$> log_alpha (self w)
  else alpha_t (self w).

(** The conditions under which a call completes. *)
Record runnable : Prop := {
  ok_utd : q_updates_per_policy_update (self w) ≠ 0;
  ok_phase : learn_entropy_coef (self w) = true → update_policy = true;
  ok_alpha : current_alpha = Some α;
  ok_alpha_optimizer :
    learn_entropy_coef (self w) = true → is_Some (alpha_optimizer (self w));
  ok_subset : 0 < m (self w) ≤ n (self w);
  ok_targets : (Z.to_nat (n (self w)) ≤ length (qs (model_target (self w))))%nat;
  ok_ensemble :
    broadcastable (length (qs (model (self w)))) (Z.to_nat (n (self w))) = true;
  ok_critics : qs (model (self w)) ≠ [];
}.

(** What a completed call has done. *)
Record run_spec (ret : gmap string num) (w' : World Agent) : Prop := {
  run_ret : ret = ret_spec;
  run_trace : trace w' = trace w ++ events_spec;
  run_torch_rng : torch_rng w' = drawn_next.2;
  run_np_rng :
    np_rng w' = (np_permutation (Z.to_nat (n (self w))) (np_rng w)).2;
  run_model : model (self w') = model_after;
  run_model_target :
    model_target (self w') =
      polyak_model (polyak (self w)) model_after (model_target (self w));
  run_loss_pi : loss_pi (self w') = loss_pi_after;
  run_i_update : i_update (self w') = call_index;
  run_log_alpha :
    log_alpha (self w') =
      if learn_entropy_coef (self w) && update_policy
      then match log_alpha (self w), alpha_optimizer (self w) with
           | Some la, Some opt => Some (log_alpha_after opt la)
           | _, _ => None
           end
      else log_alpha (self w);
  run_alpha_t : alpha_t (self w') = alpha_t (self w);
  run_hyper :
    gamma (self w') = gamma (self w) ∧ polyak (self w') = polyak (self w) ∧
    learn_entropy_coef (self w') = learn_entropy_coef (self w) ∧
    target_entropy (self w') = target_entropy (self w) ∧
    n (self w') = n (self w) ∧ m (self w') = m (self w) ∧
    q_updates_per_policy_update (self w') = q_updates_per_policy_update (self w);
}.
End Call.
End RedqSpec.
End RedqSpec.

(** ** Further laws, and what the agents keep from call to call *)

(** The laws of division and of [int -> float] that relate the mean over
    a stacked tensor to the means of its columns. *)
Class MeanLaws (F : FloatOps) : Prop := {
  div_add_distr : ∀ x y z : num, div (add x y) z = add (div x z) (div y z);
  div_zero_l : ∀ z : num, div zero z = zero;
  div_div : ∀ x y z : num, div (div x y) z = div x (mul y z);
  of_Z_mul : ∀ a b : Z, of_Z (a * b) = mul (of_Z a) (of_Z b);
}.

Section Outcomes.
Context {F : FloatOps} {AP : Approximator F} {AG : Autograd F} {NR : NumpyRandom}.

(* the call returned a mapping whose entry [key] is [v] *)
Definition reports (key : string) (v : num) (r : Exn + gmap string num) : Prop :=
  ∃ ret, r = inr ret ∧ ret !! key = Some v.

(** The polyak rule on the parameters of one module: [after] is what
    the loop of lines 172-176 (307-309) makes of the target parameters
    [before], given the live parameters [live] that they are paired
    with. *)
Definition polyak_rule (ρ : num) (live before after : list num) : Prop :=
  length after = length before ∧
  ∀ i p t, live !! i = Some p → before !! i = Some t →
    after !! i = Some (add (mul ρ t) (mul (sub one ρ) p)).

(* the mean over the critics with parameters [θs] of each critic's
   mean-squared error against [backup] *)
Definition ensemble_mean_mse {B} (o : Obs B) (a : Act B) (backup : tensor B)
    (θs : list (list num)) : num :=
  div (foldr add zero (map (λ θ, mse (forward_critic θ o a) backup) θs))
      (of_Z (Z.of_nat (length θs))).
End Outcomes.

Module SacInv.
Section SacInv.
Context {F : FloatOps} {AP : Approximator F} {AG : Autograd F} {NR : NumpyRandom}.
Import Sac.

(** What no call changes, whether it returns or raises. *)
Record kept (w w' : World Agent) : Prop := {
  kept_gamma : gamma (self w') = gamma (self w);
  kept_polyak : polyak (self w') = polyak (self w);
  kept_alpha : alpha (self w') = alpha (self w);
  kept_learn : learn_entropy_coef (self w') = learn_entropy_coef (self w);
  kept_target_entropy : target_entropy (self w') = target_entropy (self w);
  kept_alpha_t : alpha_t (self w') = alpha_t (self w);
  kept_np_rng : np_rng w' = np_rng w;
  kept_trace : ∃ evs, trace w' = trace w ++ evs;
  kept_target_sizes :
    length (actor (model_target (self w'))) = length (actor (model_target (self w))) ∧
    length (q1 (model_target (self w'))) = length (q1 (model_target (self w))) ∧
    length (q2 (model_target (self w'))) = length (q2 (model_target (self w)));
}.

(* the keys of the mapping that a call returns *)
Definition keys_spec (s : Agent) : gset string :=
  if learn_entropy_coef s
  then {[ "loss_actor"%string; "loss_critic"%string;
          "loss_entropy_coef"%string; "entropy_coef"%string ]}
  else {[ "loss_actor"%string; "loss_critic"%string ]}.
End SacInv.
End SacInv.

Module RedqInv.
Section RedqInv.
Context {F : FloatOps} {AP : Approximator F} {AG : Autograd F} {NR : NumpyRandom}.
Import Redq.

(** What no call changes, whether it returns or raises. *)
Record kept (w w' : World Agent) : Prop := {
  kept_gamma : gamma (self w') = gamma (self w);
  kept_polyak : polyak (self w') = polyak (self w);
  kept_alpha : alpha (self w') = alpha (self w);
  kept_learn : learn_entropy_coef (self w') = learn_entropy_coef (self w);
  kept_target_entropy : target_entropy (self w') = target_entropy (self w);
  kept_n : n (self w') = n (self w);
  kept_m : m (self w') = m (self w);
  kept_utd :
    q_updates_per_policy_update (self w') = q_updates_per_policy_update (self w);
  kept_alpha_t : alpha_t (self w') = alpha_t (self w);
  kept_trace : ∃ evs, trace w' = trace w ++ evs;
  kept_critics : length (qs (model (self w'))) = length (qs (model (self w)));
  kept_targets :
    length (qs (model_target (self w'))) = length (qs (model_target (self w)));
  kept_optimizers :
    length (q_optimizer_list (self w')) = length (q_optimizer_list (self w));
}.

(** The arguments with which every call of the agent completes: a
    non-zero UTD ratio, which is 1 if the coefficient is learned, a
    subset size between 1 and N, and N the number of critics of the
    model. *)
Definition valid_config (c : Config) : Prop :=
  c_q_updates_per_policy_update c ≠ 0 ∧
  (c_learn_entropy_coef c = true → c_q_updates_per_policy_update c = 1) ∧
  0 < c_m c ≤ c_n c ∧
  Z.to_nat (c_n c) =
    length (qs (c_model_cls c (c_observation_space c) (c_action_space c))).

(** The same on an agent, as the calls keep it. *)
Definition steady (s : Agent) : Prop :=
  q_updates_per_policy_update s ≠ 0 ∧
  (if learn_entropy_coef s
   then q_updates_per_policy_update s = 1 ∧
        is_Some (log_alpha s) ∧ is_Some (alpha_optimizer s)
   else is_Some (alpha_t s)) ∧
  0 < m s ≤ n s ∧
  (Z.to_nat (n s) ≤ length (qs (model_target s)))%nat ∧
  broadcastable (length (qs (model s))) (Z.to_nat (n s)) = true ∧
  qs (model s) ≠ [].

(* the keys of the mapping that a call returns *)
Definition keys_spec (s : Agent) : gset string :=
  if learn_entropy_coef s
  then {[ "loss_actor"%string; "loss_critic"%string;
          "loss_entropy_coef"%string; "entropy_coef"%string ]}
  else {[ "loss_actor"%string; "loss_critic"%string ]}.
End RedqInv.
End RedqInv.

(** ** A small executable backend

    Rational numbers, a linear actor and linear critics, central
    differences for the gradient and a plain gradient step in the place
    of Adam.  It runs the model on concrete inputs.  [exp] and [log] are
    exact at the only points where the examples evaluate them
    ([exp 0 = 1], [log 1 = 0]). *)

Module Toy.
Definition Qcmin (x y : Qc) : Qc :=
  match (x ?= y)%Qc with Gt => y | _ => x end.

Global Instance float : FloatOps := {|
  num := Qc;
  zero := 0%Qc;
  one := 1%Qc;
  add := Qcplus;
  sub := Qcminus;
  mul := Qcmult;
  div := Qcdiv;
  opp := Qcopp;
  nmin := Qcmin;
  exp := λ x, (1 + x)%Qc;
  log := λ x, (x - 1)%Qc;
  of_Z := λ z, Q2Qc (inject_Z z);
  le := Qcle;
|}.

Definition param (θ : list Qc) (i : nat) : Qc := nth i θ 0%Qc.

Global Instance approximator : Approximator float := {|
  Obs := vec Qc;
  Act := vec Qc;
  trng := Qc;
  forward_actor := λ B θ o g,
    (vmap (λ x, param θ 0 * x + g)%Qc o, vmap (λ x, param θ 1 * x - g)%Qc o, (g + 1)%Qc);
  forward_critic := λ B θ o a,
    vzip_with (λ x y, param θ 0 * x + param θ 1 * y + param θ 2)%Qc o a;
|}.

(* central differences: the exact gradient of a quadratic loss *)
Definition bump (i : nat) (h : Qc) (θ : list Qc) : list Qc :=
  alter (Qcplus h) i θ.

Global Instance autograd : Autograd float := {|
  grad := λ f θ,
    imap (λ i _, (f (bump i 1 θ) - f (bump i (-1) θ)) / Q2Qc (inject_Z 2))%Qc θ;
  Opt := Qc;
  Adam := λ lr, lr;
  adam_step := λ lr θ g, (lr, zip_with (λ p d, p - lr * d)%Qc θ g);
|}.

Global Instance numpy_random : NumpyRandom := {|
  nprng := nat;
  np_permutation := λ n g, (rotate g (seq 0 n), S g);
|}.

Definition q (z : Z) : Qc := Q2Qc (inject_Z z).
Definition frac (a : Z) (b : positive) : Qc := Q2Qc (Qmake a b).

(* a batch of two transitions *)
Definition batch : Batch :=
  MkBatch 2 [# q 1; q 2] [# q 0; q 1] [# q 1; q 0] [# q 2; q 3] [# q 0; q 1].

(* SAC, with a fixed and with a learned entropy coefficient *)
Definition sac_model (_ _ : Space) : Sac.Model :=
  Sac.MkModel [q 1; q 0] [q 1; q 1; q 0] [q 0; q 1; q 1].

Definition sac_config (learn : bool) : Sac.Config :=
  Sac.MkConfig [3%Z] [1%Z] sac_model
    (frac 1 2) (frac 1 2) (q 1) (frac 1 10) (frac 1 10) (frac 1 10) learn None.

Definition sac_world (learn : bool) : World Sac.Agent :=
  MkWorld (Sac.__post_init__ (sac_config learn)) (q 0) 0%nat [].

(* REDQ with two critics *)
Definition redq_model (_ _ : Space) : Redq.Model :=
  Redq.MkModel [q 1; q 0] [[q 1; q 1; q 0]; [q 0; q 1; q 1]].

Definition redq_config (learn : bool) (n m k : Z) : Redq.Config :=
  Redq.MkConfig [3%Z] [1%Z] redq_model
    (frac 1 2) (frac 1 2) (q 1) (frac 1 10) (frac 1 10) (frac 1 10) learn None
    n m k.

Definition redq_world (learn : bool) (n m k : Z) (seed : nat) : World Redq.Agent :=
  MkWorld (Redq.__post_init__ (redq_config learn n m k)) (q 0) seed [].

(* REDQ with the coefficient learned, N = 2, M = 1 and one policy
   update per two calls *)
Definition redq_learned : World Redq.Agent := redq_world true 2 1 2 0.

(* the state after a call, whether it returned or raised *)
Definition after {S A} (m : M S A) (w : World S) : World S := (m w).2.
Definition outcome {S A} (m : M S A) (w : World S) : Exn + A := (m w).1.

(* an entry of a returned mapping, as a fraction *)
Definition reported (key : string) (r : Exn + gmap string Qc) : option Q :=
  match r with
  | inr ret => this <$> ret !! key
  | inl _ => None
  end.
End Toy.

(** Further inputs of the executable backend. *)

Module ToyMore.
Import Toy.

(* the batch of [Toy.batch] with both transitions terminal *)
Definition terminal_batch : Batch :=
  MkBatch 2 [# q 1; q 2] [# q 0; q 1] [# q 1; q 0] [# q 2; q 3]
    (vreplicate 2 one).

(* SAC and REDQ with [polyak = 1] *)
Definition sac_frozen : World Sac.Agent :=
  MkWorld
    (Sac.__post_init__
       (Sac.MkConfig [3%Z] [1%Z] sac_model
          (frac 1 2) one (q 1) (frac 1 10) (frac 1 10) (frac 1 10) false None))
    (q 0) 0%nat [].

Definition redq_frozen : World Redq.Agent :=
  MkWorld
    (Redq.__post_init__
       (Redq.MkConfig [3%Z] [1%Z] redq_model
          (frac 1 2) one (q 1) (frac 1 10) (frac 1 10) (frac 1 10) false None
          2 1 1))
    (q 0) 0%nat [].

(* REDQ with a fixed coefficient, two critics, N = 2 and M = 1 *)
Definition redq_fixed (k : Z) : Redq.Config := redq_config false 2 1 k.

(* the outcomes of the first [n] calls of a harness on the same batch *)
Definition first_calls {S A} (train : Batch → M S A) (n : nat) (w : World S)
    : list (Exn + A) :=
  (calls train (replicate n batch) w).1.

(* a list of parameters, as fractions *)
Definition fractions (θ : list Qc) : list Q := this <$> θ.
End ToyMore.

(** ** The executable backend with a NaN

    The numbers of [Toy] and one more, NaN, which every operation
    propagates and with which every comparison is false; the same
    linear actor and critics, the same gradient and step. *)

Module ToyNaN.
  (* an operation of [Qc] on floats: NaN if an argument is NaN *)
Definition lift2 (f : Qc → Qc → Qc) (x y : option Qc) : option Qc :=
  match x, y with
  | Some a, Some b => Some (f a b)
  | _, _ => None
  end.

Definition float : FloatOps := {|
  num := option Qc;
  zero := Some 0%Qc;
  one := Some 1%Qc;
  add := lift2 Qcplus;
  sub := lift2 Qcminus;
  mul := lift2 Qcmult;
  div := lift2 Qcdiv;
  opp := fmap Qcopp;
  nmin := lift2 Toy.Qcmin;
  exp := fmap (λ x, (1 + x)%Qc);
  log := fmap (λ x, (x - 1)%Qc);
  of_Z := λ z, Some (Q2Qc (inject_Z z));
  le := λ x y, match x, y with
               | Some a, Some b => (a <= b)%Qc
               | _, _ => False
               end;
|}.
#[local] Existing Instance float.

Definition nan : num := None.
Definition q (z : Z) : num := Some (Toy.q z).
Definition frac (a : Z) (b : positive) : num := Some (Toy.frac a b).

Definition param (θ : list num) (i : nat) : num := nth i θ zero.

Definition approximator : Approximator float := {|
  Obs := vec num;
  Act := vec num;
  trng := num;
  forward_actor := λ B θ o g,
    (vmap (λ x, add (mul (param θ 0) x) g) o,
     vmap (λ x, sub (mul (param θ 1) x) g) o,
     add g one);
  forward_critic := λ B θ o a,
    vzip_with (λ x y, add (add (mul (param θ 0) x) (mul (param θ 1) y)) (param θ 2))
              o a;
|}.
#[local] Existing Instance approximator.

Definition bump (i : nat) (h : num) (θ : list num) : list num :=
  alter (add h) i θ.

Definition autograd : Autograd float := {|
  grad := λ f θ,
    imap (λ i _, div (sub (f (bump i (q 1) θ)) (f (bump i (q (-1)) θ))) (q 2)) θ;
  Opt := num;
  Adam := λ lr, lr;
  adam_step := λ lr θ g, (lr, zip_with (λ p d, sub p (mul lr d)) θ g);
|}.
#[local] Existing Instance autograd.
#[local] Existing Instance Toy.numpy_random.

(* the batch of [Toy.batch], the first next observation being NaN *)
Definition batch : Batch :=
  MkBatch 2 [# q 1; q 2] [# q 0; q 1] [# q 1; q 0] [# nan; q 3] [# q 0; q 1].

Definition sac_model (_ _ : Space) : Sac.Model :=
  Sac.MkModel [q 1; q 0] [q 1; q 1; q 0] [q 0; q 1; q 1].

Definition sac_config : Sac.Config :=
  Sac.MkConfig [3%Z] [1%Z] sac_model
    (frac 1 2) (frac 1 2) (q 1) (frac 1 10) (frac 1 10) (frac 1 10) false None.

Definition sac_world : World Sac.Agent :=
  MkWorld (Sac.__post_init__ sac_config) (q 0) 0%nat [].

(* the call of [train] on it *)
Definition sac_call : (Exn + gmap string num) * World Sac.Agent :=
  Sac.train batch sac_world.

(* the predictions of the two target critics and their minimum, at
   the first sample *)
Definition first_target_q1 : num := SacSpec.target_q1 sac_world batch !!! 0%fin.
Definition first_target_q2 : num := SacSpec.target_q2 sac_world batch !!! 0%fin.
Definition first_value_term : num := SacSpec.target_min sac_world batch !!! 0%fin.
End ToyNaN.

(** ** The list comprehension over sampled indices *)

Section MapM.
Context {F : FloatOps} {AP : Approximator F} {AG : Autograd F} {NR : NumpyRandom}.

(** The list comprehension over the sampled indices: it raises
    [IndexError] and changes nothing, or returns the predictions of the
    indexed critics. *)
Lemma mapM_lookup_ok {S B} (θs : list (list num)) (f : list num → tensor B)
    (idxs : list nat) (w : World S) :
  Forall (λ i, (i < length θs)%nat) idxs →
  mapM (λ i, match θs !! i with
             | Some θ => λ w, (inr (f θ), w)
             | None => λ w, (inl IndexError, w)
             end) idxs w
  = (inr ((λ i, f (θs !!! i)) <$> idxs), w).
Proof.
  induction 1 as [|i idxs Hi _ IH]; [done|].
  simpl. unfold bind at 1.
  destruct (lookup_lt_is_Some_2 θs i Hi) as [θ Hθ].
  rewrite Hθ. simpl. unfold bind at 1. rewrite IH. simpl.
  by rewrite (list_lookup_total_correct _ _ _ Hθ).
Qed.

Lemma mapM_lookup_fail {S B} (θs : list (list num)) (f : list num → tensor B)
    (idxs : list nat) (w : World S) :
  ¬ Forall (λ i, (i < length θs)%nat) idxs →
  mapM (λ i, match θs !! i with
             | Some θ => λ w, (inr (f θ), w)
             | None => λ w, (inl IndexError, w)
             end) idxs w
  = (inl IndexError, w).
Proof.
  induction idxs as [|i idxs IH]; intros Hn.
  - destruct Hn. constructor.
  - simpl. unfold bind at 1.
    destruct (θs !! i) as [θ|] eqn:Hθ; simpl; [|done].
    unfold bind at 1. rewrite IH; [done|].
    intros Hall. apply Hn. constructor; [|done].
    by eapply lookup_lt_Some.
Qed.

End MapM.

(** ** Rules of the weakest precondition *)

Section WpRules.
Context {F : FloatOps} {AP : Approximator F} {AG : Autograd F} {NR : NumpyRandom}.
Context {S : Type}.
Implicit Types w : World S.

Lemma wp_bind {A B} (m : M S A) (k : A → M S B) Q w :
  wp m (wp_then k Q) w → wp (bind m k) Q w.
Proof.
  unfold wp, wp_then, bind. by destruct (m w) as [[e|x] w'].
Qed.

Lemma wp_ret {A} (x : A) (Q : Exn + A → World S → Prop) w :
  Q (inr x) w → wp (ret x) Q w.
Proof. done. Qed.

Lemma wp_raise {A} e (Q : Exn + A → World S → Prop) w :
  Q (inl e) w → wp (raise e) Q w.
Proof. done. Qed.

Lemma wp_read {A} (f : S → A) Q w :
  Q (inr (f (self w))) w → wp (read f) Q w.
Proof. done. Qed.

Lemma wp_getattr {A} (f : S → option A) Q w :
  match f (self w) with
  | Some x => Q (inr x) w
  | None => Q (inl AttributeError) w
  end → wp (getattr f) Q w.
Proof. unfold wp, getattr. by destruct (f (self w)). Qed.

Lemma wp_modify (f : S → S) Q w :
  Q (inr tt) (MkWorld (f (self w)) (torch_rng w) (np_rng w) (trace w)) →
  wp (modify f) Q w.
Proof. done. Qed.

Lemma wp_emit e (Q : Exn + unit → World S → Prop) w :
  Q (inr tt) (MkWorld (self w) (torch_rng w) (np_rng w) (trace w ++ [e])) →
  wp (emit e) Q w.
Proof. done. Qed.

Lemma wp_run_actor {B} (θ : S → list num) (o : Obs B) Q w :
  (let res := forward_actor (θ (self w)) o (torch_rng w) in
   Q (inr (res.1.1, res.1.2, torch_rng w))
     (MkWorld (self w) res.2 (np_rng w) (trace w))) →
  wp (run_actor θ o) Q w.
Proof. done. Qed.

Lemma wp_stack {B} (ts : list (tensor B)) Q w :
  match ts with
  | [] => Q (inl RuntimeError) w
  | t :: ts' => Q (inr (t, ts')) w
  end → wp (stack ts) Q w.
Proof. by destruct ts. Qed.

Lemma wp_mse_loss {B} (t : Stacked B) backup n Q w :
  (if broadcastable (length (columns t)) n
   then Q (inr (mse_loss_value (columns t) backup n)) w
   else Q (inl RuntimeError) w) →
  wp (mse_loss t backup n) Q w.
Proof. unfold wp, mse_loss. by destruct (broadcastable _ _). Qed.

Lemma wp_np_random_choice (n m : Z) Q w :
  (¬ (0 ≤ m ≤ n) → Q (inl ValueError) w) →
  (0 ≤ m ≤ n →
   let res := np_permutation (Z.to_nat n) (np_rng w) in
   Q (inr (take (Z.to_nat m) res.1))
     (MkWorld (self w) (torch_rng w) res.2 (trace w))) →
  wp (np_random_choice n m) Q w.
Proof.
  intros Hbad Hok. unfold wp, np_random_choice.
  repeat case_bool_decide; simpl; try (apply Hbad; lia).
  apply Hok. lia.
Qed.

Lemma wp_mapM_lookup {B} (θs : list (list num)) (f : list num → tensor B)
    (idxs : list nat) Q w :
  (¬ Forall (λ i, (i < length θs)%nat) idxs → Q (inl IndexError) w) →
  (Forall (λ i, (i < length θs)%nat) idxs →
   Q (inr ((λ i, f (θs !!! i)) <$> idxs)) w) →
  wp (mapM (λ i, match θs !! i with
                 | Some θ => ret (f θ)
                 | None => raise IndexError
                 end) idxs) Q w.
Proof.
  intros Hbad Hok. unfold wp, ret, raise.
  destruct (decide (Forall (λ i, (i < length θs)%nat) idxs)) as [H|H].
  - rewrite (mapM_lookup_ok θs f idxs w H). by apply Hok.
  - rewrite (mapM_lookup_fail θs f idxs w H). by apply Hbad.
Qed.
End WpRules.

Ltac wp_simpl := cbv beta iota zeta delta [wp_then]; simpl.

Ltac wp_step :=
  wp_simpl;
  lazymatch goal with
  | |- wp (bind _ _) _ _ => apply wp_bind
  | |- wp (ret _) _ _ => apply wp_ret
  | |- wp (raise _) _ _ => apply wp_raise
  | |- wp (read _) _ _ => apply wp_read
  | |- wp (getattr _) _ _ => apply wp_getattr
  | |- wp (modify _) _ _ => apply wp_modify
  | |- wp (emit _) _ _ => apply wp_emit
  | |- wp (run_actor _ _) _ _ => apply wp_run_actor
  | |- wp (stack _) _ _ => apply wp_stack
  | |- wp (mse_loss _ _ _) _ _ => apply wp_mse_loss
  | |- wp (bound _) _ _ => unfold bound
  | |- wp (np_random_choice _ _) _ _ =>
      apply wp_np_random_choice; intros ?; try contradiction
  | |- wp (mapM _ _) _ _ => apply wp_mapM_lookup; intros ?; try contradiction
  | |- wp (if ?c then _ else _) _ _ =>
      first [ match goal with H : c = _ |- _ => rewrite H end
            | destruct c eqn:? ]
  | |- wp (match ?x with _ => _ end) _ _ =>
      first [ match goal with H : x = _ |- _ => rewrite H end
            | destruct x eqn:? ]
  | |- match ?x with _ => _ end =>
      first [ match goal with H : x = _ |- _ => rewrite H end
            | destruct x eqn:? ]
  end.

(** ** Minimum over target critics, and traces *)

Section Shared.
Context {F : FloatOps} {AP : Approximator F} {AG : Autograd F} {NR : NumpyRandom}.

Lemma trace_unchanged (tr evs : list Event) : tr = tr ++ evs → evs = [].
Proof.
  intros H. apply (app_inv_head tr). by rewrite app_nil_r.
Qed.

Section Minimum.
Context {OL : OrderLaws F}.

(** The minimum over the columns of a stacked tensor is below each
    column, at every sample where no column is NaN. *)
Lemma foldl_tmin_below {B} (ts : list (tensor B)) (t : tensor B) (i : fin B) :
  (∀ q, q ∈ t :: ts → not_nan (q !!! i)) →
  ∀ q, q ∈ t :: ts → le (foldl tmin t ts !!! i) (q !!! i).
Proof.
  revert t. induction ts as [|t' ts IH]; intros t Hnn q Hq.
  - simpl. apply list_elem_of_singleton in Hq as ->.
    apply Hnn, list_elem_of_here.
  - simpl.
    assert (Hl : le (tmin t t' !!! i) (t !!! i)).
    { unfold tmin. rewrite vlookup_zip_with.
      apply nmin_le_l; apply Hnn.
      - apply list_elem_of_here.
      - apply list_elem_of_further, list_elem_of_here. }
    assert (Hr : le (tmin t t' !!! i) (t' !!! i)).
    { unfold tmin. rewrite vlookup_zip_with.
      apply nmin_le_r; apply Hnn.
      - apply list_elem_of_here.
      - apply list_elem_of_further, list_elem_of_here. }
    assert (Hnn' : ∀ q', q' ∈ tmin t t' :: ts → not_nan (q' !!! i)).
    { intros q' Hq'. apply elem_of_cons in Hq' as [->|Hq'].
      - eapply le_not_nan. exact Hl.
      - apply Hnn. by do 2 apply list_elem_of_further. }
    pose proof (IH (tmin t t') Hnn') as IH'.
    apply elem_of_cons in Hq as [->|Hq].
    { eapply le_trans; [apply IH', list_elem_of_here|exact Hl]. }
    apply elem_of_cons in Hq as [->|Hq].
    { eapply le_trans; [apply IH', list_elem_of_here|exact Hr]. }
    by apply IH', list_elem_of_further.
Qed.
End Minimum.

(** *** Polyak averaging *)

Lemma polyak_update_length ρ (ps ts : list num) :
  length (polyak_update ρ ps ts) = length ts.
Proof.
  revert ts. induction ps as [|p ps IH]; intros [|t ts]; simpl; auto.
Qed.

Section Polyak.
Context {FL : FloatLaws F}.

(** Each paired target parameter becomes
    [polyak * target + (1 - polyak) * live]. *)
Lemma polyak_update_lookup ρ (ps ts : list num) i p t :
  ps !! i = Some p → ts !! i = Some t →
  polyak_update ρ ps ts !! i = Some (add (mul ρ t) (mul (sub one ρ) p)).
Proof.
  revert ts i. induction ps as [|p' ps IH]; intros [|t' ts] [|i]; simpl; try done.
  - intros [= ->] [= ->]. unfold polyak_elem. by rewrite (mul_comm t ρ).
  - apply IH.
Qed.

(** [polyak = 1] leaves the target as it is. *)
Lemma polyak_update_one (ps ts : list num) : polyak_update one ps ts = ts.
Proof.
  revert ts. induction ps as [|p ps IH]; intros [|t ts]; simpl; try done.
  f_equal; [|apply IH]. unfold polyak_elem.
  by rewrite mul_one_r, sub_one_one, (mul_comm zero p), mul_zero_r, add_zero_r.
Qed.

(** [polyak = 0] copies the live parameters. *)
Lemma polyak_update_zero (ps ts : list num) :
  length ps = length ts → polyak_update zero ps ts = ps.
Proof.
  revert ts. induction ps as [|p ps IH]; intros [|t ts]; simpl; try done.
  intros [= Hlen]. f_equal; [|by apply IH]. unfold polyak_elem.
  by rewrite mul_zero_r, sub_one_zero, (mul_comm one p), mul_one_r, add_zero_l.
Qed.
End Polyak.
End Shared.

Section SacTheorems.
Context {F : FloatOps} {AP : Approximator F} {AG : Autograd F} {NR : NumpyRandom}.
Import Sac SacSpec.

Lemma bellman_backup_lookup {B} γ (r d q : tensor B) α (lp : tensor B) i :
  bellman_backup γ r d q α lp !!! i =
  add (r !!! i) (mul (mul γ (sub one (d !!! i))) (sub (q !!! i) (mul α (lp !!! i)))).
Proof.
  unfold bellman_backup; cbv zeta. by rewrite !vlookup_zip_with, !vlookup_map.
Qed.

Lemma tmin_spec {B} (q1 q2 : tensor B) :
  tmin q1 q2 = fun_to_vec (λ i, nmin (q1 !!! i) (q2 !!! i)).
Proof.
  apply vec_eq; intros i. unfold tmin.
  by rewrite vlookup_zip_with, lookup_fun_to_vec.
Qed.

Lemma bellman_backup_spec {B} γ (r d q : tensor B) α (lp : tensor B) :
  bellman_backup γ r d q α lp =
  fun_to_vec (λ i, add (r !!! i)
    (mul (mul γ (sub one (d !!! i))) (sub (q !!! i) (mul α (lp !!! i))))).
Proof.
  apply vec_eq; intros i. by rewrite bellman_backup_lookup, lookup_fun_to_vec.
Qed.

Lemma loss_alpha_spec {B} (lp : tensor B) te la :
  loss_alpha_of lp te la =
  opp (mean (fun_to_vec (λ i, mul la (add (lp !!! i) te)))).
Proof.
  unfold loss_alpha_of. do 2 f_equal. apply vec_eq; intros i.
  by rewrite vlookup_map, lookup_fun_to_vec.
Qed.

Lemma sac_loss_pi_spec {B} (α : num) (lp q1 q2 : tensor B) :
  mean (vzip_with sub (vmap (mul α) lp) (tmin q1 q2)) =
  mean (fun_to_vec (λ i, sub (mul α (lp !!! i)) (nmin (q1 !!! i) (q2 !!! i)))).
Proof.
  f_equal. apply vec_eq; intros i. unfold tmin.
  by rewrite !vlookup_zip_with, vlookup_map, lookup_fun_to_vec.
Qed.

Ltac run_sac :=
  cbv [train bind ret read getattr modify emit run_actor raise
       self torch_rng np_rng trace]; simpl.

Ltac sac_spec :=
  unfold ret_spec, events_spec, model_after, actor_after,
    q1_after, q2_after, critic_loss_spec, actor_loss_spec, coef_loss_spec,
    backup_spec, target_min, target_q1, target_q2, log_alpha_after,
    drawn_next, drawn, step_module, loss_q_of; simpl;
  rewrite ?sac_loss_pi_spec, ?bellman_backup_spec, ?tmin_spec, ?loss_alpha_spec;
  rewrite <- ?app_assoc; try done.

(** A call on an agent whose optional attributes are as [__post_init__]
    leaves them completes, and does what [run_spec] says. *)
Lemma sac_train_run (w : World Agent) (b : Batch) (α : num) :
  ready (self w) →
  current_alpha (self w) = Some α →
  ∃ ret w', train b w = (inr ret, w') ∧ run_spec w b α ret w'.
Proof.
  destruct w as [s g ng tr], b as [B o a r o2 d].
  destruct s as [γ ρ al learn te md mdt po qo la ao at_].
  unfold ready, current_alpha; simpl.
  destruct learn; simpl.
  - intros [[la' ->] [ao' ->]] [= <-].
    eexists _, _. split; [run_sac; reflexivity|].
    split; simpl; sac_spec.
  - intros _ ->.
    eexists _, _. split; [run_sac; reflexivity|].
    split; simpl; sac_spec.
Qed.


(** [__post_init__] leaves the optional attributes as [train] needs
    them. *)
Lemma post_init_ready (c : Config) : ready (__post_init__ c).
Proof.
  unfold ready, __post_init__. simpl.
  destruct (c_learn_entropy_coef c); [split|]; by eexists.
Qed.

Lemma post_init_alpha (c : Config) :
  current_alpha (__post_init__ c) =
    Some (if c_learn_entropy_coef c then exp (log (mul one (c_alpha c)))
          else c_alpha c).
Proof.
  unfold current_alpha, __post_init__. simpl.
  by destruct (c_learn_entropy_coef c).
Qed.

(** On every completed SAC call the polyak update comes last, once,
    from the live parameters after their updates. *)
Lemma sac_polyak_last (w : World Agent) (b : Batch) (α : num) :
  ready (self w) →
  current_alpha (self w) = Some α →
  ∃ ret w' evs,
    train b w = (inr ret, w') ∧
    trace w' = trace w ++ evs ∧
    polyak_last evs ∧
    model_target (self w') =
      polyak_model (polyak (self w)) (model (self w')) (model_target (self w)).
Proof.
  intros Hready Hα.
  destruct (sac_train_run w b α Hready Hα) as (ret & w' & Hrun & Hspec).
  destruct Hspec as [_ Htr _ _ Hmodel Htarget _ _ _].
  exists ret, w', (events_spec w b α).
  split; [exact Hrun|]. split; [exact Htr|]. split.
  - unfold events_spec, polyak_last.
    destruct (learn_entropy_coef (self w)), (log_alpha (self w)); by split.
  - by rewrite Htarget, Hmodel.
Qed.
End SacTheorems.

Section RedqTheorems.
Context {F : FloatOps} {AP : Approximator F} {AG : Autograd F} {NR : NumpyRandom}.
Import Redq RedqSpec.

Section Subset.
Context {RL : NumpyRandomLaws NR}.

Lemma permutation_length n g : length (np_permutation n g).1 = n.
Proof. by rewrite np_permutation_perm, length_seq. Qed.

Lemma permutation_NoDup n g : NoDup (np_permutation n g).1.
Proof. rewrite np_permutation_perm. apply NoDup_seq. Qed.

Lemma permutation_bound n g : Forall (λ i, (i < n)%nat) (np_permutation n g).1.
Proof.
  rewrite np_permutation_perm. apply Forall_forall. intros i Hi.
  apply elem_of_seq in Hi. lia.
Qed.

(** np.random.choice(n, m, replace=False): [m] distinct indices below [n]. *)
Lemma subset_spec (n m : nat) g :
  (m ≤ n)%nat →
  let idxs := take m (np_permutation n g).1 in
  length idxs = m ∧ NoDup idxs ∧ Forall (λ i, (i < n)%nat) idxs.
Proof.
  intros Hmn idxs. subst idxs. split_and!.
  - rewrite length_take, permutation_length. lia.
  - eapply sublist_NoDup; [apply permutation_NoDup|apply sublist_take].
  - apply Forall_take, permutation_bound.
Qed.
End Subset.

Lemma redq_loss_pi_spec {B} (α : num) (lp : tensor B) (c : Stacked B) :
  mean (vzip_with sub (vmap (mul α) lp) (mean_dim1 c)) =
  mean (fun_to_vec (λ i, sub (mul α (lp !!! i)) (mean_dim1 c !!! i))).
Proof.
  f_equal. apply vec_eq; intros i.
  by rewrite !vlookup_zip_with, vlookup_map, lookup_fun_to_vec.
Qed.

Ltac redq_spec :=
  unfold ret_spec, events_spec, coef_events, model_after, actor_after,
    qs_after, critic_loss_spec, actor_loss_spec, coef_loss_spec,
    loss_pi_after, backup_spec, target_min, target_preds, target_q,
    sample_idxs, log_alpha_after, drawn_next, rng_after_drawn, drawn,
    update_policy, call_index, loss_q_of, min_dim1; simpl;
  rewrite ?redq_loss_pi_spec, ?bellman_backup_spec, ?loss_alpha_spec;
  rewrite <- ?app_assoc; try done.

(** A call in the conditions of [runnable] completes, and does what
    [run_spec] says. *)
Lemma redq_train_run {RL : NumpyRandomLaws NR} (w : World Agent) (b : Batch) (α : num) :
  runnable w α →
  ∃ ret w', train b w = (inr ret, w') ∧ run_spec w b α ret w'.
Proof.
  intros Hrun.
  cut (wp (train b) (λ r w', ∃ ret, r = inr ret ∧ run_spec w b α ret w') w).
  { unfold wp. destruct (train b w) as [r w']. simpl. intros (ret & -> & H). eauto. }
  destruct Hrun as [Hk Hph Hα Hopt Hsub Htg Hbc Hqs].
  destruct (subset_spec (Z.to_nat (n (self w))) (Z.to_nat (m (self w))) (np_rng w))
    as (Hlen & Hnd & Hlt); [lia|].
  revert Hα Hph.
  unfold current_alpha, update_policy, call_index.
  destruct w as [s g ng tr], b as [B o a r o2 d].
  destruct s as [γ ρ al learn te n m k md mdt po qo lpi i la ao at_].
  simpl in *. destruct md as [θa θs], mdt as [θat θst]. simpl in *.
  destruct θs as [|θq θqs]; [done|]. clear Hqs.
  intros Hα Hph.
  assert (Hidx : ∃ i0 rest, take (Z.to_nat m) (np_permutation (Z.to_nat n) ng).1 = i0 :: rest).
  { destruct (take _ _) as [|i0 rest]; [simpl in Hlen; lia|eauto]. }
  destruct Hidx as (i0 & rest & Hidx).
  assert (Hin : Forall (λ i, (i < length θst)%nat)
                  (take (Z.to_nat m) (np_permutation (Z.to_nat n) ng).1)).
  { eapply Forall_impl; [exact Hlt|]. simpl. lia. }
  assert (Hk' : bool_decide (k = 0) = false) by (by apply bool_decide_eq_false_2).
  match goal with |- wp _ ?Q _ => set (Post := Q) end.
  unfold train.
  destruct (bool_decide ((i + 1) `mod` k = 0)) eqn:Hup; destruct learn; simpl in *;
    [ destruct la as [la|]; [|done]; injection Hα as <-;
      destruct Hopt as [ao' ->]; [done|]
    | subst at_
    | by specialize (Hph eq_refl)
    | subst at_ ].
  all: repeat (wp_simpl;
         first [ rewrite length_map, Hbc
               | lazymatch goal with
                 | |- wp (bind (stack _) _) _ _ => rewrite Hidx
                 end
               | wp_step ]).
  all: try (exfalso; lia).
  all: try done.
  all: subst Post; simpl; eexists; (split; [reflexivity|]);
    split; simpl; redq_spec; rewrite ?Hup, ?Hidx; simpl; redq_spec.
Qed.

(** An agent that learns the coefficient has no attribute [alpha_t]:
    a call that does not update the policy raises at line 259, having
    only incremented the counter. *)
Lemma redq_off_phase_raises (w : World Agent) (b : Batch) :
  learn_entropy_coef (self w) = true →
  alpha_t (self w) = None →
  q_updates_per_policy_update (self w) ≠ 0 →
  update_policy w = false →
  train b w =
    (inl AttributeError,
     MkWorld (set_i_update (call_index w) (self w))
             (torch_rng w) (np_rng w) (trace w)).
Proof.
  unfold update_policy, call_index.
  destruct w as [s g ng tr], b as [B o a r o2 d].
  destruct s as [γ ρ al learn te n m k md mdt po qo lpi i la ao at_].
  simpl. intros -> -> Hk Hup.
  assert (Hk' : bool_decide (k = 0) = false) by (by apply bool_decide_eq_false_2).
  unfold train, bind, modify, read, ret, getattr. simpl.
  rewrite Hk'. simpl. rewrite Hup. simpl. reflexivity.
Qed.

(** Whatever attributes the agent has, a call that does not update the
    policy of an agent that learns the coefficient does not complete:
    it raises at line 259, or at line 319 on [loss_alpha.detach()]
    with [loss_alpha = None], if not before. *)
Lemma redq_learned_off_phase_never_returns (w : World Agent) (b : Batch) :
  learn_entropy_coef (self w) = true →
  update_policy w = false →
  ∃ e w', train b w = (inl e, w').
Proof.
  intros Hlearn Hup.
  cut (wp (train b) (λ r _, ∃ e, r = inl e) w).
  { unfold wp. destruct (train b w) as [r w']. simpl. intros [e ->]. eauto. }
  revert Hlearn Hup. unfold update_policy, call_index.
  destruct b as [B o a r o2 d].
  destruct w as [s g ng tr].
  destruct s as [γ ρ al learn te n m k md mdt po qo lpi i la ao at_].
  simpl. intros -> Hup.
  unfold train.
  repeat wp_step; by eauto.
Qed.

(** With M > N no call completes. *)
Lemma redq_bad_subset_raises (w : World Agent) (b : Batch) :
  m (self w) > n (self w) →
  ∃ e w', train b w = (inl e, w').
Proof.
  intros Hmn.
  cut (wp (train b) (λ r _, ∃ e, r = inl e) w).
  { unfold wp. destruct (train b w) as [r w']. simpl. intros [e ->]. eauto. }
  destruct b as [B o a r o2 d].
  destruct w as [s g ng tr].
  destruct s as [γ ρ al learn te n m k md mdt po qo lpi i la ao at_].
  simpl in Hmn.
  unfold train.
  repeat wp_step; try (by eauto); lia.
Qed.

(** On a call that does not update the policy, on any state: there is
    no backward pass and no step of the coefficient optimizer, and
    [log_alpha] and its optimizer are as they were. *)
Lemma redq_off_phase_no_coefficient_step (w : World Agent) (b : Batch)
    (evs : list Event) :
  update_policy w = false →
  trace (train b w).2 = trace w ++ evs →
  events_of AlphaOpt evs = [] ∧
  log_alpha (self (train b w).2) = log_alpha (self w) ∧
  alpha_optimizer (self (train b w).2) = alpha_optimizer (self w).
Proof.
  intros Hup. revert evs.
  cut (wp (train b) (λ _ w', ∀ evs,
         trace w' = trace w ++ evs →
         events_of AlphaOpt evs = [] ∧
         log_alpha (self w') = log_alpha (self w) ∧
         alpha_optimizer (self w') = alpha_optimizer (self w)) w).
  { unfold wp. done. }
  revert Hup. unfold update_policy, call_index.
  destruct b as [B o a r o2 d].
  destruct w as [s g ng tr].
  destruct s as [γ ρ al learn te n m k md mdt po qo lpi i la ao at_].
  simpl. intros Hup.
  unfold train.
  match goal with |- wp _ ?Q _ => set (Post := Q) end.
  repeat wp_step.
  all: subst Post; simpl; intros evs Hevs.
  all: first [ apply trace_unchanged in Hevs
             | rewrite <- ?app_assoc in Hevs; apply app_inv_head in Hevs ].
  all: by subst evs.
Qed.


(** On every completed REDQ call: the critics are stepped, the actor is
    stepped exactly when the call index is a multiple of
    [q_updates_per_policy_update], the polyak update comes last, once,
    and the returned [loss_actor] is the loss kept in [self.loss_pi]:
    the one of this call if it updates the policy, the one kept from
    before otherwise. *)
Lemma redq_completed_call {RL : NumpyRandomLaws NR}
    (w : World Agent) (b : Batch) (α : num) :
  runnable w α →
  ∃ ret w' evs,
    train b w = (inr ret, w') ∧
    trace w' = trace w ++ evs ∧
    events_of CriticOpt evs =
      [Backward CriticOpt (critic_loss_spec w b α (qs (model (self w))));
       Step CriticOpt] ∧
    events_of ActorOpt evs =
      (if update_policy w
       then [Backward ActorOpt (actor_loss_spec w b α); Step ActorOpt]
       else []) ∧
    polyak_last evs ∧
    model_target (self w') =
      polyak_model (polyak (self w)) (model (self w')) (model_target (self w)) ∧
    i_update (self w') = i_update (self w) + 1 ∧
    ret !! "loss_actor"%string = Some (loss_pi (self w')) ∧
    loss_pi (self w') =
      (if update_policy w then actor_loss_spec w b α else loss_pi (self w)) ∧
    (update_policy w = false →
     actor (model (self w')) = actor (model (self w))).
Proof.
  intros Hrunnable.
  destruct (redq_train_run w b α Hrunnable) as (ret & w' & Hrun & Hspec).
  destruct Hspec as [-> Htr _ _ Hmodel Htarget Hloss Hi _ _ _].
  exists (ret_spec w b α), w', (events_spec w b α).
  split; [exact Hrun|]. split; [exact Htr|].
  rewrite Htarget, Hmodel, Hloss, Hi.
  unfold events_spec, coef_events, ret_spec, polyak_last, loss_pi_after,
    model_after, actor_after, call_index.
  destruct (learn_entropy_coef (self w)), (update_policy w), (log_alpha (self w));
    simpl; split_and!; try done; by simplify_map_eq.
Qed.
End RedqTheorems.

(** ** The executable backend satisfies the laws *)

Module ToyLaws.
Import Toy.

Global Instance float_laws : FloatLaws float.
Proof. split; simpl; intros; ring. Qed.

Global Instance order_laws : OrderLaws float.
Proof.
  split; unfold not_nan; simpl.
  - intros x y z. apply Qcle_trans.
  - intros x y _. apply Qcle_refl.
  - intros x y _ _. unfold Qcmin. destruct (x ?= y)%Qc eqn:E.
    + apply Qcle_refl.
    + apply Qcle_refl.
    + apply Qclt_le_weak. apply Qcgt_alt. exact E.
  - intros x y _ _. unfold Qcmin. destruct (x ?= y)%Qc eqn:E.
    + apply Qceq_alt in E. subst. apply Qcle_refl.
    + apply Qclt_le_weak. apply Qclt_alt. exact E.
    + apply Qcle_refl.
Qed.

Global Instance numpy_random_laws : NumpyRandomLaws numpy_random.
Proof.
  split. intros n g. simpl. unfold rotate.
  rewrite Permutation_app_comm. by rewrite take_drop.
Qed.

End ToyLaws.

(** ** The claims *)

Section SacClaims.
Context {F : FloatOps} {AP : Approximator F} {AG : Autograd F} {NR : NumpyRandom}.
Import Sac SacSpec.

(** C1.  In a SAC training step the Bellman backup is
    [r + gamma * (1-done) * (min(target_q1(o2,a2), target_q2(o2,a2)) - alpha_t * logp_a2)]
    with [(a2, logp_a2)] sampled from the live actor at the next
    observations ([backup_spec]); it is a constant of the critic loss
    (no gradient flows into it); the loss that the critic optimizer
    applies, and that the call returns as [loss_critic], is the mean
    of the two live critics' mean-squared errors against it. *)
Theorem sac_critic_loss_against_backup (w : World Agent) (b : Batch) (α : num) :
  ready (self w) →
  current_alpha (self w) = Some α →
  let s := self w in
  let θ1 := q1 (model s) in
  let θ2 := q2 (model s) in
  let backup := backup_spec w b α in
  let loss_q1 := mse (forward_critic θ1 (b_o b) (b_a b)) backup in
  let loss_q2 := mse (forward_critic θ2 (b_o b) (b_a b)) backup in
  let loss_q := div (add loss_q1 loss_q2) (of_Z 2) in
  ∃ ret w' evs,
    train b w = (inr ret, w') ∧
    trace w' = trace w ++ evs ∧
    events_of CriticOpt evs = [Backward CriticOpt loss_q; Step CriticOpt] ∧
    ret !! "loss_critic"%string = Some loss_q ∧
    q1 (model (self w')) =
      (adam_step (q_optimizer s).1 θ1
         (grad (λ θ, div (add (mse (forward_critic θ (b_o b) (b_a b)) backup)
                              loss_q2) (of_Z 2)) θ1)).2 ∧
    q2 (model (self w')) =
      (adam_step (q_optimizer s).2 θ2
         (grad (λ θ, div (add loss_q1
                              (mse (forward_critic θ (b_o b) (b_a b)) backup))
                         (of_Z 2)) θ2)).2.
Proof.
  intros Hready Hα s θ1 θ2 backup loss_q1 loss_q2 loss_q.
  destruct (sac_train_run w b α Hready Hα) as (ret & w' & Hrun & Hspec).
  destruct Hspec as [-> Htr _ _ Hmodel _ _ _ _].
  exists (ret_spec w b α), w', (events_spec w b α).
  split_and!; [done|done| | |by rewrite Hmodel|by rewrite Hmodel].
  - unfold events_spec, events_of.
    destruct (learn_entropy_coef (self w)), (log_alpha (self w)); reflexivity.
  - unfold ret_spec.
    destruct (learn_entropy_coef (self w)), (log_alpha (self w));
      by simplify_map_eq.
Qed.

(** C4.  In a SAC training step the loss that the actor optimizer
    applies, and that the call returns as [loss_actor], is
    [mean(alpha_t * logp_pi - min(q1(o, pi), q2(o, pi)))] for the
    sample [(pi, logp_pi)] drawn at the start of the call and the live
    critics (after their update); the actor is sampled only twice in
    the call, at the observations and at the next observations, and
    the gradient is taken through the first sample. *)
Theorem sac_actor_loss_of_first_sample (w : World Agent) (b : Batch) (α : num) :
  ready (self w) →
  current_alpha (self w) = Some α →
  let s := self w in
  let pi := (drawn w b).1.1 in
  let logp_pi := (drawn w b).1.2 in
  ∃ ret w' evs,
    train b w = (inr ret, w') ∧
    trace w' = trace w ++ evs ∧
    let θ1 := q1 (model (self w')) in
    let θ2 := q2 (model (self w')) in
    let q1_pi := forward_critic θ1 (b_o b) pi in
    let q2_pi := forward_critic θ2 (b_o b) pi in
    let loss_pi :=
      mean (fun_to_vec (λ i,
        sub (mul α (logp_pi !!! i)) (nmin (q1_pi !!! i) (q2_pi !!! i)))) in
    events_of ActorOpt evs = [Backward ActorOpt loss_pi; Step ActorOpt] ∧
    ret !! "loss_actor"%string = Some loss_pi ∧
    torch_rng w' = (drawn_next w b).2 ∧
    loss_pi_of (b_o b) (torch_rng w) α θ1 θ2 (actor (model s)) = loss_pi ∧
    actor (model (self w')) =
      (adam_step (pi_optimizer s) (actor (model s))
         (grad (loss_pi_of (b_o b) (torch_rng w) α θ1 θ2) (actor (model s)))).2.
Proof.
  intros Hready Hα s pi logp_pi.
  destruct (sac_train_run w b α Hready Hα) as (ret & w' & Hrun & Hspec).
  destruct Hspec as [-> Htr Hrng _ Hmodel _ _ _ _].
  exists (ret_spec w b α), w', (events_spec w b α).
  split_and!; [done|done|]. rewrite Hmodel. simpl.
  split_and!; [ | |done| |done].
  - unfold events_spec, events_of.
    destruct (learn_entropy_coef (self w)), (log_alpha (self w)); reflexivity.
  - unfold ret_spec.
    destruct (learn_entropy_coef (self w)), (log_alpha (self w));
      by simplify_map_eq.
  - unfold loss_pi_of. cbv zeta. by rewrite sac_loss_pi_spec.
Qed.
End SacClaims.

Section RedqClaims.
Context {F : FloatOps} {AP : Approximator F} {AG : Autograd F} {NR : NumpyRandom}.
Import Redq RedqSpec.

Lemma post_init_learned (c : Config) :
  c_learn_entropy_coef c = true → learned (__post_init__ c).
Proof. intros H. unfold learned, __post_init__. simpl. by rewrite H. Qed.

(** C6.  The code does not do what the claim says: a call that does
    not update the policy of a REDQ agent with
    [learn_entropy_coef = True] never completes, whatever the state of
    the agent; for an agent as [__post_init__] builds it, with a
    [q_updates_per_policy_update] that does not divide 1, the first
    [train()] call raises [AttributeError] (line 259 reads
    [self.alpha_t], which only the other branch of [__post_init__]
    assigns) and returns no mapping. *)
Theorem redq_learned_first_call_raises (c : Config) (b : Batch)
    (g : trng) (ng : nprng) (tr : list Event) :
  c_learn_entropy_coef c = true →
  c_q_updates_per_policy_update c ≠ 0 →
  1 `mod` c_q_updates_per_policy_update c ≠ 0 →
  (∃ agent, new c = inr agent ∧
     train b (MkWorld agent g ng tr) =
       (inl AttributeError, MkWorld (set_i_update 1 agent) g ng tr)) ∧
  (∀ w : World Agent,
     learn_entropy_coef (self w) = true →
     update_policy w = false →
     ∃ e w', train b w = (inl e, w')).
Proof.
  intros Hlearn Hk Hmod. split.
  - exists (__post_init__ c). split; [done|].
    destruct (post_init_learned c Hlearn) as [H1 H2].
    rewrite redq_off_phase_raises; [done..|].
    unfold update_policy, call_index. simpl. by apply bool_decide_eq_false_2.
  - intros w. apply redq_learned_off_phase_never_returns.
Qed.

(** C2.  The code does not do what the claim says on every call: on a
    call that does not update the policy, a REDQ agent that learns the
    coefficient raises before the polyak update; the target
    parameters are left as they were, and no event of the call is a
    polyak update. *)
Theorem redq_off_phase_skips_polyak (w : World Agent) (b : Batch) :
  learned (self w) →
  q_updates_per_policy_update (self w) ≠ 0 →
  update_policy w = false →
  (train b w).1 = inl AttributeError ∧
  model_target (self (train b w).2) = model_target (self w) ∧
  trace (train b w).2 = trace w.
Proof.
  intros [Hlearn Hat] Hk Hup.
  by rewrite redq_off_phase_raises.
Qed.

(** C3.  The code does not do what the claim says on every call: on a
    call that does not update the policy, a REDQ agent that learns the
    coefficient raises before the critic update; the critics and
    their optimizers are left as they were, no optimizer steps, and no
    [loss_actor] is returned.  The counter is incremented all the
    same. *)
Theorem redq_off_phase_skips_critic_update (w : World Agent) (b : Batch) :
  learned (self w) →
  q_updates_per_policy_update (self w) ≠ 0 →
  update_policy w = false →
  (train b w).1 = inl AttributeError ∧
  qs (model (self (train b w).2)) = qs (model (self w)) ∧
  q_optimizer_list (self (train b w).2) = q_optimizer_list (self w) ∧
  trace (train b w).2 = trace w ∧
  i_update (self (train b w).2) = i_update (self w) + 1.
Proof.
  intros [Hlearn Hat] Hk Hup.
  by rewrite redq_off_phase_raises.
Qed.

(** The calls before the first policy update of an agent that learns
    the coefficient: they all raise. *)
Lemma redq_learned_calls_raise (bs : list Batch) (w : World Agent) :
  learned (self w) →
  0 ≤ i_update (self w) →
  i_update (self w) + Z.of_nat (length bs) < q_updates_per_policy_update (self w) →
  (calls train bs w).1 = replicate (length bs) (inl AttributeError).
Proof.
  revert w. induction bs as [|b bs IH]; intros w [Hlearn Hat] Hi Hlen; [done|].
  simpl in *.
  assert (Hup : update_policy w = false).
  { unfold update_policy, call_index. apply bool_decide_eq_false_2.
    rewrite Z.mod_small; lia. }
  rewrite redq_off_phase_raises; [|done|done|lia|done]. simpl.
  rewrite IH; [done| |simpl; unfold call_index; lia..].
  by split.
Qed.

(** C10.  The code does not do what the claim says: with the
    coefficient learned (the default) and
    [q_updates_per_policy_update = k > 1], each of the calls made
    before the first policy update (the first [k-1] calls of a new
    agent) raises [AttributeError]; none returns a [loss_actor]. *)
Theorem redq_calls_before_first_policy_update_raise (c : Config)
    (bs : list Batch) (g : trng) (ng : nprng) :
  c_learn_entropy_coef c = true →
  Z.of_nat (length bs) < c_q_updates_per_policy_update c →
  ∃ agent, new c = inr agent ∧
    (calls train bs (MkWorld agent g ng [])).1 =
      replicate (length bs) (inl AttributeError).
Proof.
  intros Hlearn Hk. exists (__post_init__ c). split; [done|].
  apply redq_learned_calls_raise; simpl; [|done|lia].
  by apply post_init_learned.
Qed.

(** C7, as amended.  [__post_init__] does not compare M with N: the
    construction of a REDQ agent with M > N succeeds, and no [train()]
    call of such an agent completes (the subset sampling of line 269
    raises, if nothing raised before it). *)
Theorem redq_bad_subset_fails_in_train (c : Config) :
  c_m c > c_n c →
  ∃ agent, new c = inr agent ∧
    m agent = c_m c ∧ n agent = c_n c ∧
    ∀ (w : World Agent) (b : Batch),
      m (self w) = c_m c → n (self w) = c_n c →
      ∃ e w', train b w = (inl e, w').
Proof.
  intros Hmn. exists (__post_init__ c). split_and!; [done..|].
  intros w b Hm Hn. apply redq_bad_subset_raises. lia.
Qed.
End RedqClaims.

Section EntropyCoefficient.
Context {F : FloatOps} {AP : Approximator F} {AG : Autograd F} {NR : NumpyRandom}.
Context {RL : NumpyRandomLaws NR}.

(** C5, as amended.  When the entropy coefficient is learned, each SAC
    training step, and each REDQ training step that updates the
    policy, uses [alpha_t = exp(log_alpha)] for the value of
    [log_alpha] at the start of the call, computes
    [coefficient_loss = -mean(log_alpha * (log_prob_pi + target_entropy))],
    and steps the coefficient's own optimizer, with the gradient of
    that loss as a function of [log_alpha] alone, before the critics
    and the actor are stepped; the critic and actor losses of the call
    use that [alpha_t].  A REDQ step that does not update the policy
    computes no coefficient loss and does not step the coefficient.
    When the coefficient is not learned the fixed [alpha_t] is used,
    no coefficient loss is produced and nothing of the coefficient
    changes. *)
Theorem entropy_coefficient_step :
  (* SAC, learned *)
  (∀ (w : World Sac.Agent) (b : Batch) (la : num) (opt : Opt),
     Sac.learn_entropy_coef (self w) = true →
     Sac.log_alpha (self w) = Some la →
     Sac.alpha_optimizer (self w) = Some opt →
     let logp_pi := (SacSpec.drawn w b).1.2 in
     let te := Sac.target_entropy (self w) in
     let L := opp (mean (fun_to_vec (λ i, mul la (add (logp_pi !!! i) te)))) in
     ∃ ret w' evs,
       Sac.train b w = (inr ret, w') ∧ trace w' = trace w ++ evs ∧
       coefficient_stepped_first L evs ∧
       ret !! "entropy_coef"%string = Some (exp la) ∧
       ret !! "loss_entropy_coef"%string = Some L ∧
       loss_alpha_of logp_pi te la = L ∧
       Sac.log_alpha (self w') =
         Some (step_scalar opt (loss_alpha_of logp_pi te) la).2 ∧
       ret !! "loss_critic"%string =
         Some (SacSpec.critic_loss_spec w b (exp la)
                 (Sac.q1 (Sac.model (self w))) (Sac.q2 (Sac.model (self w)))) ∧
       ret !! "loss_actor"%string =
         Some (SacSpec.actor_loss_spec w b (exp la) (SacSpec.drawn w b))) ∧
  (* SAC, fixed *)
  (∀ (w : World Sac.Agent) (b : Batch) (α : num),
     Sac.learn_entropy_coef (self w) = false →
     Sac.alpha_t (self w) = Some α →
     ∃ ret w' evs,
       Sac.train b w = (inr ret, w') ∧ trace w' = trace w ++ evs ∧
       events_of AlphaOpt evs = [] ∧
       ret !! "entropy_coef"%string = None ∧
       ret !! "loss_entropy_coef"%string = None ∧
       Sac.log_alpha (self w') = Sac.log_alpha (self w) ∧
       Sac.alpha_t (self w') = Some α ∧
       ret !! "loss_critic"%string =
         Some (SacSpec.critic_loss_spec w b α
                 (Sac.q1 (Sac.model (self w))) (Sac.q2 (Sac.model (self w)))) ∧
       ret !! "loss_actor"%string =
         Some (SacSpec.actor_loss_spec w b α (SacSpec.drawn w b))) ∧
  (* REDQ, learned, on a call that updates the policy *)
  (∀ (w : World Redq.Agent) (b : Batch) (la : num) (opt : Opt),
     RedqSpec.runnable w (exp la) →
     Redq.learn_entropy_coef (self w) = true →
     Redq.log_alpha (self w) = Some la →
     Redq.alpha_optimizer (self w) = Some opt →
     let logp_pi := (RedqSpec.drawn w b).1.2 in
     let te := Redq.target_entropy (self w) in
     let L := opp (mean (fun_to_vec (λ i, mul la (add (logp_pi !!! i) te)))) in
     ∃ ret w' evs,
       Redq.train b w = (inr ret, w') ∧ trace w' = trace w ++ evs ∧
       RedqSpec.update_policy w = true ∧
       coefficient_stepped_first L evs ∧
       ret !! "entropy_coef"%string = Some (exp la) ∧
       ret !! "loss_entropy_coef"%string = Some L ∧
       loss_alpha_of logp_pi te la = L ∧
       Redq.log_alpha (self w') =
         Some (step_scalar opt (loss_alpha_of logp_pi te) la).2 ∧
       ret !! "loss_critic"%string =
         Some (RedqSpec.critic_loss_spec w b (exp la) (Redq.qs (Redq.model (self w)))) ∧
       ret !! "loss_actor"%string = Some (RedqSpec.actor_loss_spec w b (exp la))) ∧
  (* REDQ, fixed *)
  (∀ (w : World Redq.Agent) (b : Batch) (α : num),
     RedqSpec.runnable w α →
     Redq.learn_entropy_coef (self w) = false →
     ∃ ret w' evs,
       Redq.train b w = (inr ret, w') ∧ trace w' = trace w ++ evs ∧
       Redq.alpha_t (self w) = Some α ∧
       events_of AlphaOpt evs = [] ∧
       ret !! "entropy_coef"%string = None ∧
       ret !! "loss_entropy_coef"%string = None ∧
       Redq.log_alpha (self w') = Redq.log_alpha (self w) ∧
       Redq.alpha_t (self w') = Some α ∧
       ret !! "loss_critic"%string =
         Some (RedqSpec.critic_loss_spec w b α (Redq.qs (Redq.model (self w))))) ∧
  (* REDQ, on a call that does not update the policy *)
  (∀ (w : World Redq.Agent) (b : Batch) (evs : list Event),
     RedqSpec.update_policy w = false →
     trace (Redq.train b w).2 = trace w ++ evs →
     events_of AlphaOpt evs = [] ∧
     Redq.log_alpha (self (Redq.train b w).2) = Redq.log_alpha (self w) ∧
     Redq.alpha_optimizer (self (Redq.train b w).2) = Redq.alpha_optimizer (self w)).
Proof.
  split_and!.
  - intros w b la opt Hlearn Hla Hopt logp_pi te L.
    destruct (sac_train_run w b (exp la)) as (ret & w' & Hrun & Hspec).
    { unfold SacSpec.ready. rewrite Hlearn, Hla, Hopt. by split. }
    { unfold SacSpec.current_alpha. by rewrite Hlearn, Hla. }
    destruct Hspec as [-> Htr _ _ _ _ Hlog _ _].
    exists (SacSpec.ret_spec w b (exp la)), w', (SacSpec.events_spec w b (exp la)).
    rewrite Hlearn, Hla, Hopt in Hlog.
    split; [done|]. split; [done|].
    unfold SacSpec.ret_spec, SacSpec.events_spec. rewrite Hlearn, Hla.
    split_and!; try done; try (by simplify_map_eq).
    + eexists. split_and!; [reflexivity|reflexivity|set_solver..].
    + apply loss_alpha_spec.
  - intros w b α Hlearn Hat.
    destruct (sac_train_run w b α) as (ret & w' & Hrun & Hspec).
    { unfold SacSpec.ready. rewrite Hlearn, Hat. done. }
    { unfold SacSpec.current_alpha. by rewrite Hlearn. }
    destruct Hspec as [-> Htr _ _ _ _ Hlog Hat' _].
    exists (SacSpec.ret_spec w b α), w', (SacSpec.events_spec w b α).
    rewrite Hlearn in Hlog.
    split; [done|]. split; [done|].
    unfold SacSpec.ret_spec, SacSpec.events_spec. rewrite Hlearn.
    split_and!; try done; try (by simplify_map_eq). congruence.
  - intros w b la opt Hrunnable Hlearn Hla Hopt logp_pi te L.
    destruct (redq_train_run w b (exp la) Hrunnable) as (ret & w' & Hrun & Hspec).
    destruct Hspec as [-> Htr _ _ _ _ _ _ Hlog _ _].
    pose proof (RedqSpec.ok_phase _ _ Hrunnable Hlearn) as Hup.
    exists (RedqSpec.ret_spec w b (exp la)), w', (RedqSpec.events_spec w b (exp la)).
    rewrite Hlearn, Hup, Hla, Hopt in Hlog.
    split; [done|]. split; [done|].
    unfold RedqSpec.ret_spec, RedqSpec.events_spec, RedqSpec.coef_events,
      RedqSpec.loss_pi_after.
    rewrite Hlearn, Hup, Hla. simpl.
    split_and!; try done; try (by simplify_map_eq).
    + eexists. split_and!; [reflexivity|reflexivity|set_solver..].
    + apply loss_alpha_spec.
  - intros w b α Hrunnable Hlearn.
    destruct (redq_train_run w b α Hrunnable) as (ret & w' & Hrun & Hspec).
    destruct Hspec as [-> Htr _ _ _ _ _ _ Hlog Hat' _].
    pose proof (RedqSpec.ok_alpha _ _ Hrunnable) as Hα.
    unfold RedqSpec.current_alpha in Hα. rewrite Hlearn in Hα. simpl in Hα.
    exists (RedqSpec.ret_spec w b α), w', (RedqSpec.events_spec w b α).
    rewrite Hlearn in Hlog. simpl in Hlog.
    split; [done|]. split; [done|].
    unfold RedqSpec.ret_spec, RedqSpec.events_spec, RedqSpec.coef_events.
    rewrite Hlearn. simpl.
    split_and!; try done; try (by simplify_map_eq); try congruence.
    by destruct (RedqSpec.update_policy w).
  - intros w b evs. apply redq_off_phase_no_coefficient_step.
Qed.
End EntropyCoefficient.

Section BackupValueTerm.
Context {F : FloatOps} {AP : Approximator F} {AG : Autograd F} {NR : NumpyRandom}.
Context {OL : OrderLaws F} {RL : NumpyRandomLaws NR}.

(** C8, as amended.  In every training step that completes, the value
    term [v] of the Bellman backup is the minimum of the target-critic
    predictions, it is the value that enters the backup
    [r + gamma * (1 - d) * (v - alpha_t * logp_a2)] of the returned
    critic loss, and at every sample where none of these predictions
    is NaN it is below each of them: the predictions of the two target
    critics for SAC; for REDQ the predictions of the sampled target
    critics, whose M indices are distinct and below N. *)
Theorem backup_value_term_below_targets :
  (∀ (w : World Sac.Agent) (b : Batch) (α : num),
     SacSpec.ready (self w) →
     SacSpec.current_alpha (self w) = Some α →
     let q1_targ := SacSpec.target_q1 w b in
     let q2_targ := SacSpec.target_q2 w b in
     let logp_a2 := (SacSpec.drawn_next w b).1.2 in
     ∃ (v : tensor (bsz b)) ret w',
       Sac.train b w = (inr ret, w') ∧
       (∀ i, v !!! i = nmin (q1_targ !!! i) (q2_targ !!! i)) ∧
       (let backup : tensor (bsz b) :=
          fun_to_vec (λ i,
            add (b_r b !!! i)
                (mul (mul (Sac.gamma (self w)) (sub one (b_d b !!! i)))
                     (sub (v !!! i) (mul α (logp_a2 !!! i))))) in
        ret !! "loss_critic"%string =
          Some (Sac.loss_q_of (b_o b) (b_a b) backup
                  (Sac.q1 (Sac.model (self w))) (Sac.q2 (Sac.model (self w))))) ∧
       ∀ i, not_nan (q1_targ !!! i) → not_nan (q2_targ !!! i) →
         le (v !!! i) (q1_targ !!! i) ∧ le (v !!! i) (q2_targ !!! i)) ∧
  (∀ (w : World Redq.Agent) (b : Batch) (α : num),
     RedqSpec.runnable w α →
     let idxs := RedqSpec.sample_idxs w in
     let q_targ := RedqSpec.target_q w b in
     let logp_a2 := (RedqSpec.drawn_next w b).1.2 in
     ∃ (v : tensor (bsz b)) ret w',
       Redq.train b w = (inr ret, w') ∧
       NoDup idxs ∧
       length idxs = Z.to_nat (Redq.m (self w)) ∧
       Forall (λ j, (j < Z.to_nat (Redq.n (self w)))%nat) idxs ∧
       (∃ j rest, idxs = j :: rest ∧ v = foldl tmin (q_targ j) (q_targ <$> rest)) ∧
       (let backup : tensor (bsz b) :=
          fun_to_vec (λ i,
            add (b_r b !!! i)
                (mul (mul (Redq.gamma (self w)) (sub one (b_d b !!! i)))
                     (sub (v !!! i) (mul α (logp_a2 !!! i))))) in
        ret !! "loss_critic"%string =
          Some (Redq.loss_q_of (b_o b) (b_a b) backup
                  (Z.to_nat (Redq.n (self w))) (Redq.qs (Redq.model (self w))))) ∧
       ∀ i, (∀ j, j ∈ idxs → not_nan (q_targ j !!! i)) →
         ∀ j, j ∈ idxs → le (v !!! i) (q_targ j !!! i)).
Proof.
  split.
  - intros w b α Hready Hα q1_targ q2_targ logp_a2.
    destruct (sac_train_run w b α Hready Hα) as (ret & w' & Hrun & Hspec).
    exists (SacSpec.target_min w b), ret, w'.
    split; [exact Hrun|].
    assert (Hv : ∀ i, SacSpec.target_min w b !!! i =
                      nmin (q1_targ !!! i) (q2_targ !!! i)).
    { intros i. unfold SacSpec.target_min. by rewrite lookup_fun_to_vec. }
    split; [exact Hv|]. split.
    + rewrite (SacSpec.run_ret _ _ _ _ _ Hspec).
      unfold SacSpec.ret_spec, SacSpec.critic_loss_spec.
      destruct (Sac.learn_entropy_coef (self w)), (Sac.log_alpha (self w));
        by simplify_map_eq.
    + intros i H1 H2. rewrite Hv. split.
      * by apply nmin_le_l.
      * by apply nmin_le_r.
  - intros w b α Hrunnable idxs q_targ logp_a2.
    destruct (redq_train_run w b α Hrunnable) as (ret & w' & Hrun & Hspec).
    destruct (subset_spec (Z.to_nat (Redq.n (self w))) (Z.to_nat (Redq.m (self w)))
                (np_rng w)) as (Hlen & Hnd & Hlt).
    { pose proof (RedqSpec.ok_subset _ _ Hrunnable). lia. }
    fold (RedqSpec.sample_idxs w) in Hlen, Hnd, Hlt. fold idxs in Hlen, Hnd, Hlt.
    assert (Hidx : ∃ j rest, idxs = j :: rest).
    { destruct idxs as [|j rest]; [|by eauto].
      pose proof (RedqSpec.ok_subset _ _ Hrunnable). simpl in Hlen. lia. }
    destruct Hidx as (j0 & rest & Hidx).
    assert (Hv : RedqSpec.target_min w b =
                 foldl tmin (q_targ j0) (q_targ <$> rest)).
    { unfold RedqSpec.target_min, RedqSpec.target_preds.
      fold idxs. fold q_targ. by rewrite Hidx. }
    exists (RedqSpec.target_min w b), ret, w'.
    split; [exact Hrun|]. split; [exact Hnd|]. split; [exact Hlen|].
    split; [exact Hlt|]. split; [by exists j0, rest|]. split.
    + rewrite (RedqSpec.run_ret _ _ _ _ _ Hspec).
      unfold RedqSpec.ret_spec, RedqSpec.critic_loss_spec.
      destruct (Redq.learn_entropy_coef (self w)), (Redq.log_alpha (self w));
        by simplify_map_eq.
    + intros i Hnn j Hj. rewrite Hv.
      apply (foldl_tmin_below (q_targ <$> rest) (q_targ j0) i).
      * intros q Hq. change (q ∈ q_targ <$> (j0 :: rest)) in Hq.
        apply list_elem_of_fmap in Hq as (j' & -> & Hj').
        apply Hnn. by rewrite Hidx.
      * change (q_targ j ∈ q_targ <$> (j0 :: rest)).
        apply list_elem_of_fmap. exists j. split; [done|]. by rewrite <- Hidx.
Qed.
End BackupValueTerm.

Section Determinism.
Context {F : FloatOps} {AP : Approximator F} {AG : Autograd F} {NR : NumpyRandom}.

End Determinism.

(** ** The claims on concrete inputs *)

Module Examples.
Import Toy ToyLaws.

(* The batch has rewards [1, 0] and done flags [0, 1]; the actor has
   parameters [1, 0] and draws a2 = o2 + 1 = [3, 4] with log-probability
   [-1, -1]; the target critics predict [5, 7] and [4, 5], so the
   backup is [1 + 0.5 * (4 + 1), 0] = [3.5, 0]; the live critics predict
   [1, 3] and [1, 2]: loss_critic = (7.625 + 5.125) / 2. *)
Example sac_fixed_alpha_loss_critic :
  reported "loss_critic" (outcome (Sac.train batch) (sac_world false))
  = Some (51 # 8)%Q.
Proof. by vm_compute. Qed.

Lemma sac_critic_loss_against_backup_witness :
  SacSpec.ready (self (sac_world false)) ∧
  SacSpec.current_alpha (self (sac_world false)) = Some (q 1) ∧
  ∃ ret w' evs,
    Sac.train batch (sac_world false) = (inr ret, w') ∧
    trace w' = trace (sac_world false) ++ evs.
Proof.
  assert (H1 : SacSpec.ready (self (sac_world false)))
    by (vm_compute; eexists; reflexivity).
  assert (H2 : SacSpec.current_alpha (self (sac_world false)) = Some (q 1))
    by reflexivity.
  split; [exact H1|]. split; [exact H2|].
  destruct (sac_critic_loss_against_backup (sac_world false) batch (q 1) H1 H2)
    as (ret & w' & evs & Hrun & Htr & _).
  exists ret, w', evs. split; [exact Hrun|exact Htr].
Defined.

Lemma sac_actor_loss_of_first_sample_witness :
  SacSpec.ready (self (sac_world false)) ∧
  SacSpec.current_alpha (self (sac_world false)) = Some (q 1) ∧
  ∃ ret w' evs,
    Sac.train batch (sac_world false) = (inr ret, w') ∧
    trace w' = trace (sac_world false) ++ evs.
Proof.
  assert (H1 : SacSpec.ready (self (sac_world false)))
    by (vm_compute; eexists; reflexivity).
  assert (H2 : SacSpec.current_alpha (self (sac_world false)) = Some (q 1))
    by reflexivity.
  split; [exact H1|]. split; [exact H2|].
  destruct (sac_actor_loss_of_first_sample (sac_world false) batch (q 1) H1 H2)
    as (ret & w' & evs & Hrun & Htr & _).
  exists ret, w', evs. split; [exact Hrun|exact Htr].
Defined.

(* The same batch; the actor loss is the mean of
   [1 * 0 - min(q1(o, pi), q2(o, pi))] over the two samples, with
   pi = o + 0 = [1, 2] and the critics after their step (the plain
   gradient step of this backend, not Adam's). *)
Example sac_fixed_alpha_loss_actor :
  reported "loss_actor" (outcome (Sac.train batch) (sac_world false))
  = Some (-173 # 80)%Q.
Proof. by vm_compute. Qed.

(** *** The learned coefficient and the REDQ schedule *)

Example redq_learned_is_learned :
  Redq.learn_entropy_coef (self redq_learned) = true ∧
  Redq.alpha_t (self redq_learned) = None ∧
  RedqSpec.update_policy redq_learned = false.
Proof. by vm_compute. Qed.

(** C5 as stated fails on the code: the first call of a REDQ agent
    that learns its coefficient, with one policy update per two calls,
    takes no step of the coefficient optimizer, leaves [log_alpha] as
    it was and returns no coefficient. *)
Lemma redq_coefficient_not_stepped_off_phase :
  Redq.learn_entropy_coef (self redq_learned) = true ∧
  events_of AlphaOpt (trace (after (Redq.train batch) redq_learned)) = [] ∧
  Redq.log_alpha (self (after (Redq.train batch) redq_learned)) =
    Redq.log_alpha (self redq_learned) ∧
  ¬ ∃ ret w' evs L,
      Redq.train batch redq_learned = (inr ret, w') ∧
      trace w' = trace redq_learned ++ evs ∧
      coefficient_stepped_first L evs.
Proof.
  split; [reflexivity|]. split; [by vm_compute|]. split; [by vm_compute|].
  intros (ret & w' & evs & L & Hrun & _).
  assert (H : outcome (Redq.train batch) redq_learned = inl AttributeError)
    by (by vm_compute).
  unfold outcome in H. rewrite Hrun in H. discriminate H.
Qed.

Lemma entropy_coefficient_step_witness :
  Sac.learn_entropy_coef (self (sac_world true)) = true ∧
  Sac.log_alpha (self (sac_world true)) = Some (q 0) ∧
  Sac.alpha_optimizer (self (sac_world true)) = Some (frac 1 10) ∧
  ∃ ret w' evs,
    Sac.train batch (sac_world true) = (inr ret, w') ∧
    trace w' = trace (sac_world true) ++ evs ∧
    ret !! "entropy_coef"%string = Some (exp (q 0)).
Proof.
  assert (H1 : Sac.learn_entropy_coef (self (sac_world true)) = true)
    by reflexivity.
  assert (H2 : Sac.log_alpha (self (sac_world true)) = Some (q 0))
    by reflexivity.
  assert (H3 : Sac.alpha_optimizer (self (sac_world true)) = Some (frac 1 10))
    by reflexivity.
  split; [exact H1|]. split; [exact H2|]. split; [exact H3|].
  destruct (entropy_coefficient_step (RL := numpy_random_laws)) as (Hsac & _).
  destruct (Hsac (sac_world true) batch (q 0) (frac 1 10) H1 H2 H3)
    as (ret & w' & evs & Hrun & Htr & _ & Hcoef & _).
  exists ret, w', evs. split; [exact Hrun|]. split; [exact Htr|exact Hcoef].
Defined.

Example sac_learned_entropy_coef :
  reported "entropy_coef" (outcome (Sac.train batch) (sac_world true)) = Some 1%Q ∧
  reported "loss_entropy_coef" (outcome (Sac.train batch) (sac_world true)) = Some 0%Q.
Proof. by vm_compute. Qed.

(** *** The failing calls of REDQ *)

Lemma redq_learned_first_call_raises_witness :
  Redq.c_learn_entropy_coef (redq_config true 2 1 2) = true ∧
  Redq.c_q_updates_per_policy_update (redq_config true 2 1 2) ≠ 0 ∧
  1 `mod` Redq.c_q_updates_per_policy_update (redq_config true 2 1 2) ≠ 0 ∧
  ∃ agent, Redq.new (redq_config true 2 1 2) = inr agent ∧
    Redq.train batch (MkWorld agent (q 0) 0%nat []) =
      (inl AttributeError, MkWorld (Redq.set_i_update 1 agent) (q 0) 0%nat []).
Proof.
  assert (H1 : Redq.c_learn_entropy_coef (redq_config true 2 1 2) = true)
    by reflexivity.
  assert (H2 : Redq.c_q_updates_per_policy_update (redq_config true 2 1 2) ≠ 0)
    by (vm_compute; lia).
  assert (H3 : 1 `mod` Redq.c_q_updates_per_policy_update (redq_config true 2 1 2) ≠ 0)
    by (vm_compute; lia).
  split; [exact H1|]. split; [exact H2|]. split; [exact H3|].
  exact (proj1 (redq_learned_first_call_raises (redq_config true 2 1 2) batch
                  (q 0) 0%nat [] H1 H2 H3)).
Defined.

Lemma redq_learned_is_learned_agent : RedqSpec.learned (self redq_learned).
Proof. split; reflexivity. Defined.

Lemma redq_learned_utd_nonzero :
  Redq.q_updates_per_policy_update (self redq_learned) ≠ 0.
Proof. vm_compute. lia. Defined.

Lemma redq_learned_off_phase : RedqSpec.update_policy redq_learned = false.
Proof. reflexivity. Defined.

Lemma redq_off_phase_skips_polyak_witness :
  RedqSpec.learned (self redq_learned) ∧
  Redq.q_updates_per_policy_update (self redq_learned) ≠ 0 ∧
  RedqSpec.update_policy redq_learned = false ∧
  (Redq.train batch redq_learned).1 = inl AttributeError ∧
  Redq.model_target (self (Redq.train batch redq_learned).2) =
    Redq.model_target (self redq_learned) ∧
  trace (Redq.train batch redq_learned).2 = trace redq_learned.
Proof.
  split; [exact redq_learned_is_learned_agent|].
  split; [exact redq_learned_utd_nonzero|].
  split; [exact redq_learned_off_phase|].
  exact (redq_off_phase_skips_polyak redq_learned batch
           redq_learned_is_learned_agent redq_learned_utd_nonzero
           redq_learned_off_phase).
Defined.

Lemma redq_off_phase_skips_critic_update_witness :
  RedqSpec.learned (self redq_learned) ∧
  Redq.q_updates_per_policy_update (self redq_learned) ≠ 0 ∧
  RedqSpec.update_policy redq_learned = false ∧
  (Redq.train batch redq_learned).1 = inl AttributeError ∧
  Redq.qs (Redq.model (self (Redq.train batch redq_learned).2)) =
    Redq.qs (Redq.model (self redq_learned)) ∧
  Redq.q_optimizer_list (self (Redq.train batch redq_learned).2) =
    Redq.q_optimizer_list (self redq_learned) ∧
  trace (Redq.train batch redq_learned).2 = trace redq_learned ∧
  Redq.i_update (self (Redq.train batch redq_learned).2) =
    Redq.i_update (self redq_learned) + 1.
Proof.
  split; [exact redq_learned_is_learned_agent|].
  split; [exact redq_learned_utd_nonzero|].
  split; [exact redq_learned_off_phase|].
  exact (redq_off_phase_skips_critic_update redq_learned batch
           redq_learned_is_learned_agent redq_learned_utd_nonzero
           redq_learned_off_phase).
Defined.

Lemma redq_calls_before_first_policy_update_raise_witness :
  Redq.c_learn_entropy_coef (redq_config true 2 1 3) = true ∧
  Z.of_nat (length [batch; batch]) <
    Redq.c_q_updates_per_policy_update (redq_config true 2 1 3) ∧
  ∃ agent, Redq.new (redq_config true 2 1 3) = inr agent ∧
    (calls Redq.train [batch; batch] (MkWorld agent (q 0) 0%nat [])).1 =
      replicate (length [batch; batch]) (inl AttributeError).
Proof.
  assert (H1 : Redq.c_learn_entropy_coef (redq_config true 2 1 3) = true)
    by reflexivity.
  assert (H2 : Z.of_nat (length [batch; batch]) <
               Redq.c_q_updates_per_policy_update (redq_config true 2 1 3))
    by reflexivity.
  split; [exact H1|]. split; [exact H2|].
  exact (redq_calls_before_first_policy_update_raise (redq_config true 2 1 3)
           [batch; batch] (q 0) 0%nat H1 H2).
Defined.

(** *** Construction with M > N *)

(** C7 as stated fails on the code: with N = 1 and M = 2 the
    construction succeeds; it is the first [train()] call that raises,
    at the subset sampling. *)
Lemma redq_bad_subset_is_constructed :
  Redq.c_m (redq_config false 1 2 1) > Redq.c_n (redq_config false 1 2 1) ∧
  (∃ agent, Redq.new (redq_config false 1 2 1) = inr agent) ∧
  outcome (Redq.train batch) (redq_world false 1 2 1 0) = inl ValueError.
Proof.
  split; [reflexivity|]. split; [eexists; reflexivity|]. by vm_compute.
Qed.

Lemma redq_bad_subset_fails_in_train_witness :
  Redq.c_m (redq_config false 1 2 1) > Redq.c_n (redq_config false 1 2 1) ∧
  ∃ agent, Redq.new (redq_config false 1 2 1) = inr agent ∧
    Redq.m agent = 2 ∧ Redq.n agent = 1 ∧
    ∀ (w : World Redq.Agent) (b : Batch),
      Redq.m (self w) = 2 → Redq.n (self w) = 1 →
      ∃ e w', Redq.train b w = (inl e, w').
Proof.
  assert (H : Redq.c_m (redq_config false 1 2 1) > Redq.c_n (redq_config false 1 2 1))
    by reflexivity.
  split; [exact H|].
  exact (redq_bad_subset_fails_in_train (redq_config false 1 2 1) H).
Defined.

(** *** The value term of the backup *)

Lemma backup_value_term_below_targets_witness :
  ∃ (v : tensor 2) ret w',
    Sac.train batch (sac_world false) = (inr ret, w') ∧
    ∀ i, not_nan (SacSpec.target_q1 (sac_world false) batch !!! i) →
         not_nan (SacSpec.target_q2 (sac_world false) batch !!! i) →
         le (v !!! i) (SacSpec.target_q1 (sac_world false) batch !!! i) ∧
         le (v !!! i) (SacSpec.target_q2 (sac_world false) batch !!! i).
Proof.
  assert (H1 : SacSpec.ready (self (sac_world false)))
    by (vm_compute; eexists; reflexivity).
  assert (H2 : SacSpec.current_alpha (self (sac_world false)) = Some (q 1))
    by reflexivity.
  destruct (backup_value_term_below_targets (OL := order_laws)
              (RL := numpy_random_laws)) as (Hsac & _).
  destruct (Hsac (sac_world false) batch (q 1) H1 H2)
    as (v & ret & w' & Hrun & _ & _ & Hbelow).
  exists v, ret, w'. split; [exact Hrun|exact Hbelow].
Defined.

(* The target critics predict [5, 7] and [4, 5] at the next
   observations [2, 3] and the next actions [3, 4]: the value term is
   [4, 5]. *)
Example sac_value_term :
  ToyMore.fractions (vec_to_list (SacSpec.target_q1 (sac_world false) batch)) =
    [(5 # 1)%Q; (7 # 1)%Q] ∧
  ToyMore.fractions (vec_to_list (SacSpec.target_q2 (sac_world false) batch)) =
    [(4 # 1)%Q; (5 # 1)%Q] ∧
  ToyMore.fractions (vec_to_list (SacSpec.target_min (sac_world false) batch)) =
    [(4 # 1)%Q; (5 # 1)%Q].
Proof. by vm_compute. Qed.



(** *** Determinism *)


End Examples.

(** *** A target prediction that is NaN *)

Module NaNExamples.
#[local] Existing Instance ToyNaN.float.
#[local] Existing Instance ToyNaN.approximator.
#[local] Existing Instance ToyNaN.autograd.
#[local] Existing Instance Toy.numpy_random.

  (* at the first sample the next observation is NaN: so are the next
     action, the predictions of both target critics and their minimum *)
Example nan_target_predictions :
  ToyNaN.first_target_q1 = ToyNaN.nan ∧
  ToyNaN.first_target_q2 = ToyNaN.nan ∧
  ToyNaN.first_value_term = ToyNaN.nan.
Proof. by vm_compute. Qed.

(** C8 as stated fails on the code: with a NaN among the next
    observations of the batch, the call completes and the value term
    of its backup is not below the predictions of the target critics
    it was minimized over ([torch.min] returns NaN, and NaN is below
    nothing). *)
Lemma value_term_not_below_nan_prediction :
  ∃ ret w' evs preds min_q,
    ToyNaN.sac_call = (inr ret, w') ∧
    trace w' = trace ToyNaN.sac_world ++ evs ∧
    TargetMin preds min_q ∈ evs ∧
    ¬ min_below preds min_q.
Proof.
  assert (H1 : SacSpec.ready (self ToyNaN.sac_world))
    by (vm_compute; eexists; reflexivity).
  assert (H2 : SacSpec.current_alpha (self ToyNaN.sac_world) = Some (ToyNaN.q 1))
    by reflexivity.
  destruct (sac_train_run ToyNaN.sac_world ToyNaN.batch (ToyNaN.q 1) H1 H2)
    as (ret & w' & Hrun & Hspec).
  exists ret, w', (SacSpec.events_spec ToyNaN.sac_world ToyNaN.batch (ToyNaN.q 1)),
    [vec_to_list (SacSpec.target_q1 ToyNaN.sac_world ToyNaN.batch);
     vec_to_list (SacSpec.target_q2 ToyNaN.sac_world ToyNaN.batch)],
    (vec_to_list (SacSpec.target_min ToyNaN.sac_world ToyNaN.batch)).
  split; [exact Hrun|].
  split; [exact (SacSpec.run_trace _ _ _ _ _ Hspec)|].
  split.
  { unfold SacSpec.events_spec. apply elem_of_app. right. apply list_elem_of_here. }
  intros Hbelow. apply Forall_cons in Hbelow as [Hq1 _].
  pose proof (proj1 (Forall2_vlookup _ _ _) Hq1 0%fin) as H.
  change (le ToyNaN.first_value_term ToyNaN.first_target_q1) in H.
  destruct nan_target_predictions as (Hnan & _ & _).
  rewrite Hnan in H. unfold ToyNaN.nan in H.
  destruct ToyNaN.first_value_term; exact H.
Qed.
End NaNExamples.

(** * Further properties of the two training steps *)

(** ** Lists of parameters, optimizers and critics *)

Section MoreShared.
Context {F : FloatOps} {AP : Approximator F} {AG : Autograd F} {NR : NumpyRandom}.

Lemma polyak_rule_update {FL : FloatLaws F} ρ (ps ts : list num) :
  polyak_rule ρ ps ts (polyak_update ρ ps ts).
Proof.
  split.
  - apply polyak_update_length.
  - intros i p t. apply polyak_update_lookup.
Qed.

Lemma polyak_list_length ρ (ms ts : list (list num)) :
  length (polyak_list ρ ms ts) = length ts.
Proof.
  revert ts. induction ms as [|m ms IH]; intros [|t ts]; simpl; auto.
Qed.

Lemma polyak_list_lookup ρ (ms ts : list (list num)) j m t :
  ms !! j = Some m → ts !! j = Some t →
  polyak_list ρ ms ts !! j = Some (polyak_update ρ m t).
Proof.
  revert ts j. induction ms as [|m' ms IH]; intros [|t' ts] [|j]; simpl; try done.
  - by intros [= ->] [= ->].
  - apply IH.
Qed.

Lemma step_all_length_1 (opts : list Opt) (θs gs : list (list num)) :
  length (step_all opts θs gs).1 = length opts.
Proof.
  revert θs gs. induction opts as [|o opts IH]; intros [|θ θs] [|g gs]; simpl; auto.
Qed.

Lemma step_all_length_2 (opts : list Opt) (θs gs : list (list num)) :
  length (step_all opts θs gs).2 = length θs.
Proof.
  revert θs gs. induction opts as [|o opts IH]; intros [|θ θs] [|g gs]; simpl; auto.
Qed.

Lemma step_all_lookup (opts : list Opt) (θs gs : list (list num)) j o θ g :
  opts !! j = Some o → θs !! j = Some θ → gs !! j = Some g →
  (step_all opts θs gs).2 !! j = Some (adam_step o θ g).2.
Proof.
  revert θs gs j.
  induction opts as [|o' opts IH]; intros [|θ' θs] [|g' gs] [|j]; simpl; try done.
  - by intros [= ->] [= ->] [= ->].
  - apply IH.
Qed.

Lemma calls_cons {S A} (train : Batch → M S A) b bs (w : World S) :
  calls train (b :: bs) w =
    ((train b w).1 :: (calls train bs (train b w).2).1,
     (calls train bs (train b w).2).2).
Proof. done. Qed.
End MoreShared.

(** ** SAC: sequences of calls, the returned mapping, the target *)

Section SacMore.
Context {F : FloatOps} {AP : Approximator F} {AG : Autograd F} {NR : NumpyRandom}.
Import Sac SacSpec SacInv.

Lemma kept_refl (w : World Agent) : kept w w.
Proof. split; try done. exists []. by rewrite app_nil_r. Qed.

Lemma kept_trans (w1 w2 w3 : World Agent) : kept w1 w2 → kept w2 w3 → kept w1 w3.
Proof.
  intros [? ? ? ? ? ? ? [e1 He1] (? & ? & ?)] [? ? ? ? ? ? ? [e2 He2] (? & ? & ?)].
  split; try congruence.
  - exists (e1 ++ e2). by rewrite He2, He1, app_assoc.
  - split_and!; congruence.
Qed.

Lemma sac_train_kept (w : World Agent) (b : Batch) : kept w (train b w).2.
Proof.
  cut (wp (train b) (λ _ w', kept w w') w); [done|].
  destruct b as [B o a r o2 d].
  destruct w as [s g ng tr].
  destruct s as [γ ρ al learn te md mdt po qo la ao at_].
  unfold train.
  match goal with |- wp _ ?Q _ => set (Post := Q) end.
  repeat wp_step.
  all: subst Post; split; simpl; rewrite ?polyak_update_length; try done.
  all: rewrite <- ?app_assoc; first [by eexists | exists []; by rewrite app_nil_r].
Qed.

Lemma ready_alpha (s : Agent) : ready s → ∃ α, current_alpha s = Some α.
Proof.
  unfold ready, current_alpha. destruct (learn_entropy_coef s).
  - intros [[la ->] _]. by eexists.
  - intros [α ->]. by eexists.
Qed.

(* a call keeps the optional attributes as [__post_init__] leaves them *)
Lemma sac_train_ready (w : World Agent) (b : Batch) :
  ready (self w) → ready (self (train b w).2).
Proof.
  cut (wp (train b) (λ _ w', ready (self w) → ready (self w')) w); [done|].
  destruct b as [B o a r o2 d].
  destruct w as [s g ng tr].
  destruct s as [γ ρ al learn te md mdt po qo la ao at_].
  unfold train.
  match goal with |- wp _ ?Q _ => set (Post := Q) end.
  repeat wp_step.
  all: subst Post; unfold ready; simpl; try done.
  all: intros [? ?]; by split.
Qed.

Lemma sac_ret_keys (w : World Agent) (b : Batch) (α : num) :
  ready (self w) → dom (ret_spec w b α) = keys_spec (self w).
Proof.
  unfold ready, ret_spec, keys_spec.
  destruct (learn_entropy_coef (self w)).
  - intros [[la ->] _]. rewrite !dom_insert_L, dom_singleton_L. set_solver.
  - intros _. rewrite !dom_insert_L, dom_singleton_L. set_solver.
Qed.

Lemma sac_calls_ready (bs : list Batch) (w : World Agent) :
  ready (self w) →
  Forall (λ r, ∃ ret, r = inr ret ∧ dom ret = keys_spec (self w))
         (calls train bs w).1.
Proof.
  revert w. induction bs as [|b bs IH]; intros w Hready; [constructor|].
  rewrite calls_cons. simpl.
  destruct (ready_alpha _ Hready) as [α Hα].
  destruct (sac_train_run w b α Hready Hα) as (ret & w' & Hrun & Hspec).
  pose proof (sac_train_ready w b Hready) as Hready'.
  pose proof (sac_train_kept w b) as Hkept.
  rewrite Hrun in *. simpl in *.
  constructor.
  - exists ret. split; [done|].
    rewrite (run_ret _ _ _ _ _ Hspec). by apply sac_ret_keys.
  - eapply Forall_impl; [by apply IH|].
    intros r (ret' & -> & Hdom). exists ret'. split; [done|].
    rewrite Hdom. unfold keys_spec. by rewrite (kept_learn _ _ Hkept).
Qed.

(** X1.  Given an approximator whose actor and critic calls return
    tensors of the batch size, a batch of that shape (what the types
    [Approximator] and [Batch] stand for) and every tensor on one
    device, [train] raises nothing of its own on a constructed SAC
    agent: every call of any sequence of [train] calls returns, and
    the mapping it returns has the keys [loss_actor] and
    [loss_critic], and [loss_entropy_coef] and [entropy_coef] besides
    exactly when the coefficient is learned. *)
Theorem sac_calls_return_losses (c : Config) (bs : list Batch)
    (g : trng) (ng : nprng) (tr : list Event) :
  Forall (λ r, ∃ ret, r = inr ret ∧
            dom ret =
              if c_learn_entropy_coef c
              then {[ "loss_actor"%string; "loss_critic"%string;
                      "loss_entropy_coef"%string; "entropy_coef"%string ]}
              else ({[ "loss_actor"%string; "loss_critic"%string ]} : gset string))
         (calls train bs (MkWorld (__post_init__ c) g ng tr)).1.
Proof.
  apply (sac_calls_ready bs (MkWorld (__post_init__ c) g ng tr)).
  apply post_init_ready.
Qed.

(** X2.  Whatever the state of the agent and however the calls end, a
    sequence of [train] calls changes none of gamma, polyak, alpha,
    learn_entropy_coef, target_entropy and the fixed alpha_t, never
    draws from numpy's generator, only appends to the trace, and
    keeps the number of parameters of each target module. *)
Theorem sac_calls_keep_configuration (bs : list Batch) (w : World Agent) :
  kept w (calls train bs w).2.
Proof.
  revert w. induction bs as [|b bs IH]; intros w; [apply kept_refl|].
  rewrite calls_cons. simpl.
  eapply kept_trans; [apply sac_train_kept|apply IH].
Qed.

(** X3.  On every completed SAC call the target parameters follow the
    polyak rule, module by module, with the live parameters as they
    are after the steps of this call: each target parameter paired
    with a live one becomes [polyak * target + (1 - polyak) * live],
    and their number does not change. *)
Theorem sac_target_follows_polyak_rule {FL : FloatLaws F}
    (w : World Agent) (b : Batch) :
  ready (self w) →
  ∃ ret w',
    train b w = (inr ret, w') ∧
    let ρ := polyak (self w) in
    let live := model (self w') in
    let before := model_target (self w) in
    let after := model_target (self w') in
    polyak_rule ρ (actor live) (actor before) (actor after) ∧
    polyak_rule ρ (q1 live) (q1 before) (q1 after) ∧
    polyak_rule ρ (q2 live) (q2 before) (q2 after).
Proof.
  intros Hready.
  destruct (ready_alpha _ Hready) as [α Hα].
  destruct (sac_train_run w b α Hready Hα) as (ret & w' & Hrun & Hspec).
  exists ret, w'. split; [exact Hrun|]. simpl.
  rewrite (run_model_target _ _ _ _ _ Hspec), <- (run_model _ _ _ _ _ Hspec).
  unfold polyak_model. simpl.
  split_and!; apply polyak_rule_update.
Qed.

Lemma backup_spec_terminal {FL : FloatLaws F} (w : World Agent) (b : Batch) α :
  b_d b = vreplicate (bsz b) one → backup_spec w b α = b_r b.
Proof.
  intros Hd. unfold backup_spec. apply vec_eq; intros i.
  rewrite lookup_fun_to_vec, Hd, vlookup_replicate, sub_one_one, mul_zero_r.
  by rewrite (mul_comm zero), mul_zero_r, add_zero_r.
Qed.

(** X4.  When every transition of the batch is terminal ([d = 1]),
    the backup of a SAC call is the reward: the returned
    [loss_critic] is the mean of the two critics' mean-squared errors
    against [r], whatever the target critics and the entropy
    coefficient are. *)
Theorem sac_terminal_batch_critic_loss {FL : FloatLaws F}
    (w : World Agent) (b : Batch) :
  ready (self w) →
  b_d b = vreplicate (bsz b) one →
  reports "loss_critic"
    (div (add (mse (forward_critic (q1 (model (self w))) (b_o b) (b_a b)) (b_r b))
              (mse (forward_critic (q2 (model (self w))) (b_o b) (b_a b)) (b_r b)))
         (of_Z 2))
    (train b w).1.
Proof.
  intros Hready Hd.
  destruct (ready_alpha _ Hready) as [α Hα].
  destruct (sac_train_run w b α Hready Hα) as (ret & w' & Hrun & Hspec).
  rewrite Hrun. exists ret. split; [done|].
  rewrite (run_ret _ _ _ _ _ Hspec).
  unfold ret_spec, critic_loss_spec. rewrite (backup_spec_terminal w b α Hd).
  destruct (learn_entropy_coef (self w)), (log_alpha (self w)); by simplify_map_eq.
Qed.

(** X22.  The first call of a SAC agent that learns its coefficient
    reports the configured [alpha] as [entropy_coef]: [__post_init__]
    stores [log(1 * alpha)], and the call uses its exponential as it
    is before the step of the coefficient optimizer. *)
Theorem sac_first_call_reports_alpha {FL : FloatLaws F} (c : Config)
    (b : Batch) (g : trng) (ng : nprng) (tr : list Event) :
  c_learn_entropy_coef c = true →
  exp (log (c_alpha c)) = c_alpha c →
  reports "entropy_coef" (c_alpha c)
    (train b (MkWorld (__post_init__ c) g ng tr)).1.
Proof.
  intros Hlearn Hexp.
  set (w := MkWorld (__post_init__ c) g ng tr).
  assert (Hα : current_alpha (self w) = Some (c_alpha c)).
  { subst w. simpl. rewrite post_init_alpha, Hlearn.
    by rewrite (mul_comm one), mul_one_r, Hexp. }
  destruct (sac_train_run w b (c_alpha c) (post_init_ready c) Hα)
    as (ret & w' & Hrun & Hspec).
  rewrite Hrun. exists ret. split; [done|].
  rewrite (run_ret _ _ _ _ _ Hspec). unfold ret_spec. subst w. simpl.
  rewrite Hlearn. by simplify_map_eq.
Qed.
End SacMore.

(** ** REDQ: the counter, failing configurations, sequences of calls *)

Section RedqMore.
Context {F : FloatOps} {AP : Approximator F} {AG : Autograd F} {NR : NumpyRandom}.
Import Redq RedqSpec RedqInv.

Lemma redq_kept_refl (w : World Agent) : kept w w.
Proof. split; try done. exists []. by rewrite app_nil_r. Qed.

Lemma redq_kept_trans (w1 w2 w3 : World Agent) :
  kept w1 w2 → kept w2 w3 → kept w1 w3.
Proof.
  intros [? ? ? ? ? ? ? ? ? [e1 He1] ? ? ?] [? ? ? ? ? ? ? ? ? [e2 He2] ? ? ?].
  split; try congruence.
  exists (e1 ++ e2). by rewrite He2, He1, app_assoc.
Qed.

Lemma redq_train_kept (w : World Agent) (b : Batch) : kept w (train b w).2.
Proof.
  cut (wp (train b) (λ _ w', kept w w') w); [done|].
  destruct b as [B o a r o2 d].
  destruct w as [s g ng tr].
  destruct s as [γ ρ al learn te n m k md mdt po qo lpi i la ao at_].
  unfold train.
  match goal with |- wp _ ?Q _ => set (Post := Q) end.
  repeat wp_step.
  all: subst Post; split; simpl;
    rewrite ?polyak_list_length, ?step_all_length_1, ?step_all_length_2; try done.
  all: rewrite <- ?app_assoc; first [by eexists | exists []; by rewrite app_nil_r].
Qed.

Lemma redq_train_counter (w : World Agent) (b : Batch) :
  i_update (self (train b w).2) = i_update (self w) + 1.
Proof.
  cut (wp (train b) (λ _ w', i_update (self w') = i_update (self w) + 1) w); [done|].
  destruct b as [B o a r o2 d].
  destruct w as [s g ng tr].
  destruct s as [γ ρ al learn te n m k md mdt po qo lpi i la ao at_].
  unfold train.
  match goal with |- wp _ ?Q _ => set (Post := Q) end.
  repeat wp_step.
  all: by subst Post.
Qed.

(* a call keeps the attributes of a learned coefficient *)
Lemma redq_train_optional (w : World Agent) (b : Batch) :
  (is_Some (log_alpha (self w)) → is_Some (log_alpha (self (train b w).2))) ∧
  (is_Some (alpha_optimizer (self w)) →
   is_Some (alpha_optimizer (self (train b w).2))).
Proof.
  cut (wp (train b) (λ _ w',
         (is_Some (log_alpha (self w)) → is_Some (log_alpha (self w'))) ∧
         (is_Some (alpha_optimizer (self w)) → is_Some (alpha_optimizer (self w')))) w);
    [done|].
  destruct b as [B o a r o2 d].
  destruct w as [s g ng tr].
  destruct s as [γ ρ al learn te n m k md mdt po qo lpi i la ao at_].
  unfold train.
  match goal with |- wp _ ?Q _ => set (Post := Q) end.
  repeat wp_step.
  all: subst Post; simpl; by split.
Qed.

(** X5.  The counter [i_update] counts the calls of [train], the ones
    that raise included: after any sequence of calls from any state it
    has grown by the number of calls. *)
Theorem redq_counter_counts_calls (bs : list Batch) (w : World Agent) :
  i_update (self (calls train bs w).2) = i_update (self w) + Z.of_nat (length bs).
Proof.
  revert w. induction bs as [|b bs IH]; intros w; simpl; [lia|].
  rewrite IH, redq_train_counter. lia.
Qed.

(** X6.  Whatever the state of the agent and however the calls end, a
    sequence of [train] calls changes none of gamma, polyak, alpha,
    learn_entropy_coef, target_entropy, n, m,
    q_updates_per_policy_update and the fixed alpha_t, only appends
    to the trace, and keeps the numbers of critics, of target critics
    and of critic optimizers. *)
Theorem redq_calls_keep_configuration (bs : list Batch) (w : World Agent) :
  kept w (calls train bs w).2.
Proof.
  revert w. induction bs as [|b bs IH]; intros w; [apply redq_kept_refl|].
  rewrite calls_cons. simpl.
  eapply redq_kept_trans; [apply redq_train_kept|apply IH].
Qed.

(** X7.  With [q_updates_per_policy_update = 0] every call raises
    [ZeroDivisionError] at line 246, having only incremented the
    counter. *)
Theorem redq_zero_utd_raises (w : World Agent) (b : Batch) :
  q_updates_per_policy_update (self w) = 0 →
  train b w =
    (inl ZeroDivisionError,
     MkWorld (set_i_update (i_update (self w) + 1) (self w))
             (torch_rng w) (np_rng w) (trace w)).
Proof.
  destruct w as [s g ng tr], b as [B o a r o2 d].
  destruct s as [γ ρ al learn te n m k md mdt po qo lpi i la ao at_].
  simpl. intros ->. reflexivity.
Qed.

(** X8.  With [m = 0] and [n >= 0], a call that gets to the subset
    sampling (a non-zero UTD ratio, an entropy coefficient to use)
    raises [RuntimeError] at line 272: the subset of target critics is
    empty and [torch.stack] refuses an empty list.  The critics, the
    actor, the target and their optimizers are as they were. *)
Theorem redq_empty_subset_raises (w : World Agent) (b : Batch) (α : num) :
  q_updates_per_policy_update (self w) ≠ 0 →
  current_alpha w = Some α →
  (learn_entropy_coef (self w) = true → is_Some (alpha_optimizer (self w))) →
  m (self w) = 0 →
  0 ≤ n (self w) →
  (train b w).1 = inl RuntimeError ∧
  model (self (train b w).2) = model (self w) ∧
  model_target (self (train b w).2) = model_target (self w) ∧
  q_optimizer_list (self (train b w).2) = q_optimizer_list (self w) ∧
  pi_optimizer (self (train b w).2) = pi_optimizer (self w).
Proof.
  intros Hk Hα Hopt Hm Hn.
  cut (wp (train b) (λ r w',
         r = inl RuntimeError ∧ model (self w') = model (self w) ∧
         model_target (self w') = model_target (self w) ∧
         q_optimizer_list (self w') = q_optimizer_list (self w) ∧
         pi_optimizer (self w') = pi_optimizer (self w)) w); [done|].
  revert Hk Hα Hopt Hm Hn. unfold current_alpha, update_policy, call_index.
  destruct b as [B o a r o2 d].
  destruct w as [s g ng tr].
  destruct s as [γ ρ al learn te n m k md mdt po qo lpi i la ao at_].
  simpl. intros Hk Hα Hopt -> Hn.
  assert (Hk' : bool_decide (k = 0) = false) by (by apply bool_decide_eq_false_2).
  unfold train.
  match goal with |- wp _ ?Q _ => set (Post := Q) end.
  destruct (bool_decide ((i + 1) `mod` k = 0)) eqn:Hup; destruct learn; simpl in *;
    [ destruct la as [la|]; [|done]; destruct Hopt as [ao' ->]; [done|]
    | subst at_ | subst at_ | subst at_ ].
  all: repeat wp_step.
  all: try (exfalso; lia).
  all: by subst Post.
Qed.

(** X9.  When the number of critics of the model is neither [n] nor 1
    (and [n] is not 1), no call completes: if nothing raised before,
    the shapes (B, K) and (B, n) do not broadcast in the criterion of
    line 280. *)
Theorem redq_ensemble_mismatch_raises (w : World Agent) (b : Batch) :
  broadcastable (length (qs (model (self w)))) (Z.to_nat (n (self w))) = false →
  ∃ e w', train b w = (inl e, w').
Proof.
  intros Hbc.
  cut (wp (train b) (λ r _, ∃ e, r = inl e) w).
  { unfold wp. destruct (train b w) as [r w']. simpl. intros [e ->]. eauto. }
  destruct b as [B o a r o2 d].
  destruct w as [s g ng tr].
  destruct s as [γ ρ al learn te n m k md mdt po qo lpi i la ao at_].
  destruct md as [θa θs]. simpl in Hbc.
  unfold train.
  destruct θs as [|θq θqs]; simpl in Hbc.
  - repeat wp_step; by eauto.
  - repeat (wp_simpl; first [ rewrite length_map, Hbc | wp_step ]); by eauto.
Qed.

(* the critics, their targets and their optimizers are as many *)
Lemma redq_calls_sizes (bs : list Batch) (w : World Agent) :
  length (q_optimizer_list (self w)) = length (qs (model (self w))) →
  length (qs (model_target (self w))) = length (qs (model (self w))) →
  let s' := self (calls train bs w).2 in
  length (q_optimizer_list s') = length (qs (model s')) ∧
  length (qs (model_target s')) = length (qs (model s')).
Proof.
  revert w. induction bs as [|b bs IH]; intros w Hopts Htargs; [done|].
  rewrite calls_cons. simpl.
  destruct (redq_train_kept w b) as [_ _ _ _ _ _ _ _ _ _ Hcr Htg Hop].
  apply IH; congruence.
Qed.

(** X21.  A constructed REDQ agent has one optimizer per critic and
    one target critic per critic, and keeps them: after any sequence
    of [train] calls, however they end, the numbers of critic
    optimizers, of target critics and of critics are the same. *)
Theorem redq_one_optimizer_per_critic (c : Config) (bs : list Batch)
    (g : trng) (ng : nprng) (tr : list Event) :
  let s' := self (calls train bs (MkWorld (__post_init__ c) g ng tr)).2 in
  length (q_optimizer_list s') = length (qs (model s')) ∧
  length (qs (model_target s')) = length (qs (model s')).
Proof.
  apply (redq_calls_sizes bs (MkWorld (__post_init__ c) g ng tr)).
  - simpl. by rewrite length_map.
  - done.
Qed.
End RedqMore.

(** ** REDQ: completed calls *)

Section RedqCompleted.
Context {F : FloatOps} {AP : Approximator F} {AG : Autograd F} {NR : NumpyRandom}.
Context {RL : NumpyRandomLaws NR}.
Import Redq RedqSpec RedqInv.

Lemma post_init_steady (c : Config) : valid_config c → steady (__post_init__ c).
Proof.
  intros (Hk & Hlearn & Hm & Hn). unfold steady, __post_init__. simpl.
  split; [exact Hk|]. split.
  { destruct (c_learn_entropy_coef c); [|by eexists].
    split_and!; [by apply Hlearn|by eexists|by eexists]. }
  split; [exact Hm|]. split; [lia|]. split.
  - rewrite Hn. unfold broadcastable. by rewrite bool_decide_eq_true_2.
  - intros Hnil. rewrite Hnil in Hn. simpl in Hn. lia.
Qed.

Lemma steady_runnable (w : World Agent) :
  steady (self w) → ∃ α, runnable w α.
Proof.
  intros (Hk & Hlearn & Hm & Htg & Hbc & Hqs).
  assert (Hup : learn_entropy_coef (self w) = true → update_policy w = true).
  { intros Hl. rewrite Hl in Hlearn. destruct Hlearn as (Hk1 & _).
    unfold update_policy. rewrite Hk1, Z.mod_1_r. by apply bool_decide_eq_true_2. }
  assert (Hα : ∃ α, current_alpha w = Some α).
  { unfold current_alpha. destruct (learn_entropy_coef (self w)) eqn:Hl.
    - rewrite (Hup eq_refl). simpl. destruct Hlearn as (_ & [la ->] & _). by eexists.
    - simpl. destruct Hlearn as [α ->]. by eexists. }
  destruct Hα as [α Hα]. exists α. split; try done.
  intros Hl. rewrite Hl in Hlearn. tauto.
Qed.

Lemma redq_train_steady (w : World Agent) (b : Batch) :
  steady (self w) → steady (self (train b w).2).
Proof.
  intros (Hk & Hlearn & Hm & Htg & Hbc & Hqs).
  destruct (redq_train_kept w b) as [_ _ _ Hl _ Hn Hm' Hk' Hat _ Hcr Htgs _].
  destruct (redq_train_optional w b) as [Hla Hao].
  unfold steady. rewrite Hl, Hn, Hm', Hk', Hat, Hcr, Htgs.
  split_and!; try done; try lia.
  - destruct (learn_entropy_coef (self w)); [|done].
    destruct Hlearn as (? & ? & ?). split_and!; auto.
  - intros Hnil. apply Hqs. apply nil_length_inv.
    by rewrite <- Hcr, Hnil.
Qed.

Lemma redq_ret_keys (w : World Agent) (b : Batch) (α : num) :
  runnable w α → dom (ret_spec w b α) = keys_spec (self w).
Proof.
  intros [_ Hph Hα _ _ _ _ _]. revert Hα. unfold current_alpha, ret_spec, keys_spec.
  destruct (learn_entropy_coef (self w)).
  - rewrite (Hph eq_refl). simpl. destruct (log_alpha (self w)); [|done].
    intros _. rewrite !dom_insert_L, dom_singleton_L. set_solver.
  - intros _. rewrite !dom_insert_L, dom_singleton_L. set_solver.
Qed.

Lemma redq_calls_steady (bs : list Batch) (w : World Agent) :
  steady (self w) →
  Forall (λ r, ∃ ret, r = inr ret ∧ dom ret = keys_spec (self w))
         (calls train bs w).1.
Proof.
  revert w. induction bs as [|b bs IH]; intros w Hsteady; [constructor|].
  rewrite calls_cons. simpl.
  destruct (steady_runnable w Hsteady) as [α Hrunnable].
  destruct (redq_train_run w b α Hrunnable) as (ret & w' & Hrun & Hspec).
  pose proof (redq_train_steady w b Hsteady) as Hsteady'.
  pose proof (redq_train_kept w b) as Hkept.
  rewrite Hrun in *. simpl in *.
  constructor.
  - exists ret. split; [done|].
    rewrite (run_ret _ _ _ _ _ Hspec). by apply redq_ret_keys.
  - eapply Forall_impl; [by apply IH|].
    intros r (ret' & -> & Hdom). exists ret'. split; [done|].
    rewrite Hdom. unfold keys_spec. by rewrite (kept_learn _ _ Hkept).
Qed.

(** X10.  Given an approximator whose actor and critic calls return
    tensors of the batch size, a batch of that shape (what the types
    [Approximator] and [Batch] stand for) and every tensor on one
    device, [train] raises nothing of its own on a REDQ agent
    constructed with a non-zero UTD ratio (1 if the coefficient is
    learned), with 0 < M <= N and with N the number of critics of its
    model: every call of any sequence of [train] calls returns, and
    the mapping it returns has the keys [loss_actor] and
    [loss_critic], and [loss_entropy_coef] and [entropy_coef] besides
    exactly when the coefficient is learned. *)
Theorem redq_calls_return_losses (c : Config) (bs : list Batch)
    (g : trng) (ng : nprng) (tr : list Event) :
  valid_config c →
  Forall (λ r, ∃ ret, r = inr ret ∧
            dom ret =
              if c_learn_entropy_coef c
              then {[ "loss_actor"%string; "loss_critic"%string;
                      "loss_entropy_coef"%string; "entropy_coef"%string ]}
              else ({[ "loss_actor"%string; "loss_critic"%string ]} : gset string))
         (calls train bs (MkWorld (__post_init__ c) g ng tr)).1.
Proof.
  intros Hc.
  apply (redq_calls_steady bs (MkWorld (__post_init__ c) g ng tr)).
  by apply post_init_steady.
Qed.

Lemma redq_calls_initial_loss (bs : list Batch) (w : World Agent) :
  steady (self w) →
  learn_entropy_coef (self w) = false →
  loss_pi (self w) = zero →
  0 ≤ i_update (self w) →
  i_update (self w) + Z.of_nat (length bs) < q_updates_per_policy_update (self w) →
  Forall (reports "loss_actor" zero) (calls train bs w).1.
Proof.
  revert w. induction bs as [|b bs IH]; intros w Hsteady Hl Hloss Hi Hlen;
    [constructor|].
  rewrite calls_cons. simpl. simpl in Hlen.
  destruct (steady_runnable w Hsteady) as [α Hrunnable].
  destruct (redq_train_run w b α Hrunnable) as (ret & w' & Hrun & Hspec).
  pose proof (redq_train_steady w b Hsteady) as Hsteady'.
  pose proof (redq_train_kept w b) as Hkept.
  rewrite Hrun in *. simpl in *.
  assert (Hup : update_policy w = false).
  { unfold update_policy, call_index. apply bool_decide_eq_false_2.
    rewrite Z.mod_small by lia. lia. }
  assert (Hloss' : loss_pi (self w') = zero).
  { rewrite (run_loss_pi _ _ _ _ _ Hspec). unfold loss_pi_after. by rewrite Hup. }
  constructor.
  - exists ret. split; [done|].
    rewrite (run_ret _ _ _ _ _ Hspec). unfold ret_spec, loss_pi_after.
    rewrite Hl, Hup, Hloss. by simplify_map_eq.
  - apply IH; try done.
    + by rewrite (kept_learn _ _ Hkept).
    + rewrite (run_i_update _ _ _ _ _ Hspec). unfold call_index. lia.
    + rewrite (run_i_update _ _ _ _ _ Hspec), (kept_utd _ _ Hkept).
      unfold call_index. lia.
Qed.

(** X11.  With a fixed entropy coefficient, every call before the
    first policy update (the first [q_updates_per_policy_update - 1]
    calls of a constructed agent) returns, with [loss_actor] the zero
    tensor that [__post_init__] stored in [self.loss_pi]. *)
Theorem redq_loss_actor_before_first_policy_update (c : Config)
    (bs : list Batch) (g : trng) (ng : nprng) (tr : list Event) :
  valid_config c →
  c_learn_entropy_coef c = false →
  Z.of_nat (length bs) < c_q_updates_per_policy_update c →
  Forall (reports "loss_actor" zero)
         (calls train bs (MkWorld (__post_init__ c) g ng tr)).1.
Proof.
  intros Hc Hl Hlen.
  apply (redq_calls_initial_loss bs (MkWorld (__post_init__ c) g ng tr));
    try done.
  by apply post_init_steady.
Qed.

(** X12.  On every completed REDQ call the target parameters follow
    the polyak rule, for the actor and critic by critic, with the live
    parameters as they are after the steps of this call: each target
    parameter paired with a live one becomes
    [polyak * target + (1 - polyak) * live], and their number does
    not change. *)
Theorem redq_target_follows_polyak_rule {FL : FloatLaws F}
    (w : World Agent) (b : Batch) (α : num) :
  runnable w α →
  ∃ ret w',
    train b w = (inr ret, w') ∧
    let ρ := polyak (self w) in
    let live := model (self w') in
    let before := model_target (self w) in
    let after := model_target (self w') in
    polyak_rule ρ (actor live) (actor before) (actor after) ∧
    ∀ j θ θt, qs live !! j = Some θ → qs before !! j = Some θt →
      ∃ θt', qs after !! j = Some θt' ∧ polyak_rule ρ θ θt θt'.
Proof.
  intros Hrunnable.
  destruct (redq_train_run w b α Hrunnable) as (ret & w' & Hrun & Hspec).
  exists ret, w'. split; [exact Hrun|]. simpl.
  rewrite (run_model_target _ _ _ _ _ Hspec), <- (run_model _ _ _ _ _ Hspec).
  unfold polyak_model. simpl. split; [apply polyak_rule_update|].
  intros j θ θt Hθ Hθt. eexists. split; [by apply polyak_list_lookup|].
  apply polyak_rule_update.
Qed.

(** X13.  On every completed REDQ call each critic is stepped by its
    own optimizer, with the gradient of the one critic loss of the
    call taken in the parameters of that critic alone. *)
Theorem redq_each_critic_own_step (w : World Agent) (b : Batch) (α : num) :
  runnable w α →
  ∃ ret w',
    train b w = (inr ret, w') ∧
    ∀ j θ opt,
      qs (model (self w)) !! j = Some θ →
      q_optimizer_list (self w) !! j = Some opt →
      qs (model (self w')) !! j =
        Some (adam_step opt θ
                (grad (λ θ', critic_loss_spec w b α (<[j:=θ']> (qs (model (self w))))) θ)).2.
Proof.
  intros Hrunnable.
  destruct (redq_train_run w b α Hrunnable) as (ret & w' & Hrun & Hspec).
  exists ret, w'. split; [exact Hrun|].
  intros j θ opt Hθ Hopt.
  rewrite (run_model _ _ _ _ _ Hspec). unfold model_after, qs_after. simpl.
  apply step_all_lookup; [done|done|].
  by rewrite list_lookup_imap, Hθ.
Qed.

(** X14.  On a completed REDQ call that updates the policy, the actor
    loss is the mean of [alpha_t * logp_pi] minus the average over all
    the critics of their predictions at the sampled action, with the
    critics as they are before their step of this call: its backward
    pass comes before the step of the critic optimizers, the actor is
    stepped with its gradient, and it is the returned [loss_actor]. *)
Theorem redq_actor_loss_before_critic_step (w : World Agent) (b : Batch) (α : num) :
  runnable w α →
  update_policy w = true →
  ∃ ret w' pre θq θqs,
    train b w = (inr ret, w') ∧
    qs (model (self w)) = θq :: θqs ∧
    trace w' = trace w ++ pre ++
      [Backward ActorOpt (actor_loss_spec w b α); Step CriticOpt;
       Step ActorOpt; PolyakUpdate] ∧
    ret !! "loss_actor"%string = Some (actor_loss_spec w b α) ∧
    actor (model (self w')) =
      (adam_step (pi_optimizer (self w)) (actor (model (self w)))
         (grad (loss_pi_of (b_o b) (torch_rng w) α θq θqs)
               (actor (model (self w))))).2.
Proof.
  intros Hrunnable Hup.
  destruct (redq_train_run w b α Hrunnable) as (ret & w' & Hrun & Hspec).
  destruct (qs (model (self w))) as [|θq θqs] eqn:Hqs;
    [by destruct (ok_critics _ _ Hrunnable)|].
  exists ret, w',
    (coef_events w b ++
     [SampleIdxs (sample_idxs w);
      TargetMin (vec_to_list <$> target_preds w b) (vec_to_list (target_min w b));
      Backward CriticOpt (critic_loss_spec w b α (qs (model (self w))))]),
    θq, θqs.
  split; [exact Hrun|]. split; [done|].
  rewrite (run_trace _ _ _ _ _ Hspec), (run_ret _ _ _ _ _ Hspec),
    (run_model _ _ _ _ _ Hspec).
  unfold events_spec, ret_spec, loss_pi_after, model_after, actor_after.
  rewrite Hup, Hqs. simpl. rewrite <- !app_assoc. simpl.
  split_and!; [done| |done].
  destruct (learn_entropy_coef (self w)), (log_alpha (self w)); by simplify_map_eq.
Qed.
End RedqCompleted.

Section RedqOffPhase.
Context {F : FloatOps} {AP : Approximator F} {AG : Autograd F} {NR : NumpyRandom}.
Import Redq RedqSpec.

(** X15.  A call that does not update the policy never touches the
    actor, on any state and however it ends: the parameters of the
    actor, its optimizer and the kept [self.loss_pi] are as they were,
    there is no backward pass and no step of the actor optimizer, and
    the actor is sampled at most once (at the next observations). *)
Theorem redq_off_phase_keeps_actor (w : World Agent) (b : Batch)
    (evs : list Event) :
  update_policy w = false →
  trace (train b w).2 = trace w ++ evs →
  let w' := (train b w).2 in
  events_of ActorOpt evs = [] ∧
  actor (model (self w')) = actor (model (self w)) ∧
  pi_optimizer (self w') = pi_optimizer (self w) ∧
  loss_pi (self w') = loss_pi (self w) ∧
  (torch_rng w' = torch_rng w ∨
   torch_rng w' =
     (forward_actor (actor (model (self w))) (b_o2 b) (torch_rng w)).2).
Proof.
  intros Hup. revert evs.
  cut (wp (train b) (λ _ w', ∀ evs,
         trace w' = trace w ++ evs →
         events_of ActorOpt evs = [] ∧
         actor (model (self w')) = actor (model (self w)) ∧
         pi_optimizer (self w') = pi_optimizer (self w) ∧
         loss_pi (self w') = loss_pi (self w) ∧
         (torch_rng w' = torch_rng w ∨
          torch_rng w' =
            (forward_actor (actor (model (self w))) (b_o2 b) (torch_rng w)).2)) w).
  { unfold wp. done. }
  revert Hup. unfold update_policy, call_index.
  destruct b as [B o a r o2 d].
  destruct w as [s g ng tr].
  destruct s as [γ ρ al learn te n m k md mdt po qo lpi i la ao at_].
  simpl. intros Hup.
  unfold train.
  match goal with |- wp _ ?Q _ => set (Post := Q) end.
  repeat wp_step.
  all: subst Post; simpl; intros evs Hevs.
  all: first [ apply trace_unchanged in Hevs
             | rewrite <- ?app_assoc in Hevs; apply app_inv_head in Hevs ].
  all: subst evs; split_and!; try done; by auto.
Qed.
End RedqOffPhase.

(** ** The critic loss of REDQ as an average over the ensemble *)

Section EnsembleMean.
Context {F : FloatOps} {AP : Approximator F} {AG : Autograd F} {NR : NumpyRandom}.
Context {FL : FloatLaws F} {ML : MeanLaws F}.

Lemma sum_div_distr {A} (f : A → num) (z : num) (l : list A) :
  foldr add zero (map (λ x, div (f x) z) l) = div (foldr add zero (map f l)) z.
Proof.
  induction l as [|x l IH]; simpl.
  - by rewrite div_zero_l.
  - by rewrite IH, div_add_distr.
Qed.

Lemma mse_loss_value_mean {B} (cols : list (tensor B)) (backup : tensor B) :
  mse_loss_value cols backup (length cols) =
  div (foldr add zero (map (λ q, mse q backup) cols))
      (of_Z (Z.of_nat (length cols))).
Proof.
  destruct cols as [|c cs].
  - simpl. by rewrite div_zero_l.
  - assert (Hin : broadcast_input (c, cs) (length (c :: cs)) = c :: cs)
      by (by destruct cs).
    cbv beta iota zeta delta [mse_loss_value]. rewrite Hin.
    generalize (c :: cs) as l. intros l. unfold mse, mean.
    rewrite (sum_div_distr
               (λ q, tsum (vzip_with (λ x y, square (sub x y)) q backup))
               (of_Z (Z.of_nat B)) l).
    by rewrite div_div, <- of_Z_mul, <- Nat2Z.inj_mul.
Qed.

Lemma loss_q_of_mean {B} (o : Obs B) (a : Act B)
    (backup : tensor B) (θs : list (list num)) :
  Redq.loss_q_of o a backup (length θs) θs = ensemble_mean_mse o a backup θs.
Proof.
  unfold Redq.loss_q_of, ensemble_mean_mse.
  rewrite <- (length_map (λ θ, forward_critic θ o a) θs) at 1.
  rewrite mse_loss_value_mean. by rewrite map_map, length_map.
Qed.

(** X16.  On a completed REDQ call of an agent with as many critics
    as [n], the returned [loss_critic] (the criterion of line 280, a
    mean over samples and critics) is the average over the critics of
    each critic's mean-squared error against the backup. *)
Theorem redq_critic_loss_is_ensemble_mean {RL : NumpyRandomLaws NR}
    (w : World Redq.Agent) (b : Batch) (α : num) :
  RedqSpec.runnable w α →
  Z.to_nat (Redq.n (self w)) = length (Redq.qs (Redq.model (self w))) →
  reports "loss_critic"
    (ensemble_mean_mse (b_o b) (b_a b) (RedqSpec.backup_spec w b α)
       (Redq.qs (Redq.model (self w))))
    (Redq.train b w).1.
Proof.
  intros Hrunnable Hn.
  destruct (redq_train_run w b α Hrunnable) as (ret & w' & Hrun & Hspec).
  rewrite Hrun. exists ret. split; [done|].
  rewrite (RedqSpec.run_ret _ _ _ _ _ Hspec).
  unfold RedqSpec.ret_spec, RedqSpec.critic_loss_spec.
  rewrite Hn, loss_q_of_mean.
  destruct (Redq.learn_entropy_coef (self w)), (Redq.log_alpha (self w));
    by simplify_map_eq.
Qed.

(** X17.  With two critics and [n = 2] the critic loss of REDQ is the
    critic loss of SAC, [(loss_q1 + loss_q2) / 2], for the same
    backup. *)
Theorem redq_two_critics_loss_is_sac_loss {B} (o : Obs B) (a : Act B)
    (backup : tensor B) (θ1 θ2 : list num) :
  Redq.loss_q_of o a backup 2 [θ1; θ2] = Sac.loss_q_of o a backup θ1 θ2.
Proof.
  unfold Redq.loss_q_of, Sac.loss_q_of.
  change 2%nat with (length [forward_critic θ1 o a; forward_critic θ2 o a]).
  rewrite mse_loss_value_mean. simpl. by rewrite add_zero_r.
Qed.
End EnsembleMean.

(** ** The target between calls, and calls that raise *)

Section FrozenTarget.
Context {F : FloatOps} {AP : Approximator F} {AG : Autograd F} {NR : NumpyRandom}.

(* a call changes the target by the polyak update or not at all *)
Lemma sac_train_target (w : World Sac.Agent) (b : Batch) :
  let w' := (Sac.train b w).2 in
  Sac.model_target (self w') = Sac.model_target (self w) ∨
  Sac.model_target (self w') =
    Sac.polyak_model (Sac.polyak (self w)) (Sac.model (self w'))
      (Sac.model_target (self w)).
Proof.
  cut (wp (Sac.train b) (λ _ w',
         Sac.model_target (self w') = Sac.model_target (self w) ∨
         Sac.model_target (self w') =
           Sac.polyak_model (Sac.polyak (self w)) (Sac.model (self w'))
             (Sac.model_target (self w))) w); [done|].
  destruct b as [B o a r o2 d].
  destruct w as [s g ng tr].
  destruct s as [γ ρ al learn te md mdt po qo la ao at_].
  unfold Sac.train.
  match goal with |- wp _ ?Q _ => set (Post := Q) end.
  repeat wp_step.
  all: subst Post; simpl; auto.
Qed.

Lemma redq_train_target (w : World Redq.Agent) (b : Batch) :
  let w' := (Redq.train b w).2 in
  Redq.model_target (self w') = Redq.model_target (self w) ∨
  Redq.model_target (self w') =
    Redq.polyak_model (Redq.polyak (self w)) (Redq.model (self w'))
      (Redq.model_target (self w)).
Proof.
  cut (wp (Redq.train b) (λ _ w',
         Redq.model_target (self w') = Redq.model_target (self w) ∨
         Redq.model_target (self w') =
           Redq.polyak_model (Redq.polyak (self w)) (Redq.model (self w'))
             (Redq.model_target (self w))) w); [done|].
  destruct b as [B o a r o2 d].
  destruct w as [s g ng tr].
  destruct s as [γ ρ al learn te n m k md mdt po qo lpi i la ao at_].
  unfold Redq.train.
  match goal with |- wp _ ?Q _ => set (Post := Q) end.
  repeat wp_step.
  all: subst Post; simpl; auto.
Qed.

Context {FL : FloatLaws F}.

Lemma polyak_list_one (ms ts : list (list num)) : polyak_list one ms ts = ts.
Proof.
  revert ts. induction ms as [|m ms IH]; intros [|t ts]; simpl; try done.
  by rewrite polyak_update_one, IH.
Qed.

(** X18.  With [polyak = 1] the target of a SAC agent is frozen: it
    is the same after any sequence of [train] calls, from any state
    and however the calls end. *)
Theorem sac_polyak_one_freezes_target (bs : list Batch) (w : World Sac.Agent) :
  Sac.polyak (self w) = one →
  Sac.model_target (self (calls Sac.train bs w).2) = Sac.model_target (self w).
Proof.
  revert w. induction bs as [|b bs IH]; intros w Hρ; [done|].
  rewrite calls_cons. simpl.
  rewrite IH by (by rewrite (SacInv.kept_polyak _ _ (sac_train_kept w b))).
  destruct (sac_train_target w b) as [H|H]; [done|].
  rewrite H, Hρ. unfold Sac.polyak_model.
  rewrite !polyak_update_one. by destruct (Sac.model_target (self w)).
Qed.

(** X19.  With [polyak = 1] the target of a REDQ agent is frozen: it
    is the same after any sequence of [train] calls, from any state
    and however the calls end. *)
Theorem redq_polyak_one_freezes_target (bs : list Batch) (w : World Redq.Agent) :
  Redq.polyak (self w) = one →
  Redq.model_target (self (calls Redq.train bs w).2) = Redq.model_target (self w).
Proof.
  revert w. induction bs as [|b bs IH]; intros w Hρ; [done|].
  rewrite calls_cons. simpl.
  rewrite IH by (by rewrite (RedqInv.kept_polyak _ _ (redq_train_kept w b))).
  destruct (redq_train_target w b) as [H|H]; [done|].
  rewrite H, Hρ. unfold Redq.polyak_model.
  rewrite polyak_update_one, polyak_list_one.
  by destruct (Redq.model_target (self w)).
Qed.
End FrozenTarget.

Section FailedCalls.
Context {F : FloatOps} {AP : Approximator F} {AG : Autograd F} {NR : NumpyRandom}.
Import Redq RedqSpec.

(** X20.  On an agent that has the attribute [alpha_t] only when the
    coefficient is fixed (as [__post_init__] makes it), a call of
    [train] that raises has updated neither the critics, the actor,
    the target, their optimizers nor [self.loss_pi]: every exception
    is raised before line 300. *)
Theorem redq_failed_call_keeps_parameters (w : World Agent) (b : Batch) (e : Exn) :
  (learn_entropy_coef (self w) = true → alpha_t (self w) = None) →
  (train b w).1 = inl e →
  let w' := (train b w).2 in
  model (self w') = model (self w) ∧
  model_target (self w') = model_target (self w) ∧
  q_optimizer_list (self w') = q_optimizer_list (self w) ∧
  pi_optimizer (self w') = pi_optimizer (self w) ∧
  loss_pi (self w') = loss_pi (self w).
Proof.
  intros Hat.
  cut (wp (train b) (λ r w',
         r = inl e →
         model (self w') = model (self w) ∧
         model_target (self w') = model_target (self w) ∧
         q_optimizer_list (self w') = q_optimizer_list (self w) ∧
         pi_optimizer (self w') = pi_optimizer (self w) ∧
         loss_pi (self w') = loss_pi (self w)) w); [done|].
  revert Hat.
  destruct b as [B o a r o2 d].
  destruct w as [s g ng tr].
  destruct s as [γ ρ al learn te n m k md mdt po qo lpi i la ao at_].
  simpl. intros Hat.
  unfold train.
  match goal with |- wp _ ?Q _ => set (Post := Q) end.
  repeat wp_step.
  all: subst Post; simpl; try done.
  all: by specialize (Hat eq_refl).
Qed.
End FailedCalls.

(** ** The further properties on the executable backend *)

Module ToyMeanLaws.
Import Toy.

Global Instance mean_laws : MeanLaws float.
Proof.
  split; simpl.
  - intros x y z. unfold Qcdiv. ring.
  - intros z. unfold Qcdiv. ring.
  - intros x y z. unfold Qcdiv. rewrite Qcinv_mult_distr. ring.
  - intros a b. apply Qc_is_canon. simpl.
    rewrite !Qred_correct, inject_Z_mult. reflexivity.
Qed.
End ToyMeanLaws.

Module MoreExamples.
Import Toy ToyLaws ToyMore ToyMeanLaws.

(** *** SAC *)

Lemma sac_fixed_ready : SacSpec.ready (self (sac_world false)).
Proof. vm_compute. eexists. reflexivity. Defined.

(* the first critic after the call (the plain gradient step of this
   backend, not Adam's) is [33/40, 17/20, -1/40]; its target was
   [1, 1, 0] and polyak is 1/2 *)
Example sac_target_after_call :
  fractions (Sac.q1 (Sac.model (self (after (Sac.train batch) (sac_world false)))))
    = [(33 # 40)%Q; (17 # 20)%Q; (-1 # 40)%Q] ∧
  fractions (Sac.q1 (Sac.model_target (self (after (Sac.train batch) (sac_world false)))))
    = [(73 # 80)%Q; (37 # 40)%Q; (-1 # 80)%Q].
Proof. by vm_compute. Qed.

Lemma sac_target_follows_polyak_rule_witness :
  SacSpec.ready (self (sac_world false)) ∧
  ∃ ret w',
    Sac.train batch (sac_world false) = (inr ret, w') ∧
    polyak_rule (frac 1 2) (Sac.q1 (Sac.model (self w')))
      [q 1; q 1; q 0] (Sac.q1 (Sac.model_target (self w'))).
Proof.
  split; [exact sac_fixed_ready|].
  destruct (sac_target_follows_polyak_rule (FL := float_laws)
              (sac_world false) batch sac_fixed_ready)
    as (ret & w' & Hrun & _ & Hq1 & _).
  exists ret, w'. split; [exact Hrun|exact Hq1].
Defined.

(* with both transitions terminal the backup is the reward [1, 0]; the
   critics predict [1, 3] and [1, 2]: loss_critic = (4.5 + 2) / 2 *)
Example sac_terminal_loss_critic :
  reported "loss_critic" (outcome (Sac.train terminal_batch) (sac_world false))
  = Some (13 # 4)%Q.
Proof. by vm_compute. Qed.

Lemma sac_terminal_batch_critic_loss_witness :
  SacSpec.ready (self (sac_world false)) ∧
  b_d terminal_batch = vreplicate 2 one ∧
  reports "loss_critic"
    (div (add (mse (forward_critic [q 1; q 1; q 0] (b_o terminal_batch)
                      (b_a terminal_batch)) (b_r terminal_batch))
              (mse (forward_critic [q 0; q 1; q 1] (b_o terminal_batch)
                      (b_a terminal_batch)) (b_r terminal_batch)))
         (of_Z 2))
    (Sac.train terminal_batch (sac_world false)).1.
Proof.
  split; [exact sac_fixed_ready|]. split; [reflexivity|].
  exact (sac_terminal_batch_critic_loss (FL := float_laws)
           (sac_world false) terminal_batch sac_fixed_ready eq_refl).
Defined.

Lemma sac_polyak_one_freezes_target_witness :
  Sac.polyak (self sac_frozen) = one ∧
  Sac.model_target (self (calls Sac.train [batch; batch] sac_frozen).2) =
    Sac.model_target (self sac_frozen).
Proof.
  split; [reflexivity|].
  exact (sac_polyak_one_freezes_target (FL := float_laws)
           [batch; batch] sac_frozen eq_refl).
Defined.

Lemma sac_first_call_reports_alpha_witness :
  Sac.c_learn_entropy_coef (sac_config true) = true ∧
  exp (log (q 1)) = q 1 ∧
  reports "entropy_coef" (q 1) (Sac.train batch (sac_world true)).1.
Proof.
  assert (H : exp (log (q 1)) = q 1) by (by vm_compute).
  split; [reflexivity|]. split; [exact H|].
  exact (sac_first_call_reports_alpha (FL := float_laws) (sac_config true)
           batch (q 0) 0%nat [] eq_refl H).
Defined.

(** *** REDQ: configurations that fail *)

Example redq_zero_utd :
  outcome (Redq.train batch) (redq_world false 2 1 0 0) = inl ZeroDivisionError.
Proof. by vm_compute. Qed.

Lemma redq_zero_utd_raises_witness :
  Redq.q_updates_per_policy_update (self (redq_world false 2 1 0 0)) = 0 ∧
  Redq.train batch (redq_world false 2 1 0 0) =
    (inl ZeroDivisionError,
     MkWorld (Redq.set_i_update 1 (self (redq_world false 2 1 0 0)))
             (q 0) 0%nat []).
Proof.
  split; [reflexivity|].
  exact (redq_zero_utd_raises (redq_world false 2 1 0 0) batch eq_refl).
Defined.

Example redq_empty_subset :
  outcome (Redq.train batch) (redq_world false 2 0 1 0) = inl RuntimeError.
Proof. by vm_compute. Qed.

Lemma redq_empty_subset_raises_witness :
  Redq.m (self (redq_world false 2 0 1 0)) = 0 ∧
  (Redq.train batch (redq_world false 2 0 1 0)).1 = inl RuntimeError.
Proof.
  split; [reflexivity|].
  refine (proj1 (redq_empty_subset_raises (redq_world false 2 0 1 0) batch (q 1)
                   _ eq_refl _ eq_refl _)).
  - simpl. lia.
  - simpl. intros H. discriminate H.
  - simpl. lia.
Defined.

(* a model of two critics with N = 3: the criterion raises when the
   sampled target critic exists, the indexing of the target critics
   when it does not *)
Example redq_ensemble_mismatch :
  outcome (Redq.train batch) (redq_world false 3 1 1 0) = inl RuntimeError ∧
  outcome (Redq.train batch) (redq_world false 3 1 1 2) = inl IndexError.
Proof. by vm_compute. Qed.

Lemma redq_ensemble_mismatch_raises_witness :
  broadcastable (length (Redq.qs (Redq.model (self (redq_world false 3 1 1 0))))) 3
    = false ∧
  ∃ e w', Redq.train batch (redq_world false 3 1 1 0) = (inl e, w').
Proof.
  split; [reflexivity|].
  exact (redq_ensemble_mismatch_raises (redq_world false 3 1 1 0) batch eq_refl).
Defined.

Lemma redq_failed_call_keeps_parameters_witness :
  (Redq.train batch redq_learned).1 = inl AttributeError ∧
  Redq.model (self (Redq.train batch redq_learned).2) =
    Redq.model (self redq_learned).
Proof.
  assert (H : (Redq.train batch redq_learned).1 = inl AttributeError)
    by (by vm_compute).
  split; [exact H|].
  refine (proj1 (redq_failed_call_keeps_parameters redq_learned batch
                   AttributeError _ H)).
  intros _. reflexivity.
Defined.

(** *** REDQ: sequences of calls *)

Lemma redq_fixed_valid (k : Z) : k ≠ 0 → RedqInv.valid_config (redq_fixed k).
Proof.
  intros Hk. unfold RedqInv.valid_config. simpl.
  split; [exact Hk|]. split; [intros H; discriminate H|].
  split; [lia|reflexivity].
Defined.

Lemma redq_calls_return_losses_witness :
  RedqInv.valid_config (redq_fixed 2) ∧
  Forall (λ r, ∃ ret : gmap string num, r = inr ret ∧
            dom ret = ({[ "loss_actor"%string; "loss_critic"%string ]} : gset string))
         (calls Redq.train [batch; batch; batch]
            (MkWorld (Redq.__post_init__ (redq_fixed 2)) (q 0) 0%nat [])).1.
Proof.
  assert (H : RedqInv.valid_config (redq_fixed 2))
    by (apply redq_fixed_valid; lia).
  split; [exact H|].
  exact (redq_calls_return_losses (RL := numpy_random_laws)
           (redq_fixed 2) [batch; batch; batch] (q 0) 0%nat [] H).
Defined.

(* one policy update per three calls: the first two calls return the
   zero tensor of [__post_init__]; the third value is the one of this
   backend, whose optimizer step is a plain gradient step *)
Example redq_fixed_three_calls :
  reported "loss_actor" <$> first_calls Redq.train 3 (redq_world false 2 1 3 0) =
  [Some 0%Q; Some 0%Q; Some (-449 # 80)%Q].
Proof. by vm_compute. Qed.

Lemma redq_loss_actor_before_first_policy_update_witness :
  RedqInv.valid_config (redq_fixed 3) ∧
  Redq.c_learn_entropy_coef (redq_fixed 3) = false ∧
  Forall (reports "loss_actor" zero)
         (calls Redq.train [batch; batch]
            (MkWorld (Redq.__post_init__ (redq_fixed 3)) (q 0) 0%nat [])).1.
Proof.
  assert (H : RedqInv.valid_config (redq_fixed 3))
    by (apply redq_fixed_valid; lia).
  split; [exact H|]. split; [reflexivity|].
  refine (redq_loss_actor_before_first_policy_update (RL := numpy_random_laws)
            (redq_fixed 3) [batch; batch] (q 0) 0%nat [] H eq_refl _).
  simpl. lia.
Defined.

Lemma redq_polyak_one_freezes_target_witness :
  Redq.polyak (self redq_frozen) = one ∧
  Redq.model_target (self (calls Redq.train [batch; batch] redq_frozen).2) =
    Redq.model_target (self redq_frozen).
Proof.
  split; [reflexivity|].
  exact (redq_polyak_one_freezes_target (FL := float_laws)
           [batch; batch] redq_frozen eq_refl).
Defined.

(** *** REDQ: completed calls *)

Lemma redq_fixed_runnable (k : Z) (seed : nat) :
  k ≠ 0 → RedqSpec.runnable (redq_world false 2 1 k seed) (q 1).
Proof.
  intros Hk. split; simpl.
  - exact Hk.
  - intros H. discriminate H.
  - reflexivity.
  - intros H. discriminate H.
  - lia.
  - lia.
  - reflexivity.
  - intros H. discriminate H.
Defined.

Lemma redq_target_follows_polyak_rule_witness :
  RedqSpec.runnable (redq_world false 2 1 2 0) (q 1) ∧
  ∃ ret w',
    Redq.train batch (redq_world false 2 1 2 0) = (inr ret, w') ∧
    polyak_rule (frac 1 2) (Redq.actor (Redq.model (self w')))
      [q 1; q 0] (Redq.actor (Redq.model_target (self w'))).
Proof.
  assert (H : RedqSpec.runnable (redq_world false 2 1 2 0) (q 1))
    by (apply redq_fixed_runnable; lia).
  split; [exact H|].
  destruct (redq_target_follows_polyak_rule (RL := numpy_random_laws)
              (FL := float_laws) (redq_world false 2 1 2 0) batch (q 1) H)
    as (ret & w' & Hrun & Hactor & _).
  exists ret, w'. split; [exact Hrun|exact Hactor].
Defined.

Lemma redq_each_critic_own_step_witness :
  RedqSpec.runnable (redq_world false 2 1 2 0) (q 1) ∧
  ∃ ret w',
    Redq.train batch (redq_world false 2 1 2 0) = (inr ret, w') ∧
    Redq.qs (Redq.model (self w')) !! 1%nat =
      Some (adam_step (frac 1 10) [q 0; q 1; q 1]
              (grad (λ θ', RedqSpec.critic_loss_spec (redq_world false 2 1 2 0)
                             batch (q 1) [[q 1; q 1; q 0]; θ'])
                    [q 0; q 1; q 1])).2.
Proof.
  assert (H : RedqSpec.runnable (redq_world false 2 1 2 0) (q 1))
    by (apply redq_fixed_runnable; lia).
  split; [exact H|].
  destruct (redq_each_critic_own_step (RL := numpy_random_laws)
              (redq_world false 2 1 2 0) batch (q 1) H)
    as (ret & w' & Hrun & Hstep).
  exists ret, w'. split; [exact Hrun|].
  exact (Hstep 1%nat [q 0; q 1; q 1] (frac 1 10) eq_refl eq_refl).
Defined.

Lemma redq_actor_loss_before_critic_step_witness :
  RedqSpec.runnable (redq_world false 2 1 1 0) (q 1) ∧
  RedqSpec.update_policy (redq_world false 2 1 1 0) = true ∧
  ∃ ret w',
    Redq.train batch (redq_world false 2 1 1 0) = (inr ret, w') ∧
    ret !! "loss_actor"%string =
      Some (RedqSpec.actor_loss_spec (redq_world false 2 1 1 0) batch (q 1)).
Proof.
  assert (H : RedqSpec.runnable (redq_world false 2 1 1 0) (q 1))
    by (apply redq_fixed_runnable; lia).
  split; [exact H|]. split; [reflexivity|].
  destruct (redq_actor_loss_before_critic_step (RL := numpy_random_laws)
              (redq_world false 2 1 1 0) batch (q 1) H eq_refl)
    as (ret & w' & pre & θq & θqs & Hrun & _ & _ & Hloss & _).
  exists ret, w'. split; [exact Hrun|exact Hloss].
Defined.

Lemma redq_off_phase_keeps_actor_witness :
  RedqSpec.update_policy (redq_world false 2 1 2 0) = false ∧
  Redq.actor (Redq.model (self (Redq.train batch (redq_world false 2 1 2 0)).2)) =
    Redq.actor (Redq.model (self (redq_world false 2 1 2 0))).
Proof.
  split; [reflexivity|].
  exact (proj1 (proj2
           (redq_off_phase_keeps_actor (redq_world false 2 1 2 0) batch
              (trace (Redq.train batch (redq_world false 2 1 2 0)).2)
              eq_refl eq_refl))).
Defined.

(** *** The critic loss of REDQ *)

Lemma redq_critic_loss_is_ensemble_mean_witness :
  RedqSpec.runnable (redq_world false 2 1 2 0) (q 1) ∧
  reports "loss_critic"
    (ensemble_mean_mse (b_o batch) (b_a batch)
       (RedqSpec.backup_spec (redq_world false 2 1 2 0) batch (q 1))
       [[q 1; q 1; q 0]; [q 0; q 1; q 1]])
    (Redq.train batch (redq_world false 2 1 2 0)).1.
Proof.
  assert (H : RedqSpec.runnable (redq_world false 2 1 2 0) (q 1))
    by (apply redq_fixed_runnable; lia).
  split; [exact H|].
  exact (redq_critic_loss_is_ensemble_mean (ML := mean_laws)
           (RL := numpy_random_laws) (redq_world false 2 1 2 0) batch (q 1)
           H eq_refl).
Defined.

Lemma redq_two_critics_loss_is_sac_loss_witness :
  Redq.loss_q_of (b_o batch) (b_a batch) (b_r batch) 2
    [[q 1; q 1; q 0]; [q 0; q 1; q 1]] =
  Sac.loss_q_of (b_o batch) (b_a batch) (b_r batch)
    [q 1; q 1; q 0] [q 0; q 1; q 1].
Proof.
  exact (redq_two_critics_loss_is_sac_loss (FL := float_laws) (ML := mean_laws)
           (b_o batch) (b_a batch) (b_r batch) [q 1; q 1; q 0] [q 0; q 1; q 1]).
Defined.
End MoreExamples.
